(** * Neural-Hand: gesture classification and action dispatch

    A shallow embedding of the classification and dispatch core of the
    gesture-control application:

    - [gesture_recognizer.py]: the geometric detectors, the per-frame
      arg-max, the five-slot history window and its vote, the cooldown gate;
    - [action_controller.py]: the cooldown table of the execution sink, the
      pointer filter, the drag state machine, emergency stop and reset;
    - [main.py]: the control-zone remap and [execute_gesture_action].

    Numbers.  Python floats are read as real numbers ([R]): every formula is
    the source's formula in exact arithmetic, and rounding of IEEE doubles is
    not part of the model.  Pixel coordinates and scroll amounts are Python
    ints ([Z]); [int(x)] truncates toward zero.

    Effects.  Calls into pyautogui and [time] go through a [World] that holds
    the clock, the pointer of the operating system, the log of the primitive
    calls that were performed and a script that says which of the coming
    calls raise.  A [try ... except Exception] of the source is a match on
    the outcome of the guarded calls. *)

From Stdlib Require Import Reals Lra Lia ZArith.
From stdpp Require Import gmap list strings.

Open Scope R_scope.

(** ** Python numerics *)

#[global] Instance Rlt_decision : RelDecision Rlt := Rlt_dec.
#[global] Instance Rle_decision : RelDecision Rle := Rle_dec.
#[global] Instance Rgt_decision : RelDecision Rgt := Rgt_dec.
#[global] Instance Req_decision : EqDecision R := Req_dec_T.

(** [min(a, b)] and [max(a, b)] of Python: the first argument wins ties. *)
Definition py_min (a b : R) : R := if bool_decide (b < a) then b else a.
Definition py_max (a b : R) : R := if bool_decide (b > a) then b else a.
Definition py_minZ (a b : Z) : Z := if bool_decide (b < a)%Z then b else a.
Definition py_maxZ (a b : Z) : Z := if bool_decide (b > a)%Z then b else a.

(** [int(x)] on a float: truncation toward zero. *)
Definition py_int (x : R) : Z :=
  if bool_decide (0 <= x) then Zfloor x else Zceil x.

(** [sum(xs)]: a left fold that starts from 0. *)
Definition py_sum (xs : list R) : R := foldl Rplus 0 xs.

(** ** Landmarks *)

Definition Landmark : Type := R * R * R.

Definition lm_x (p : Landmark) : R := p.1.1.
Definition lm_y (p : Landmark) : R := p.1.2.

(** [p[:2]] *)
Definition xy (p : Landmark) : R * R := (lm_x p, lm_y p).

(** [np.linalg.norm(a - b)] on two planar points. *)
Definition norm_diff (a b : R * R) : R :=
  sqrt ((a.1 - b.1) * (a.1 - b.1) + (a.2 - b.2) * (a.2 - b.2)).

Inductive GestureType : Type :=
  | NONE
  | INDEX_EXTENDED
  | THUMB_INDEX_PINCH
  | THUMB_MIDDLE_PINCH
  | TWO_FINGER_SCROLL
  | THREE_FINGER_CLOSE
  | THREE_FINGER_SPREAD
  | CLOSED_FIST
  | OPEN_PALM
  | THUMB_DOWN
  | THUMB_PINKY_EXTENDED.

#[global] Instance GestureType_eq_dec : EqDecision GestureType.
Proof. solve_decision. Defined.

Definition GestureType_to_nat (g : GestureType) : nat :=
  match g with
  | NONE => 0 | INDEX_EXTENDED => 1 | THUMB_INDEX_PINCH => 2
  | THUMB_MIDDLE_PINCH => 3 | TWO_FINGER_SCROLL => 4
  | THREE_FINGER_CLOSE => 5 | THREE_FINGER_SPREAD => 6 | CLOSED_FIST => 7
  | OPEN_PALM => 8 | THUMB_DOWN => 9 | THUMB_PINKY_EXTENDED => 10
  end%nat.

Definition GestureType_of_nat (n : nat) : GestureType :=
  match n with
  | 1 => INDEX_EXTENDED | 2 => THUMB_INDEX_PINCH | 3 => THUMB_MIDDLE_PINCH
  | 4 => TWO_FINGER_SCROLL | 5 => THREE_FINGER_CLOSE
  | 6 => THREE_FINGER_SPREAD | 7 => CLOSED_FIST | 8 => OPEN_PALM
  | 9 => THUMB_DOWN | 10 => THUMB_PINKY_EXTENDED | _ => NONE
  end%nat.

#[global] Instance GestureType_countable : Countable GestureType.
Proof.
  refine (inj_countable' GestureType_to_nat GestureType_of_nat _).
  intros []; reflexivity.
Defined.

(** A per-frame or stabilized classification. *)
Definition Classification : Type := GestureType * R.

(** ** gesture_recognizer.py *)

Module Recognizer.

(** Landmark indices. *)
Definition WRIST : nat := 0.
Definition THUMB_TIP : nat := 4.
Definition INDEX_TIP : nat := 8.
Definition MIDDLE_TIP : nat := 12.
Definition RING_TIP : nat := 16.
Definition PINKY_TIP : nat := 20.
Definition INDEX_MCP : nat := 5.
Definition MIDDLE_MCP : nat := 9.
Definition RING_MCP : nat := 13.
Definition PINKY_MCP : nat := 17.

Record GestureRecognizer : Type := mkRecognizer {
  pinch_threshold : R;
  finger_extended_threshold : R;
  hold_time : R;
  cooldown_time : R;
  current_gesture : GestureType;
  gesture_start_time : option R;
  last_activation_time : gmap GestureType R;
  gesture_history : list Classification   (* deque(maxlen=5) *)
}.

(** [GestureRecognizer.__init__] *)
Definition init : GestureRecognizer :=
  {| pinch_threshold := 5 / 100;
     finger_extended_threshold := 6 / 10;
     hold_time := 3 / 10;
     cooldown_time := 5 / 10;
     current_gesture := NONE;
     gesture_start_time := None;
     last_activation_time := ∅;
     gesture_history := [] |}.

Definition set_history (h : list Classification) (self : GestureRecognizer)
  : GestureRecognizer :=
  {| pinch_threshold := pinch_threshold self;
     finger_extended_threshold := finger_extended_threshold self;
     hold_time := hold_time self;
     cooldown_time := cooldown_time self;
     current_gesture := current_gesture self;
     gesture_start_time := gesture_start_time self;
     last_activation_time := last_activation_time self;
     gesture_history := h |}.

Definition set_last_activation_time (m : gmap GestureType R)
  (self : GestureRecognizer) : GestureRecognizer :=
  {| pinch_threshold := pinch_threshold self;
     finger_extended_threshold := finger_extended_threshold self;
     hold_time := hold_time self;
     cooldown_time := cooldown_time self;
     current_gesture := current_gesture self;
     gesture_start_time := gesture_start_time self;
     last_activation_time := m;
     gesture_history := gesture_history self |}.

Section Detectors.
Variable self : GestureRecognizer.
Variable landmarks : list Landmark.

(** Each detector body runs in [try]; an [IndexError] of [landmarks[i]]
    is the [None] of the list lookup, and the [except] branch is the
    default of [default]. *)

Definition _detect_pinch (finger1_idx finger2_idx : nat) : R :=
  default 0 (
    p1 ← landmarks !! finger1_idx;
    p2 ← landmarks !! finger2_idx;
    let distance := norm_diff (xy p1) (xy p2) in
    if bool_decide (distance < pinch_threshold self) then
      let confidence := 1 - distance / pinch_threshold self in
      Some (py_max 0 (py_min 1 confidence))
    else Some 0).

Definition _is_finger_extended (tip_idx mcp_idx : nat) : bool :=
  default false (
    tip ← landmarks !! tip_idx;
    mcp ← landmarks !! mcp_idx;
    wrist ← landmarks !! WRIST;
    let tip_to_wrist := norm_diff (xy tip) (xy wrist) in
    let mcp_to_wrist := norm_diff (xy mcp) (xy wrist) in
    let ratio := tip_to_wrist / (mcp_to_wrist + 1 / 1000000) in
    Some (bool_decide (ratio > finger_extended_threshold self))).

Definition fingers_extended : list bool :=
  [ _is_finger_extended INDEX_TIP INDEX_MCP;
    _is_finger_extended MIDDLE_TIP MIDDLE_MCP;
    _is_finger_extended RING_TIP RING_MCP;
    _is_finger_extended PINKY_TIP PINKY_MCP ].

(** [sum(flag for flag in flags)] over Python booleans. *)
Definition count_true (flags : list bool) : nat :=
  length (filter (λ b, b = true) flags).

Definition _detect_closed_fist : R :=
  let closed_count := count_true (negb <$> fingers_extended) in
  let confidence := INR closed_count / 4 in
  if bool_decide (confidence > 75 / 100) then confidence else 0.

Definition _detect_open_palm : R :=
  let extended_count := count_true fingers_extended in
  let confidence := INR extended_count / 4 in
  if bool_decide (confidence > 75 / 100) then confidence else 0.

Definition _detect_index_extended : R :=
  let index_extended := _is_finger_extended INDEX_TIP INDEX_MCP in
  let middle_extended := _is_finger_extended MIDDLE_TIP MIDDLE_MCP in
  let ring_extended := _is_finger_extended RING_TIP RING_MCP in
  let pinky_extended := _is_finger_extended PINKY_TIP PINKY_MCP in
  if index_extended && negb middle_extended && negb ring_extended
     && negb pinky_extended then 9 / 10
  else if index_extended then 5 / 10
  else 0.

Definition _detect_two_finger_scroll : R :=
  let index_extended := _is_finger_extended INDEX_TIP INDEX_MCP in
  let middle_extended := _is_finger_extended MIDDLE_TIP MIDDLE_MCP in
  let ring_extended := _is_finger_extended RING_TIP RING_MCP in
  let pinky_extended := _is_finger_extended PINKY_TIP PINKY_MCP in
  if index_extended && middle_extended && negb ring_extended
     && negb pinky_extended then 9 / 10
  else 0.

Definition _detect_three_finger_close : R :=
  default 0 (
    index_pos ← xy <$> landmarks !! INDEX_TIP;
    middle_pos ← xy <$> landmarks !! MIDDLE_TIP;
    ring_pos ← xy <$> landmarks !! RING_TIP;
    let dist_index_middle := norm_diff index_pos middle_pos in
    let dist_middle_ring := norm_diff middle_pos ring_pos in
    let threshold := 8 / 100 in
    if bool_decide (dist_index_middle < threshold)
       && bool_decide (dist_middle_ring < threshold) then
      let confidence :=
        1 - (dist_index_middle + dist_middle_ring) / (2 * threshold) in
      Some (py_max 0 (py_min 1 confidence))
    else Some 0).

Definition _detect_three_finger_spread : R :=
  let index_extended := _is_finger_extended INDEX_TIP INDEX_MCP in
  let middle_extended := _is_finger_extended MIDDLE_TIP MIDDLE_MCP in
  let ring_extended := _is_finger_extended RING_TIP RING_MCP in
  if negb (index_extended && middle_extended && ring_extended) then 0
  else default 0 (
    index_pos ← xy <$> landmarks !! INDEX_TIP;
    middle_pos ← xy <$> landmarks !! MIDDLE_TIP;
    ring_pos ← xy <$> landmarks !! RING_TIP;
    let dist_index_middle := norm_diff index_pos middle_pos in
    let dist_middle_ring := norm_diff middle_pos ring_pos in
    let min_spread := 1 / 10 in
    if bool_decide (dist_index_middle > min_spread)
       && bool_decide (dist_middle_ring > min_spread) then Some (8 / 10)
    else Some 0).

Definition _detect_thumb_down : R :=
  default 0 (
    thumb_tip ← landmarks !! THUMB_TIP;
    wrist ← landmarks !! WRIST;
    if bool_decide (lm_y thumb_tip > lm_y wrist) then
      let distance := lm_y thumb_tip - lm_y wrist in
      Some (py_min 1 (distance / (3 / 10)))
    else Some 0).

Definition _detect_thumb_pinky_extended : R :=
  default 0 (
    thumb_tip ← landmarks !! THUMB_TIP;
    pinky_tip ← landmarks !! PINKY_TIP;
    wrist ← landmarks !! WRIST;
    let thumb_dist := norm_diff (xy thumb_tip) (xy wrist) in
    let pinky_dist := norm_diff (xy pinky_tip) (xy wrist) in
    let index_extended := _is_finger_extended INDEX_TIP INDEX_MCP in
    let middle_extended := _is_finger_extended MIDDLE_TIP MIDDLE_MCP in
    let ring_extended := _is_finger_extended RING_TIP RING_MCP in
    if bool_decide (thumb_dist > 15 / 100)
       && bool_decide (pinky_dist > 15 / 100)
       && negb index_extended && negb middle_extended
       && negb ring_extended then Some (85 / 100)
    else Some 0).

(** The [gestures] dictionary of [recognize_gesture], in insertion
    order. *)
Definition gestures : list Classification :=
  [ (THUMB_INDEX_PINCH, _detect_pinch THUMB_TIP INDEX_TIP);
    (THUMB_MIDDLE_PINCH, _detect_pinch THUMB_TIP MIDDLE_TIP);
    (CLOSED_FIST, _detect_closed_fist);
    (OPEN_PALM, _detect_open_palm);
    (TWO_FINGER_SCROLL, _detect_two_finger_scroll);
    (THREE_FINGER_CLOSE, _detect_three_finger_close);
    (THREE_FINGER_SPREAD, _detect_three_finger_spread);
    (THUMB_DOWN, _detect_thumb_down);
    (THUMB_PINKY_EXTENDED, _detect_thumb_pinky_extended);
    (INDEX_EXTENDED, _detect_index_extended) ].
End Detectors.

(** [max(items, key=lambda x: x[1])]: the first item of maximal key;
    [None] stands for the [ValueError] on an empty sequence. *)
Definition max_by_confidence (items : list Classification)
  : option Classification :=
  match items with
  | [] => None
  | x :: rest =>
      Some (foldl (λ best y, if bool_decide (y.2 > best.2) then y else best)
                  x rest)
  end.

(** [deque(maxlen=5).append]: the oldest entry leaves when the window is
    full. *)
Definition history_maxlen : nat := 5.

Definition history_append (h : list Classification) (e : Classification)
  : list Classification :=
  let h' := h ++ [e] in
  if bool_decide (history_maxlen < length h')%nat then drop 1 h' else h'.

(** The loop that fills [gesture_counts]; a Python dict keeps its keys in
    insertion order, which is the order of the association list. *)
Fixpoint counts_append (counts : list (GestureType * list R))
  (gesture : GestureType) (confidence : R) : list (GestureType * list R) :=
  match counts with
  | [] => [(gesture, [confidence])]
  | (g, cs) :: rest =>
      if decide (g = gesture) then (g, cs ++ [confidence]) :: rest
      else (g, cs) :: counts_append rest gesture confidence
  end.

Definition gesture_counts_of (h : list Classification)
  : list (GestureType * list R) :=
  foldl (λ counts e, counts_append counts e.1 e.2) [] h.

Fixpoint counts_lookup (counts : list (GestureType * list R))
  (gesture : GestureType) : option (list R) :=
  match counts with
  | [] => None
  | (g, cs) :: rest =>
      if decide (g = gesture) then Some cs else counts_lookup rest gesture
  end.

(** One iteration of the search for the best group; the state is
    [(best_gesture, best_score)]. *)
Definition best_step (best : GestureType * R) (item : GestureType * list R)
  : GestureType * R :=
  let confidences := item.2 in
  let avg_confidence := py_sum confidences / INR (length confidences) in
  let score := INR (length confidences) * avg_confidence in
  if bool_decide (score > best.2) then (item.1, score) else best.

Definition _get_smoothed_gesture (self : GestureRecognizer)
  : Classification :=
  match gesture_history self with
  | [] => (NONE, 0)
  | _ :: _ =>
      let gesture_counts := gesture_counts_of (gesture_history self) in
      let best := foldl best_step (NONE, 0) gesture_counts in
      let best_gesture := best.1 in
      let avg_confidence :=
        match counts_lookup gesture_counts best_gesture with
        | Some cs => py_sum cs / INR (length cs)
        | None => 0
        end in
      (best_gesture, avg_confidence)
  end.

(** The classification of the frame alone, before it enters the window. *)
Definition frame_classification (self : GestureRecognizer)
  (landmarks : list Landmark) : option Classification :=
  best_gesture ← max_by_confidence (gestures self landmarks);
  let '(gesture_type, confidence) := best_gesture in
  if bool_decide (confidence < 5 / 10) then Some (NONE, 0)
  else Some (gesture_type, confidence).

Definition recognize_gesture (self : GestureRecognizer)
  (landmarks : list Landmark) : Classification * GestureRecognizer :=
  if bool_decide (length landmarks ≠ 21%nat) then ((NONE, 0), self)
  else
    match frame_classification self landmarks with
    | Some entry =>
        let self' :=
          set_history (history_append (gesture_history self) entry) self in
        (_get_smoothed_gesture self', self')
    | None => ((NONE, 0), self)   (* except Exception *)
    end.

(** [can_activate_gesture]; [now] is the value of [time.time()]. *)
Definition can_activate_gesture (self : GestureRecognizer) (now : R)
  (gesture : GestureType) : bool :=
  if decide (gesture = NONE) then false
  else
    let current_time := now in
    let last_time := default 0 (last_activation_time self !! gesture) in
    bool_decide (current_time - last_time > cooldown_time self).

Definition activate_gesture (self : GestureRecognizer) (now : R)
  (gesture : GestureType) : GestureRecognizer :=
  set_last_activation_time (<[gesture := now]> (last_activation_time self))
                           self.

Definition get_cursor_position (landmarks : list Landmark)
  : option (R * R) :=
  if bool_decide (length landmarks < 9)%nat then None
  else
    index_tip ← landmarks !! INDEX_TIP;
    Some (lm_x index_tip, lm_y index_tip).

(** The recognizer after a run of frames, oldest first. *)
Definition run_frames (self : GestureRecognizer)
  (frames : list (list Landmark)) : GestureRecognizer :=
  foldl (λ s lm, (recognize_gesture s lm).2) self frames.

End Recognizer.

(** ** The operating system behind pyautogui and time *)

Module Os.

(** The pyautogui calls the controller makes. *)
Inductive Call : Type :=
  | MoveTo (x y : Z)
  | Click
  | RightClick
  | Scroll (amount : Z)
  | MouseDown
  | MouseUp
  | Hotkey (key1 key2 : string)
  | Press (key : string).

Record World : Type := mkWorld {
  clock : R;                (* what time.time() returns *)
  pointer : Z * Z;          (* what pyautogui.position() returns *)
  performed : list Call;    (* the calls that took effect, oldest first *)
  script : list bool        (* per coming pyautogui call: does it raise? *)
}.

(** A computation that may raise; the world survives the exception. *)
Definition M (A : Type) : Type := World → option A * World.

Definition ret {A} (a : A) : M A := λ w, (Some a, w).

Definition bind {A B} (m : M A) (k : A → M B) : M B :=
  λ w, match m w with
       | (Some a, w') => k a w'
       | (None, w') => (None, w')
       end.

(** The next entry of the script decides whether a call raises; past the
    end of the script no call raises. *)
Definition attempt : M unit :=
  λ w, match script w with
       | raises :: rest =>
           (if raises then None else Some (),
            {| clock := clock w; pointer := pointer w;
               performed := performed w; script := rest |})
       | [] => (Some (), w)
       end.

Definition effect (c : Call) : M unit :=
  λ w, (Some (),
        {| clock := clock w;
           pointer := match c with MoveTo x y => (x, y) | _ => pointer w end;
           performed := performed w ++ [c];
           script := script w |}).

(** A pyautogui call with an effect. *)
Definition call (c : Call) : M unit := bind attempt (λ _, effect c).

(** [pyautogui.position()] *)
Definition position : M (Z * Z) :=
  bind attempt (λ _ w, (Some (pointer w), w)).

(** [time.time()] *)
Definition time : M R := λ w, (Some (clock w), w).

(** [time.sleep(seconds)] *)
Definition sleep (seconds : R) : M unit :=
  λ w, (Some (),
        {| clock := clock w + seconds; pointer := pointer w;
           performed := performed w; script := script w |}).

End Os.

Notation "'let*' x ':=' m 'in' k" := (Os.bind m (λ x, k))
  (at level 10, x name, m at level 100, k at level 200, only parsing).
Notation "'let*' '_' ':=' m 'in' k" := (Os.bind m (λ _, k))
  (at level 10, m at level 100, k at level 200, only parsing).

(** ** action_controller.py *)

Inductive ActionType : Type :=
  | MOVE_MOUSE
  | LEFT_CLICK
  | RIGHT_CLICK
  | SCROLL
  | DRAG_START
  | DRAG_END
  | MINIMIZE_WINDOW
  | MAXIMIZE_WINDOW
  | CLOSE_WINDOW
  | VOLUME_UP
  | VOLUME_DOWN.

#[global] Instance ActionType_eq_dec : EqDecision ActionType.
Proof. solve_decision. Defined.

Definition ActionType_to_nat (a : ActionType) : nat :=
  match a with
  | MOVE_MOUSE => 0 | LEFT_CLICK => 1 | RIGHT_CLICK => 2 | SCROLL => 3
  | DRAG_START => 4 | DRAG_END => 5 | MINIMIZE_WINDOW => 6
  | MAXIMIZE_WINDOW => 7 | CLOSE_WINDOW => 8 | VOLUME_UP => 9
  | VOLUME_DOWN => 10
  end%nat.

Definition ActionType_of_nat (n : nat) : ActionType :=
  match n with
  | 1 => LEFT_CLICK | 2 => RIGHT_CLICK | 3 => SCROLL | 4 => DRAG_START
  | 5 => DRAG_END | 6 => MINIMIZE_WINDOW | 7 => MAXIMIZE_WINDOW
  | 8 => CLOSE_WINDOW | 9 => VOLUME_UP | 10 => VOLUME_DOWN
  | _ => MOVE_MOUSE
  end%nat.

#[global] Instance ActionType_countable : Countable ActionType.
Proof.
  refine (inj_countable' ActionType_to_nat ActionType_of_nat _).
  intros []; reflexivity.
Defined.

Module Controller.

Record ActionController : Type := mkController {
  screen_width : Z;
  screen_height : Z;
  action_cooldowns : gmap ActionType R;
  last_action_time : gmap ActionType R;
  is_dragging : bool;
  drag_start_position : option (Z * Z);
  emergency_stop : bool;
  last_mouse_position : option (Z * Z);
  mouse_smoothing : R
}.

(** [ActionController.__init__]; the arguments are the result of
    [pyautogui.size()]. *)
Definition init (width height : Z) : ActionController :=
  {| screen_width := width;
     screen_height := height;
     action_cooldowns :=
       <[LEFT_CLICK := 1 / 10]> (<[RIGHT_CLICK := 1 / 10]> (
       <[SCROLL := 5 / 100]> (<[MINIMIZE_WINDOW := 1]> (
       <[MAXIMIZE_WINDOW := 1]> (<[CLOSE_WINDOW := 1]> (
       <[VOLUME_UP := 1 / 10]> (<[VOLUME_DOWN := 1 / 10]> ∅)))))));
     last_action_time := ∅;
     is_dragging := false;
     drag_start_position := None;
     emergency_stop := false;
     last_mouse_position := None;
     mouse_smoothing := 3 / 10 |}.

Definition set_last_action_time (m : gmap ActionType R)
  (self : ActionController) : ActionController :=
  {| screen_width := screen_width self;
     screen_height := screen_height self;
     action_cooldowns := action_cooldowns self;
     last_action_time := m;
     is_dragging := is_dragging self;
     drag_start_position := drag_start_position self;
     emergency_stop := emergency_stop self;
     last_mouse_position := last_mouse_position self;
     mouse_smoothing := mouse_smoothing self |}.

Definition set_drag (dragging : bool) (start : option (Z * Z))
  (self : ActionController) : ActionController :=
  {| screen_width := screen_width self;
     screen_height := screen_height self;
     action_cooldowns := action_cooldowns self;
     last_action_time := last_action_time self;
     is_dragging := dragging;
     drag_start_position := start;
     emergency_stop := emergency_stop self;
     last_mouse_position := last_mouse_position self;
     mouse_smoothing := mouse_smoothing self |}.

Definition set_emergency_stop (flag : bool) (self : ActionController)
  : ActionController :=
  {| screen_width := screen_width self;
     screen_height := screen_height self;
     action_cooldowns := action_cooldowns self;
     last_action_time := last_action_time self;
     is_dragging := is_dragging self;
     drag_start_position := drag_start_position self;
     emergency_stop := flag;
     last_mouse_position := last_mouse_position self;
     mouse_smoothing := mouse_smoothing self |}.

Definition set_last_mouse_position (p : option (Z * Z))
  (self : ActionController) : ActionController :=
  {| screen_width := screen_width self;
     screen_height := screen_height self;
     action_cooldowns := action_cooldowns self;
     last_action_time := last_action_time self;
     is_dragging := is_dragging self;
     drag_start_position := drag_start_position self;
     emergency_stop := emergency_stop self;
     last_mouse_position := p;
     mouse_smoothing := mouse_smoothing self |}.

(** The result of a method: the returned bool, the controller and the
    world after the call. *)
Definition Outcome : Type := bool * ActionController * Os.World.

(** [try: body; return True / except Exception: return False].  In every
    method the fields of [self] are assigned after the last call that can
    raise, so the controller of the [except] branch is the one the method
    was entered with. *)
Definition try_except (self : ActionController)
  (body : Os.M ActionController) (w : Os.World) : Outcome :=
  match body w with
  | (Some self', w') => (true, self', w')
  | (None, w') => (false, self, w')
  end.

Definition can_execute_action (self : ActionController) (w : Os.World)
  (action_type : ActionType) : bool :=
  if emergency_stop self then false
  else
    let current_time := Os.clock w in
    let last_time := default 0 (last_action_time self !! action_type) in
    let cooldown := default 0 (action_cooldowns self !! action_type) in
    bool_decide (current_time - last_time > cooldown).

(** The blend of one coordinate in [move_mouse]. *)
Definition smooth (self : ActionController) (prev target : Z) : Z :=
  py_int (IZR prev + IZR (target - prev) * (1 - mouse_smoothing self)).

(** The pixel [move_mouse] aims at before smoothing. *)
Definition target_pixel (size : Z) (normalized : R) : Z :=
  let target := py_int (normalized * IZR size) in
  py_maxZ 0 (py_minZ target (size - 1)).

Definition move_mouse (self : ActionController)
  (normalized_x normalized_y : R) (w : Os.World) : Outcome :=
  if emergency_stop self then (false, self, w)
  else
    try_except self (
      let target_x := target_pixel (screen_width self) normalized_x in
      let target_y := target_pixel (screen_height self) normalized_y in
      let '(target_x, target_y) :=
        match last_mouse_position self with
        | Some (prev_x, prev_y) =>
            (smooth self prev_x target_x, smooth self prev_y target_y)
        | None => (target_x, target_y)
        end in
      let* _ := Os.call (Os.MoveTo target_x target_y) in
      Os.ret (set_last_mouse_position (Some (target_x, target_y)) self)) w.

(** The shape shared by the clicks, the scroll, the window commands and
    the volume keys: gate, primitive calls, time stamp. *)
Definition gated_action (self : ActionController) (action_type : ActionType)
  (calls : Os.M unit) (w : Os.World) : Outcome :=
  if negb (can_execute_action self w action_type) then (false, self, w)
  else
    try_except self (
      let* _ := calls in
      let* now := Os.time in
      Os.ret (set_last_action_time
                (<[action_type := now]> (last_action_time self)) self)) w.

Definition left_click (self : ActionController) : Os.World → Outcome :=
  gated_action self LEFT_CLICK (Os.call Os.Click).

Definition right_click (self : ActionController) : Os.World → Outcome :=
  gated_action self RIGHT_CLICK (Os.call Os.RightClick).

Definition scroll (self : ActionController) (amount : Z)
  : Os.World → Outcome :=
  gated_action self SCROLL (Os.call (Os.Scroll amount)).

Definition start_drag (self : ActionController) (w : Os.World) : Outcome :=
  if is_dragging self then (false, self, w)
  else
    try_except self (
      let* current_position := Os.position in
      let* _ := Os.call Os.MouseDown in
      Os.ret (set_drag true (Some current_position) self)) w.

Definition end_drag (self : ActionController) (w : Os.World) : Outcome :=
  if negb (is_dragging self) then (false, self, w)
  else
    try_except self (
      let* _ := Os.call Os.MouseUp in
      let* end_position := Os.position in
      Os.ret (set_drag false None self)) w.

Definition minimize_window (self : ActionController) : Os.World → Outcome :=
  gated_action self MINIMIZE_WINDOW (
    let* _ := Os.call (Os.Hotkey "alt" "space") in
    let* _ := Os.sleep (1 / 10) in
    Os.call (Os.Press "n")).

Definition maximize_window (self : ActionController) : Os.World → Outcome :=
  gated_action self MAXIMIZE_WINDOW (
    let* _ := Os.call (Os.Hotkey "alt" "space") in
    let* _ := Os.sleep (1 / 10) in
    Os.call (Os.Press "x")).

Definition close_window (self : ActionController) : Os.World → Outcome :=
  gated_action self CLOSE_WINDOW (Os.call (Os.Hotkey "alt" "f4")).

(** [adjust_volume(direction)]; [up] is [direction == 'up']. *)
Definition adjust_volume (self : ActionController) (up : bool)
  : Os.World → Outcome :=
  let action_type := if up then VOLUME_UP else VOLUME_DOWN in
  gated_action self action_type (
    if up then Os.call (Os.Press "volumeup")
    else Os.call (Os.Press "volumedown")).

Definition set_mouse_smoothing (self : ActionController) (smoothing : R)
  : ActionController :=
  {| screen_width := screen_width self;
     screen_height := screen_height self;
     action_cooldowns := action_cooldowns self;
     last_action_time := last_action_time self;
     is_dragging := is_dragging self;
     drag_start_position := drag_start_position self;
     emergency_stop := emergency_stop self;
     last_mouse_position := last_mouse_position self;
     mouse_smoothing := py_max 0 (py_min 1 smoothing) |}.

Definition enable_emergency_stop (self : ActionController)
  : ActionController := set_emergency_stop true self.

Definition disable_emergency_stop (self : ActionController)
  : ActionController := set_emergency_stop false self.

Definition reset (self : ActionController) (w : Os.World)
  : ActionController * Os.World :=
  let '(self1, w1) :=
    if is_dragging self then
      let '(_, self', w') := end_drag self w in (self', w')
    else (self, w) in
  let self2 := set_last_action_time ∅ self1 in
  let self3 := set_last_mouse_position None self2 in
  let self4 := set_emergency_stop false self3 in
  (self4, w1).

(** The position a call of [move_mouse] emits. *)
Definition emitted (self : ActionController) (normalized_x normalized_y : R)
  : Z * Z :=
  let target_x := target_pixel (screen_width self) normalized_x in
  let target_y := target_pixel (screen_height self) normalized_y in
  match last_mouse_position self with
  | Some (prev_x, prev_y) =>
      (smooth self prev_x target_x, smooth self prev_y target_y)
  | None => (target_x, target_y)
  end.

(** [n] calls of [move_mouse] with the same arguments. *)
Fixpoint iterate_move (n : nat) (self : ActionController)
  (normalized_x normalized_y : R) (w : Os.World)
  : ActionController * Os.World :=
  match n with
  | O => (self, w)
  | S n' =>
      let '(_, self', w') := move_mouse self normalized_x normalized_y w in
      iterate_move n' self' normalized_x normalized_y w'
  end.

(** The coordinate stored after [n] more calls that aim at [target]. *)
Fixpoint iterate_smooth (self : ActionController) (n : nat)
  (prev target : Z) : Z :=
  match n with
  | O => prev
  | S n' => iterate_smooth self n' (smooth self prev target) target
  end.

(** [|output - target|] for the stored output position, in pixels. *)
Definition output_error (self : ActionController) (target : Z * Z) : R :=
  match last_mouse_position self with
  | Some p => norm_diff (IZR p.1, IZR p.2) (IZR target.1, IZR target.2)
  | None => 0   (* nothing was emitted yet *)
  end.

End Controller.

(** ** main.py *)

Module App.

Import Recognizer Controller.

Record GestureControlApp : Type := mkApp {
  gesture_recognizer : GestureRecognizer;
  action_controller : ActionController;
  control_enabled : bool;
  control_zone_margin : R;
  gesture_count : nat;
  gesture_history : list (R * string)   (* time stamp, action name *)
}.

Definition init (width height : Z) : GestureControlApp :=
  {| gesture_recognizer := Recognizer.init;
     action_controller := Controller.init width height;
     control_enabled := false;
     control_zone_margin := 15 / 100;
     gesture_count := 0;
     gesture_history := [] |}.

Definition set_controller (c : ActionController) (self : GestureControlApp)
  : GestureControlApp :=
  {| gesture_recognizer := gesture_recognizer self;
     action_controller := c;
     control_enabled := control_enabled self;
     control_zone_margin := control_zone_margin self;
     gesture_count := gesture_count self;
     gesture_history := gesture_history self |}.

Definition set_recognizer (r : GestureRecognizer) (self : GestureControlApp)
  : GestureControlApp :=
  {| gesture_recognizer := r;
     action_controller := action_controller self;
     control_enabled := control_enabled self;
     control_zone_margin := control_zone_margin self;
     gesture_count := gesture_count self;
     gesture_history := gesture_history self |}.

(** One coordinate of [map_to_screen_coordinates]; [None] is the
    [ZeroDivisionError] of a margin of one half. *)
Definition map_coordinate (margin hand : R) : option R :=
  if decide (1 - 2 * margin = 0) then None
  else
    let mapped := (hand - margin) / (1 - 2 * margin) in
    Some (py_max 0 (py_min 1 mapped)).

Definition map_to_screen_coordinates (self : GestureControlApp)
  (hand_x hand_y : R) : option (R * R) :=
  mapped_x ← map_coordinate (control_zone_margin self) hand_x;
  mapped_y ← map_coordinate (control_zone_margin self) hand_y;
  Some (mapped_x, mapped_y).

(** [add_recent_action]: the list keeps the last ten entries; the text
    widget it refreshes is outside the model. *)
Definition add_recent_action (self : GestureControlApp) (now : R)
  (action_name : string) : GestureControlApp :=
  let history := gesture_history self ++ [(now, action_name)] in
  let history :=
    if bool_decide (10 < length history)%nat then drop 1 history
    else history in
  {| gesture_recognizer := gesture_recognizer self;
     action_controller := action_controller self;
     control_enabled := control_enabled self;
     control_zone_margin := control_zone_margin self;
     gesture_count := gesture_count self;
     gesture_history := history |}.

Definition count_gesture (self : GestureControlApp) : GestureControlApp :=
  {| gesture_recognizer := gesture_recognizer self;
     action_controller := action_controller self;
     control_enabled := control_enabled self;
     control_zone_margin := control_zone_margin self;
     gesture_count := S (gesture_count self);
     gesture_history := gesture_history self |}.

Definition Outcome : Type := bool * GestureControlApp * Os.World.

(** The branch shared by the two pinches, the fist and the palm: gate of
    the recognizer, action of the controller (its result is dropped),
    activation, counter, log. *)
Definition gated_dispatch (self : GestureControlApp)
  (gesture_type : GestureType)
  (action : ActionController → Os.World → Controller.Outcome)
  (action_name : string) (w : Os.World) : Outcome :=
  if can_activate_gesture (gesture_recognizer self) (Os.clock w)
                          gesture_type then
    let '(_, c, w1) := action (action_controller self) w in
    let r := activate_gesture (gesture_recognizer self) (Os.clock w1)
                              gesture_type in
    let self1 := count_gesture (set_recognizer r (set_controller c self)) in
    (true, add_recent_action self1 (Os.clock w1) action_name, w1)
  else (false, self, w).

Definition execute_gesture_action (self : GestureControlApp)
  (gesture_type : GestureType) (landmarks : list Landmark)
  (last_pos : option (R * R)) (scroll_start_y : option R) (w : Os.World)
  : Outcome :=
  match gesture_type with
  | INDEX_EXTENDED =>
      match get_cursor_position landmarks with
      | Some cursor_pos =>
          match map_to_screen_coordinates self cursor_pos.1 cursor_pos.2 with
          | Some (mapped_x, mapped_y) =>
              let '(_, c, w1) :=
                move_mouse (action_controller self) mapped_x mapped_y w in
              (true, set_controller c self, w1)
          | None => (false, self, w)   (* except Exception *)
          end
      | None => (true, self, w)
      end
  | THUMB_INDEX_PINCH =>
      gated_dispatch self gesture_type left_click "Left Click" w
  | THUMB_MIDDLE_PINCH =>
      gated_dispatch self gesture_type right_click "Right Click" w
  | TWO_FINGER_SCROLL =>
      match get_cursor_position landmarks, scroll_start_y with
      | Some cursor_pos, Some start_y =>
          let delta_y := cursor_pos.2 - start_y in
          if bool_decide (Rabs delta_y > 2 / 100) then
            let scroll_amount := py_int (- delta_y * 150) in
            let '(_, c, w1) :=
              scroll (action_controller self) scroll_amount w in
            (true, set_controller c self, w1)
          else (false, self, w)
      | _, _ => (false, self, w)
      end
  | CLOSED_FIST =>
      gated_dispatch self gesture_type minimize_window "Minimize Window" w
  | OPEN_PALM =>
      gated_dispatch self gesture_type maximize_window "Maximize Window" w
  | THUMB_PINKY_EXTENDED =>
      match get_cursor_position landmarks with
      | Some cursor_pos =>
          if bool_decide (cursor_pos.2 < 4 / 10) then
            let '(_, c, w1) := adjust_volume (action_controller self) true w in
            (true, add_recent_action (set_controller c self) (Os.clock w1)
                     "Volume Up", w1)
          else if bool_decide (cursor_pos.2 > 6 / 10) then
            let '(_, c, w1) :=
              adjust_volume (action_controller self) false w in
            (true, add_recent_action (set_controller c self) (Os.clock w1)
                     "Volume Down", w1)
          else (true, self, w)
      | None => (false, self, w)
      end
  | _ => (false, self, w)
  end.

(** The two variables [processing_loop] carries from frame to frame. *)
Record LoopVars : Type := mkLoopVars {
  last_index_pos : option (R * R);
  scroll_start_y : option R
}.

(** The body of [processing_loop] for a frame in which a hand was found:
    recognition, dispatch, and the bookkeeping of the scroll origin. *)
Definition process_hand (self : GestureControlApp) (vars : LoopVars)
  (first_hand_landmarks : list Landmark) (w : Os.World)
  : GestureControlApp * LoopVars * Os.World :=
  let '((gesture_type, confidence), r) :=
    recognize_gesture (gesture_recognizer self) first_hand_landmarks in
  let self := set_recognizer r self in
  if control_enabled self && bool_decide (gesture_type ≠ NONE) then
    let '(action_executed, self1, w1) :=
      execute_gesture_action self gesture_type first_hand_landmarks
        (last_index_pos vars) (scroll_start_y vars) w in
    if action_executed then
      let pos := get_cursor_position first_hand_landmarks in
      let start :=
        if decide (gesture_type = TWO_FINGER_SCROLL) then
          match scroll_start_y vars, pos with
          | None, Some p => Some p.2
          | _, _ => scroll_start_y vars
          end
        else None in
      (self1, {| last_index_pos := pos; scroll_start_y := start |}, w1)
    else (self1, vars, w1)
  else
    (self, {| last_index_pos := last_index_pos vars;
              scroll_start_y := None |}, w).

End App.

(** ** Definitions that follow the specification's words *)

Module Spec.

(** "clamp to [0,1]" *)
Definition clamp01 (x : R) : R := Rmax 0 (Rmin 1 x).

(** "mapped = (h − m) / (1 − 2m), then clamp to [0,1]" *)
Definition remap (m h : R) : R := clamp01 ((h - m) / (1 - 2 * m)).

(** The entries of a class in a history window, its count, the average of
    its stored confidences and its score "count × average_confidence". *)
Definition confidences_of (g : GestureType) (h : list Classification)
  : list R :=
  snd <$> filter (λ e, e.1 = g) h.

Definition count (g : GestureType) (h : list Classification) : nat :=
  length (confidences_of g h).

Definition total (xs : list R) : R := foldr Rplus 0 xs.

Definition average_confidence (g : GestureType) (h : list Classification)
  : R :=
  total (confidences_of g h) / INR (count g h).

Definition score (g : GestureType) (h : list Classification) : R :=
  INR (count g h) * average_confidence g h.

Definition present (g : GestureType) (h : list Classification) : Prop :=
  g ∈ h.*1.

(** "round(x)": an integer nearest to [x]. *)
Definition is_round (x : R) (z : Z) : Prop := Rabs (IZR z - x) <= 1 / 2.

End Spec.

(** What [recognize_gesture] puts into the window: the null gesture with
    confidence 0, or a class whose confidence reached the threshold. *)
Definition valid_entry (e : Classification) : Prop :=
  e = (NONE, 0) ∨ 1 / 2 <= e.2.

Definition valid_window (h : list Classification) : Prop :=
  Forall valid_entry h.

(** The score [_get_smoothed_gesture] gives to a group of confidences. *)
Definition group_score (confidences : list R) : R :=
  INR (length confidences)
  * (py_sum confidences / INR (length confidences)).

(** No pyautogui call to come raises. *)
Definition never_raises (w : Os.World) : Prop :=
  Forall (λ raises, raises = false) (Os.script w).

(** The first [n] pyautogui calls to come do not raise. *)
Definition quiet (n : nat) (w : Os.World) : Prop :=
  Forall (λ raises, raises = false) (take n (Os.script w)).

(** ** Concrete states used in examples *)

(** A world in which no call raises. *)
Definition calm_world : Os.World :=
  {| Os.clock := 1000; Os.pointer := (10, 20)%Z; Os.performed := [];
     Os.script := [] |}.

(** The application right after start, with emergency stop enabled. *)
Definition stopped_app : App.GestureControlApp :=
  App.set_controller
    (Controller.enable_emergency_stop
       (App.action_controller (App.init 1920 1080)))
    (App.init 1920 1080).

(** A controller whose last emitted position is one pixel short of the
    centre of a 1920 x 1080 screen in both coordinates. *)
Definition near_centre : Controller.ActionController :=
  Controller.set_last_mouse_position (Some (959, 539)%Z)
    (Controller.init 1920 1080).

(** Twenty-one landmarks at the origin. *)
Definition flat_hand : list Landmark := replicate 21 (0, 0, 0).

(** A hand whose index tip is at height 0.475. *)
Definition scroll_hand : list Landmark :=
  replicate 8 (0, 0, 0) ++ (1 / 2, 475 / 1000, 0) :: replicate 12 (0, 0, 0).

(** ** Definitions for the properties beyond the claims *)

(** The last [n] entries of a list. *)
Definition last_n {A} (n : nat) (l : list A) : list A :=
  drop (length l - n) l.

(** The per-frame classifications a run of frames puts into the window,
    oldest first; a frame whose length is not 21 contributes none. *)
Definition frame_entries (self : Recognizer.GestureRecognizer)
  (frames : list (list Landmark)) : list Classification :=
  omap (λ lm, if bool_decide (length lm = 21%nat)
              then Recognizer.frame_classification self lm else None)
       frames.

(** An entry as [recognize_gesture] stores it, with its class and the
    bounds of its confidence. *)
Definition frame_entry (e : Classification) : Prop :=
  e = (NONE, 0) ∨ (e.1 ≠ NONE ∧ 1 / 2 <= e.2 <= 1).

(** The methods of [ActionController], as requests to a controller. *)
Inductive Method : Type :=
  | MoveMouse (normalized_x normalized_y : R)
  | LeftClick
  | RightClick
  | ScrollBy (amount : Z)
  | StartDrag
  | EndDrag
  | MinimizeWindow
  | MaximizeWindow
  | CloseWindow
  | AdjustVolume (up : bool)
  | SetMouseSmoothing (smoothing : R)
  | EnableEmergencyStop
  | DisableEmergencyStop
  | Reset.

(** A call of a method: what it returns ([None] for a method without
    return value), the controller and the world after it. *)
Definition call_method (m : Method) (self : Controller.ActionController)
  (w : Os.World) : option bool * Controller.ActionController * Os.World :=
  let returns (o : Controller.Outcome) := (Some o.1.1, o.1.2, o.2) in
  match m with
  | MoveMouse x y => returns (Controller.move_mouse self x y w)
  | LeftClick => returns (Controller.left_click self w)
  | RightClick => returns (Controller.right_click self w)
  | ScrollBy amount => returns (Controller.scroll self amount w)
  | StartDrag => returns (Controller.start_drag self w)
  | EndDrag => returns (Controller.end_drag self w)
  | MinimizeWindow => returns (Controller.minimize_window self w)
  | MaximizeWindow => returns (Controller.maximize_window self w)
  | CloseWindow => returns (Controller.close_window self w)
  | AdjustVolume up => returns (Controller.adjust_volume self up w)
  | SetMouseSmoothing smoothing =>
      (None, Controller.set_mouse_smoothing self smoothing, w)
  | EnableEmergencyStop => (None, Controller.enable_emergency_stop self, w)
  | DisableEmergencyStop => (None, Controller.disable_emergency_stop self, w)
  | Reset => (None, (Controller.reset self w).1, (Controller.reset self w).2)
  end.

(** The action type whose cooldown gates a method, if any. *)
Definition gate_of (m : Method) : option ActionType :=
  match m with
  | LeftClick => Some LEFT_CLICK
  | RightClick => Some RIGHT_CLICK
  | ScrollBy _ => Some SCROLL
  | MinimizeWindow => Some MINIMIZE_WINDOW
  | MaximizeWindow => Some MAXIMIZE_WINDOW
  | CloseWindow => Some CLOSE_WINDOW
  | AdjustVolume up => Some (if up then VOLUME_UP else VOLUME_DOWN)
  | _ => None
  end.

(** The pyautogui calls a method is written to make. *)
Definition may_call (m : Method) (c : Os.Call) : Prop :=
  match m with
  | MoveMouse _ _ => ∃ x y, c = Os.MoveTo x y
  | LeftClick => c = Os.Click
  | RightClick => c = Os.RightClick
  | ScrollBy amount => c = Os.Scroll amount
  | StartDrag => c = Os.MouseDown
  | EndDrag | Reset => c = Os.MouseUp
  | MinimizeWindow => c = Os.Hotkey "alt" "space" ∨ c = Os.Press "n"
  | MaximizeWindow => c = Os.Hotkey "alt" "space" ∨ c = Os.Press "x"
  | CloseWindow => c = Os.Hotkey "alt" "f4"
  | AdjustVolume up =>
      c = Os.Press (if up then "volumeup" else "volumedown")
  | SetMouseSmoothing _ | EnableEmergencyStop | DisableEmergencyStop => False
  end.

(** The log of [w'] is the log of [w] followed by calls that satisfy [P],
    and a world in which nothing raises stays one. *)
Definition extends (P : Os.Call → Prop) (w w' : Os.World) : Prop :=
  ∃ extra,
    Os.performed w' = Os.performed w ++ extra ∧ Forall P extra ∧
    (never_raises w → never_raises w').

(** A computation all of whose effects are calls that satisfy [P]. *)
Definition only {A} (P : Os.Call → Prop) (m : Os.M A) : Prop :=
  ∀ w, extends P w (m w).2.

(** The stored pointer position and the smoothing factor are in range. *)
Definition on_screen (self : Controller.ActionController) : Prop :=
  (0 < Controller.screen_width self)%Z ∧
  (0 < Controller.screen_height self)%Z ∧
  0 <= Controller.mouse_smoothing self <= 1 ∧
  match Controller.last_mouse_position self with
  | Some (x, y) =>
      (0 ≤ x ≤ Controller.screen_width self - 1)%Z ∧
      (0 ≤ y ≤ Controller.screen_height self - 1)%Z
  | None => True
  end.

(** A pointer movement stays on the screen of [self]. *)
Definition move_on_screen (self : Controller.ActionController)
  (c : Os.Call) : Prop :=
  match c with
  | Os.MoveTo x y =>
      (0 ≤ x ≤ Controller.screen_width self - 1)%Z ∧
      (0 ≤ y ≤ Controller.screen_height self - 1)%Z
  | _ => True
  end.

(** Dragging means a start position is recorded, and conversely. *)
Definition drag_consistent (self : Controller.ActionController) : Prop :=
  Controller.is_dragging self = true
  ↔ Controller.drag_start_position self ≠ None.

#[global] Instance Call_eq_dec : EqDecision Os.Call.
Proof. solve_decision. Defined.

Definition count_call (c : Os.Call) (log : list Os.Call) : nat :=
  length (filter (λ x, x = c) log).

(** Button presses and releases in the log pair up, with one press open
    exactly while dragging. *)
Definition button_balance (self : Controller.ActionController)
  (w : Os.World) : Prop :=
  count_call Os.MouseDown (Os.performed w)
  = (count_call Os.MouseUp (Os.performed w)
     + if Controller.is_dragging self then 1 else 0)%nat.

(** A world whose first call succeeds and whose second call raises. *)
Definition raising_world : Os.World :=
  {| Os.clock := 1000; Os.pointer := (10, 20)%Z; Os.performed := [];
     Os.script := [false; true] |}.

(** The controller method that the dispatch of a gesture may call. *)
Definition method_for (gesture : GestureType) (m : Method) : Prop :=
  match gesture, m with
  | INDEX_EXTENDED, MoveMouse _ _
  | THUMB_INDEX_PINCH, LeftClick
  | THUMB_MIDDLE_PINCH, RightClick
  | TWO_FINGER_SCROLL, ScrollBy _
  | CLOSED_FIST, MinimizeWindow
  | OPEN_PALM, MaximizeWindow
  | THUMB_PINKY_EXTENDED, AdjustVolume _ => True
  | _, _ => False
  end.

(** The pyautogui calls that can come from the dispatch of a gesture. *)
Definition dispatch_call (c : Os.Call) : Prop :=
  match c with
  | Os.MoveTo _ _ | Os.Click | Os.RightClick | Os.Scroll _ => True
  | Os.Hotkey key1 key2 => key1 = "alt" ∧ key2 = "space"
  | Os.Press key =>
      key = "n" ∨ key = "x" ∨ key = "volumeup" ∨ key = "volumedown"
  | Os.MouseDown | Os.MouseUp => False
  end.

(** The name under which the dispatch logs a gated gesture. *)
Definition action_name (gesture : GestureType) : string :=
  match gesture with
  | THUMB_INDEX_PINCH => "Left Click"
  | THUMB_MIDDLE_PINCH => "Right Click"
  | CLOSED_FIST => "Minimize Window"
  | OPEN_PALM => "Maximize Window"
  | _ => ""
  end.

(** The gestures whose dispatch passes the gate of the recognizer. *)
Definition gated_gesture (gesture : GestureType) : Prop :=
  gesture = THUMB_INDEX_PINCH ∨ gesture = THUMB_MIDDLE_PINCH ∨
  gesture = CLOSED_FIST ∨ gesture = OPEN_PALM.

(** ** main.py: the handlers that change what the loop reads, and the loop *)

Definition on_smoothing_change (self : App.GestureControlApp) (value : R)
  : App.GestureControlApp :=
  App.set_controller
    (Controller.set_mouse_smoothing (App.action_controller self) value) self.

Definition on_zone_change (self : App.GestureControlApp) (value : R)
  : App.GestureControlApp :=
  {| App.gesture_recognizer := App.gesture_recognizer self;
     App.action_controller := App.action_controller self;
     App.control_enabled := App.control_enabled self;
     App.control_zone_margin := value;
     App.gesture_count := App.gesture_count self;
     App.gesture_history := App.gesture_history self |}.

Definition toggle_control (self : App.GestureControlApp)
  : App.GestureControlApp :=
  {| App.gesture_recognizer := App.gesture_recognizer self;
     App.action_controller := App.action_controller self;
     App.control_enabled := negb (App.control_enabled self);
     App.control_zone_margin := App.control_zone_margin self;
     App.gesture_count := App.gesture_count self;
     App.gesture_history := App.gesture_history self |}.

(** What the user does in the window while the loop runs. *)
Inductive Event : Type :=
  | SmoothingChange (value : R)
  | ZoneChange (value : R)
  | ToggleControl.

Definition handle (self : App.GestureControlApp) (e : Event)
  : App.GestureControlApp :=
  match e with
  | SmoothingChange value => on_smoothing_change self value
  | ZoneChange value => on_zone_change self value
  | ToggleControl => toggle_control self
  end.

(** One round of [processing_loop]: the time that passed since the round
    before, the events handled in between, and the landmarks of the first
    hand of the frame, if the tracker delivered a frame with a hand. *)
Record Round : Type := mkRound {
  elapsed : R;
  events : list Event;
  hand : option (list Landmark)
}.

(** The rounds of [processing_loop] from given loop variables; a round
    without a hand goes on with the next one ([continue]). *)
Fixpoint loop_from (self : App.GestureControlApp) (vars : App.LoopVars)
  (rounds : list Round) (w : Os.World)
  : App.GestureControlApp * App.LoopVars * Os.World :=
  match rounds with
  | [] => (self, vars, w)
  | round :: rest =>
      let w := (Os.sleep (elapsed round) w).2 in
      let self := foldl handle self (events round) in
      match hand round with
      | None => loop_from self vars rest w
      | Some first_hand_landmarks =>
          let '(self1, vars1, w1) :=
            App.process_hand self vars first_hand_landmarks w in
          loop_from self1 vars1 rest w1
      end
  end.

Definition processing_loop (self : App.GestureControlApp)
  (rounds : list Round) (w : Os.World)
  : App.GestureControlApp * App.LoopVars * Os.World :=
  loop_from self
    {| App.last_index_pos := None; App.scroll_start_y := None |} rounds w.

(** A pyautogui call other than a scroll. *)
Definition not_scroll (c : Os.Call) : Prop :=
  match c with Os.Scroll _ => False | _ => True end.

(** Two rounds with the flat hand; control is toggled before the second. *)
Definition sample_rounds : list Round :=
  [ {| elapsed := 1; events := [ZoneChange (1 / 10)];
       hand := Some flat_hand |};
    {| elapsed := 1; events := [ToggleControl]; hand := Some flat_hand |} ].

(** Three rounds in which control is never toggled; the second has no
    hand. *)
Definition monitoring_rounds : list Round :=
  [ {| elapsed := 1; events := [SmoothingChange (1 / 2)];
       hand := Some flat_hand |};
    {| elapsed := 2; events := []; hand := None |};
    {| elapsed := 1; events := [ZoneChange (1 / 10)];
       hand := Some scroll_hand |} ].

(** ** Python numerics: lemmas *)

Lemma py_int_eq (x : R) (z : Z) :
  0 <= x → IZR z <= x < IZR z + 1 → py_int x = z.
Proof.
  intros Hx Hz. unfold py_int. rewrite bool_decide_eq_true_2 by done.
  by apply Zfloor_eq.
Qed.

Lemma py_int_eq_neg (x : R) (z : Z) :
  x < 0 → IZR z - 1 < x <= IZR z → py_int x = z.
Proof.
  intros Hx Hz. unfold py_int. rewrite bool_decide_eq_false_2 by lra.
  by apply Zceil_eq.
Qed.

Lemma py_int_IZR (z : Z) : py_int (IZR z) = z.
Proof.
  unfold py_int. case_bool_decide.
  - apply ZfloorZ.
  - apply Zceil_eq. lra.
Qed.

Lemma py_min_Rmin (a b : R) : py_min a b = Rmin a b.
Proof.
  unfold py_min, Rmin. case_bool_decide; destruct (Rle_dec a b); lra.
Qed.

Lemma py_max_Rmax (a b : R) : py_max a b = Rmax a b.
Proof.
  unfold py_max, Rmax. case_bool_decide; destruct (Rle_dec a b); lra.
Qed.

Lemma py_clamp_id (x : R) : 0 <= x <= 1 → py_max 0 (py_min 1 x) = x.
Proof.
  intros Hx. unfold py_max, py_min. repeat case_bool_decide; lra.
Qed.

Lemma norm_diff_nonneg (a b : R * R) : 0 <= norm_diff a b.
Proof. apply sqrt_pos. Qed.

Lemma norm_diff_same (a : R * R) : norm_diff a a = 0.
Proof.
  unfold norm_diff.
  replace ((a.1 - a.1) * (a.1 - a.1) + (a.2 - a.2) * (a.2 - a.2)) with 0
    by ring.
  apply sqrt_0.
Qed.

(** ** The detectors *)

Section DetectorFacts.
Import Recognizer.
Variable self : GestureRecognizer.

Lemma _detect_pinch_found (lm : list Landmark) (i j : nat)
  (p1 p2 : Landmark) :
  lm !! i = Some p1 → lm !! j = Some p2 →
  _detect_pinch self lm i j =
    let distance := norm_diff (xy p1) (xy p2) in
    if bool_decide (distance < pinch_threshold self)
    then py_max 0 (py_min 1 (1 - distance / pinch_threshold self))
    else 0.
Proof.
  intros H1 H2. unfold _detect_pinch. rewrite H1, H2. simpl.
  by case_bool_decide.
Qed.

(** Below a threshold the ratio [d / threshold] lies in [0, 1). *)
Lemma ratio_below (d threshold : R) :
  0 <= d → d < threshold → 0 <= d / threshold < 1.
Proof.
  intros Hd Hlt. assert (0 < threshold) as Hpos by lra. split.
  - apply Rmult_le_pos; [done|]. left. by apply Rinv_0_lt_compat.
  - apply (Rmult_lt_reg_r threshold); [done|].
    unfold Rdiv. rewrite Rmult_assoc, Rinv_l by lra. lra.
Qed.

(** The four extension flags decide both whole-hand detectors. *)
Lemma count_true_negb (flags : list bool) :
  (count_true (negb <$> flags) + count_true flags = length flags)%nat.
Proof.
  unfold count_true. induction flags as [|[] flags IH]; [done|..].
  - rewrite fmap_cons. cbn [negb].
    rewrite filter_cons_False by done. rewrite filter_cons_True by done.
    simpl. lia.
  - rewrite fmap_cons. cbn [negb]. rewrite filter_cons_True by done.
    rewrite (filter_cons_False _ false) by done. simpl. lia.
Qed.
End DetectorFacts.

Section DetectorTheorems.
Import Recognizer.

(** C5.  With [d] the planar distance of the two fingertips, the pinch
    detector returns 0 when [d] is at least [pinch_threshold] and
    [1 - d / pinch_threshold] when it is below; the confidence is
    strictly decreasing in [d] below the threshold, and coinciding
    fingertips (distance 0) give exactly 1 for a positive threshold. *)
Theorem pinch_confidence (self : GestureRecognizer)
  (lm lm' : list Landmark) (i j : nat) (p1 p2 q1 q2 : Landmark) :
  lm !! i = Some p1 → lm !! j = Some p2 →
  lm' !! i = Some q1 → lm' !! j = Some q2 →
  let d := norm_diff (xy p1) (xy p2) in
  let d' := norm_diff (xy q1) (xy q2) in
  let threshold := pinch_threshold self in
  (threshold <= d → _detect_pinch self lm i j = 0) ∧
  (d < threshold → _detect_pinch self lm i j = 1 - d / threshold) ∧
  (d < d' → d' < threshold →
     _detect_pinch self lm' i j < _detect_pinch self lm i j) ∧
  (0 < threshold → d = 0 → _detect_pinch self lm i j = 1) ∧
  (0 < threshold → xy p1 = xy p2 → _detect_pinch self lm i j = 1).
Proof.
  intros H1 H2 H1' H2' d d' threshold.
  rewrite (_detect_pinch_found self lm i j p1 p2 H1 H2).
  rewrite (_detect_pinch_found self lm' i j q1 q2 H1' H2').
  cbv zeta. fold d d' threshold.
  assert (0 <= d) as Hd by apply norm_diff_nonneg.
  assert (0 <= d') as Hd' by apply norm_diff_nonneg.
  assert (∀ x, 0 <= x → x < threshold →
            py_max 0 (py_min 1 (1 - x / threshold)) = 1 - x / threshold)
    as Hclamp.
  { intros x Hx Hlt. apply py_clamp_id.
    pose proof (ratio_below x threshold Hx Hlt). lra. }
  assert (d = 0 → 0 < threshold →
          (if bool_decide (d < threshold)
           then py_max 0 (py_min 1 (1 - d / threshold)) else 0) = 1)
    as Hzero.
  { intros Hd0 Hpos. rewrite bool_decide_eq_true_2 by lra.
    rewrite Hclamp by lra. rewrite Hd0. unfold Rdiv. lra. }
  repeat split.
  - intros Hge. by rewrite bool_decide_eq_false_2 by lra.
  - intros Hlt. rewrite bool_decide_eq_true_2 by done. by apply Hclamp.
  - intros Hdd Hlt.
    rewrite !bool_decide_eq_true_2 by lra.
    rewrite !Hclamp by lra.
    assert (0 < / threshold) by (apply Rinv_0_lt_compat; lra).
    unfold Rdiv. nra.
  - intros Hpos Hd0. by apply Hzero.
  - intros Hpos Hxy. apply Hzero; [|done].
    unfold d. rewrite Hxy. apply norm_diff_same.
Qed.

Lemma pinch_confidence_witness :
  flat_hand !! THUMB_TIP = Some (0, 0, 0) ∧
  flat_hand !! INDEX_TIP = Some (0, 0, 0) ∧
  scroll_hand !! THUMB_TIP = Some (0, 0, 0) ∧
  scroll_hand !! INDEX_TIP = Some (1 / 2, 475 / 1000, 0) ∧
  _detect_pinch Recognizer.init flat_hand THUMB_TIP INDEX_TIP = 1.
Proof.
  repeat (split; [reflexivity|]).
  destruct (pinch_confidence Recognizer.init flat_hand scroll_hand
              THUMB_TIP INDEX_TIP (0, 0, 0) (0, 0, 0) (0, 0, 0)
              (1 / 2, 475 / 1000, 0) eq_refl eq_refl eq_refl eq_refl)
    as (_ & _ & _ & _ & Hsame).
  apply Hsame; [simpl; lra | reflexivity].
Defined.

(** C7.  The closed-fist and the open-palm detector are never both
    positive, and both return 0 when one to three of the four non-thumb
    fingers are extended; this holds for every landmark sequence, the
    hands of 21 landmarks among them. *)
Theorem fist_palm_exclusive (self : GestureRecognizer)
  (lm : list Landmark) :
  let extended := count_true (fingers_extended self lm) in
  ¬ (_detect_closed_fist self lm > 0 ∧ _detect_open_palm self lm > 0) ∧
  ((1 ≤ extended ≤ 3)%nat →
     _detect_closed_fist self lm = 0 ∧ _detect_open_palm self lm = 0) ∧
  (_detect_closed_fist self lm > 0 → extended = 0%nat) ∧
  (_detect_open_palm self lm > 0 → extended = 4%nat).
Proof.
  intros extended.
  pose proof (count_true_negb (fingers_extended self lm)) as Hsum.
  change (length (fingers_extended self lm)) with 4%nat in Hsum.
  fold extended in Hsum.
  set (closed := count_true (negb <$> fingers_extended self lm)) in *.
  assert (_detect_closed_fist self lm =
          if bool_decide (INR closed / 4 > 75 / 100)
          then INR closed / 4 else 0) as -> by done.
  assert (_detect_open_palm self lm =
          if bool_decide (INR extended / 4 > 75 / 100)
          then INR extended / 4 else 0) as -> by done.
  assert (closed = 4 - extended ∧ extended ≤ 4)%nat as [-> Hle] by lia.
  clear Hsum.
  destruct extended as [|[|[|[|[|n]]]]]; [..|lia]; simpl;
    repeat case_bool_decide; repeat split; intros; try lia; try lra.
Qed.
End DetectorTheorems.

(** ** Invalid input *)

(** C2.  A landmark sequence whose length is not 21, the empty one
    included, is classified as the null gesture with confidence 0; the
    recognizer is left as it was and nothing is raised (the call returns
    this value). *)
Theorem recognize_gesture_invalid_length
  (self : Recognizer.GestureRecognizer) (landmarks : list Landmark) :
  length landmarks ≠ 21%nat →
  Recognizer.recognize_gesture self landmarks = ((NONE, 0), self).
Proof.
  intros Hlen. unfold Recognizer.recognize_gesture.
  by rewrite bool_decide_eq_true_2.
Qed.

Lemma recognize_gesture_invalid_length_witness :
  length (replicate 20 ((0, 0, 0) : Landmark)) ≠ 21%nat ∧
  Recognizer.recognize_gesture Recognizer.init (replicate 20 (0, 0, 0))
    = ((NONE, 0), Recognizer.init).
Proof.
  split.
  - rewrite length_replicate. lia.
  - apply recognize_gesture_invalid_length. rewrite length_replicate. lia.
Defined.

Lemma recognize_gesture_empty (self : Recognizer.GestureRecognizer) :
  Recognizer.recognize_gesture self [] = ((NONE, 0), self).
Proof. reflexivity. Qed.

(** ** Control-zone remap *)

Lemma map_coordinate_remap (m h : R) :
  0 <= m < 1 / 2 → App.map_coordinate m h = Some (Spec.remap m h).
Proof.
  intros Hm. unfold App.map_coordinate, Spec.remap, Spec.clamp01.
  rewrite decide_False by lra.
  by rewrite py_min_Rmin, py_max_Rmax.
Qed.

Lemma remap_range (m h : R) : 0 <= Spec.remap m h <= 1.
Proof.
  unfold Spec.remap, Spec.clamp01, Rmax, Rmin.
  repeat match goal with |- context [Rle_dec ?a ?b] =>
           destruct (Rle_dec a b) end; lra.
Qed.

Lemma remap_low (m h : R) : 0 <= m < 1 / 2 → h <= m → Spec.remap m h = 0.
Proof.
  intros Hm Hh. unfold Spec.remap, Spec.clamp01.
  assert (0 < / (1 - 2 * m)) by (apply Rinv_0_lt_compat; lra).
  assert ((h - m) / (1 - 2 * m) <= 0) by (unfold Rdiv; nra).
  rewrite Rmin_right by lra. by rewrite Rmax_left.
Qed.

Lemma remap_high (m h : R) :
  0 <= m < 1 / 2 → 1 - m <= h → Spec.remap m h = 1.
Proof.
  intros Hm Hh. unfold Spec.remap, Spec.clamp01.
  assert (0 < / (1 - 2 * m)) as Hinv by (apply Rinv_0_lt_compat; lra).
  assert (1 <= (h - m) / (1 - 2 * m)).
  { replace 1 with ((1 - 2 * m) * / (1 - 2 * m)) at 1
      by (apply Rinv_r; lra).
    unfold Rdiv. apply Rmult_le_compat_r; lra. }
  rewrite Rmin_left by lra. rewrite Rmax_right; lra.
Qed.

(** C9.  For a margin [m] in [0, 1/2) the remap of a coordinate [h] is
    [(h - m) / (1 - 2 m)] clamped to [0, 1], for both coordinates; [m]
    is sent to 0, [1 - m] to 1, and an input outside [m, 1 - m] to the
    end of [0, 1] on its side. *)
Theorem control_zone_remap (self : App.GestureControlApp) (hand_x hand_y : R) :
  let m := App.control_zone_margin self in
  0 <= m < 1 / 2 →
  App.map_to_screen_coordinates self hand_x hand_y
    = Some (Spec.remap m hand_x, Spec.remap m hand_y) ∧
  (∀ h, App.map_coordinate m h = Some (Spec.remap m h)) ∧
  (∀ h, 0 <= Spec.remap m h <= 1) ∧
  App.map_coordinate m m = Some 0 ∧
  App.map_coordinate m (1 - m) = Some 1 ∧
  (∀ h, h < m → App.map_coordinate m h = Some 0) ∧
  (∀ h, 1 - m < h → App.map_coordinate m h = Some 1).
Proof.
  intros m Hm.
  assert (∀ h, App.map_coordinate m h = Some (Spec.remap m h)) as Hcode
    by (intros h; by apply map_coordinate_remap).
  repeat split.
  - unfold App.map_to_screen_coordinates. fold m. by rewrite !Hcode.
  - done.
  - apply remap_range.
  - apply remap_range.
  - rewrite Hcode. f_equal. apply remap_low; lra.
  - rewrite Hcode. f_equal. apply remap_high; lra.
  - intros h Hh. rewrite Hcode. f_equal. apply remap_low; lra.
  - intros h Hh. rewrite Hcode. f_equal. apply remap_high; lra.
Qed.

Lemma control_zone_remap_witness :
  0 <= App.control_zone_margin (App.init 1920 1080) < 1 / 2 ∧
  App.map_coordinate (15 / 100) (15 / 100) = Some 0 ∧
  App.map_coordinate (15 / 100) (1 - 15 / 100) = Some 1.
Proof.
  assert (0 <= App.control_zone_margin (App.init 1920 1080) < 1 / 2) as Hm
    by (simpl; lra).
  split; [exact Hm|].
  pose proof (control_zone_remap (App.init 1920 1080) 0 0 Hm) as H.
  simpl in H. tauto.
Defined.

(** ** The operating system: calls that do not raise *)

Lemma quiet_S (n : nat) (w : Os.World) :
  quiet (S n) w →
  ∃ w', Os.attempt w = (Some (), w') ∧ quiet n w' ∧
        Os.clock w' = Os.clock w ∧ Os.pointer w' = Os.pointer w ∧
        Os.performed w' = Os.performed w.
Proof.
  unfold quiet, Os.attempt. destruct w as [c p l s]; simpl.
  destruct s as [|raises rest]; simpl.
  - intros _. eexists; split; [done|]. simpl. rewrite take_nil.
    by repeat split.
  - intros H. apply Forall_cons in H as [-> H].
    eexists; split; [done|]. by repeat split.
Qed.

Lemma call_quiet (c : Os.Call) (n : nat) (w : Os.World) :
  quiet (S n) w →
  ∃ w', Os.call c w = (Some (), w') ∧ quiet n w' ∧
        Os.clock w' = Os.clock w ∧
        Os.performed w' = Os.performed w ++ [c].
Proof.
  intros (w1 & Hatt & Hq & Hc & Hp & Hl)%quiet_S.
  unfold Os.call, Os.bind. rewrite Hatt. unfold Os.effect.
  eexists; split; [done|]. simpl. rewrite Hc, Hl. by repeat split.
Qed.

Lemma position_quiet (n : nat) (w : Os.World) :
  quiet (S n) w →
  ∃ w', Os.position w = (Some (Os.pointer w), w') ∧ quiet n w' ∧
        Os.clock w' = Os.clock w ∧ Os.pointer w' = Os.pointer w ∧
        Os.performed w' = Os.performed w.
Proof.
  intros (w1 & Hatt & Hq & Hc & Hp & Hl)%quiet_S.
  unfold Os.position, Os.bind. rewrite Hatt, Hp.
  eexists; split; [done|]. by repeat split.
Qed.

(** ** The drag state machine *)

Section Drag.
Import Controller.

Lemma end_drag_idle (self : ActionController) (w : Os.World) :
  is_dragging self = false → end_drag self w = (false, self, w).
Proof. intros H. unfold end_drag. by rewrite H. Qed.

Lemma start_drag_dragging (self : ActionController) (w : Os.World) :
  is_dragging self = true → start_drag self w = (false, self, w).
Proof. intros H. unfold start_drag. by rewrite H. Qed.

Lemma start_drag_quiet (n : nat) (self : ActionController) (w : Os.World) :
  is_dragging self = false → quiet (S (S n)) w →
  ∃ w', start_drag self w
          = (true, set_drag true (Some (Os.pointer w)) self, w') ∧
        quiet n w' ∧
        Os.performed w' = Os.performed w ++ [Os.MouseDown].
Proof.
  intros Hidle Hq. unfold start_drag, try_except, Os.bind. rewrite Hidle.
  destruct (position_quiet _ _ Hq) as (w1 & -> & Hq1 & _ & _ & Hl1).
  destruct (call_quiet Os.MouseDown _ _ Hq1) as (w2 & -> & Hq2 & _ & Hl2).
  exists w2. unfold Os.ret. rewrite Hl2, Hl1. by repeat split.
Qed.

Lemma end_drag_quiet (n : nat) (self : ActionController) (w : Os.World) :
  is_dragging self = true → quiet (S (S n)) w →
  ∃ w', end_drag self w = (true, set_drag false None self, w') ∧
        quiet n w' ∧
        Os.performed w' = Os.performed w ++ [Os.MouseUp].
Proof.
  intros Hdrag Hq. unfold end_drag, try_except, Os.bind. rewrite Hdrag.
  simpl negb. cbv iota.
  destruct (call_quiet Os.MouseUp _ _ Hq) as (w1 & -> & Hq1 & _ & Hl1).
  destruct (position_quiet _ _ Hq1) as (w2 & -> & Hq2 & _ & _ & Hl2).
  exists w2. unfold Os.ret. rewrite Hl2, Hl1. by repeat split.
Qed.

(** C6.  From Idle, [end_drag] returns failure and changes nothing; in
    Dragging, [start_drag] returns failure and changes nothing; and with
    pyautogui calls that do not raise, [start_drag] then [end_drag] from
    Idle both return success, pass through Dragging, press and release the
    button once, and end in Idle with no recorded start position.  A
    method returns its bool in every case: no exception leaves it. *)
Theorem drag_state_machine (self : ActionController) (w : Os.World) :
  is_dragging self = false →
  end_drag self w = (false, self, w) ∧
  (∀ width height w0,
     end_drag (init width height) w0 = (false, init width height, w0)) ∧
  (∀ dragging w0, is_dragging dragging = true →
     start_drag dragging w0 = (false, dragging, w0)) ∧
  (quiet 4 w →
   ∃ self1 w1 self2 w2,
     start_drag self w = (true, self1, w1) ∧
     is_dragging self1 = true ∧
     drag_start_position self1 = Some (Os.pointer w) ∧
     start_drag self1 w1 = (false, self1, w1) ∧
     end_drag self1 w1 = (true, self2, w2) ∧
     is_dragging self2 = false ∧
     drag_start_position self2 = None ∧
     Os.performed w2 = Os.performed w ++ [Os.MouseDown; Os.MouseUp]).
Proof.
  intros Hidle. split; [by apply end_drag_idle|].
  split; [intros; by apply end_drag_idle|].
  split; [intros; by apply start_drag_dragging|].
  intros Hq.
  destruct (start_drag_quiet 2 self w Hidle Hq) as (w1 & Hs & Hq1 & Hl1).
  set (self1 := set_drag true (Some (Os.pointer w)) self) in *.
  destruct (end_drag_quiet 0 self1 w1 eq_refl Hq1) as (w2 & He & _ & Hl2).
  exists self1, w1, (set_drag false None self1), w2.
  repeat split; try done.
  rewrite Hl2, Hl1. by rewrite <- app_assoc.
Qed.

Lemma drag_state_machine_witness :
  is_dragging (init 1920 1080) = false ∧ quiet 4 calm_world ∧
  end_drag (init 1920 1080) calm_world
    = (false, init 1920 1080, calm_world) ∧
  ∃ self1 w1 self2 w2,
    start_drag (init 1920 1080) calm_world = (true, self1, w1) ∧
    end_drag self1 w1 = (true, self2, w2) ∧
    is_dragging self2 = false.
Proof.
  assert (quiet 4 calm_world) as Hq by apply Forall_nil_2.
  split; [reflexivity|]. split; [exact Hq|].
  destruct (drag_state_machine (init 1920 1080) calm_world eq_refl)
    as (Hend & _ & _ & Hpair).
  split; [exact Hend|].
  destruct (Hpair Hq) as (s1 & w1 & s2 & w2 & H1 & _ & _ & _ & H2 & H3 & _).
  by exists s1, w1, s2, w2.
Defined.

(** ** Reset *)

(** C10.  After [reset] the emergency-stop flag is false whatever it was
    before, the table of last action times is empty and there is no last
    mouse position; a drag in progress is handed to [end_drag], which ends
    it when its pyautogui calls do not raise. *)
Theorem reset_clears (self : ActionController) (w : Os.World) :
  let '(self', w') := reset self w in
  emergency_stop self' = false ∧
  last_action_time self' = ∅ ∧
  last_mouse_position self' = None ∧
  (is_dragging self = false →
     is_dragging self' = false ∧ w' = w ∧
     drag_start_position self' = drag_start_position self) ∧
  (is_dragging self = true →
     let '(_, ended, w1) := end_drag self w in
     is_dragging self' = is_dragging ended ∧
     drag_start_position self' = drag_start_position ended ∧ w' = w1) ∧
  (is_dragging self = true → quiet 2 w →
     is_dragging self' = false ∧ drag_start_position self' = None ∧
     Os.performed w' = Os.performed w ++ [Os.MouseUp]).
Proof.
  unfold reset. destruct (is_dragging self) eqn:Hdrag.
  - destruct (end_drag self w) as [[r ended] w1] eqn:He. simpl.
    repeat split; try done;
      match goal with Hq : quiet 2 w |- _ =>
        destruct (end_drag_quiet 0 self w Hdrag Hq) as (w2 & He2 & _ & Hl);
        rewrite He in He2; by simplify_eq
      end.
  - simpl. by repeat split.
Qed.

End Drag.

(** ** Emergency stop *)

Section EmergencyStop.
Import Recognizer Controller.

Lemma can_activate_gesture_spec (r : GestureRecognizer) (now : R)
  (g : GestureType) :
  can_activate_gesture r now g =
    bool_decide (g ≠ NONE ∧
                 now - default 0 (last_activation_time r !! g)
                   > cooldown_time r).
Proof.
  unfold can_activate_gesture. destruct (decide (g = NONE)) as [->|Hg].
  - symmetry. apply bool_decide_eq_false_2. tauto.
  - apply bool_decide_ext. tauto.
Qed.

Lemma can_execute_action_stopped (c : ActionController) (w : Os.World)
  (a : ActionType) :
  emergency_stop c = true → can_execute_action c w a = false.
Proof. intros H. unfold can_execute_action. by rewrite H. Qed.

Lemma pinch_gate_open_when_stopped :
  can_activate_gesture (App.gesture_recognizer stopped_app) 1000
    THUMB_INDEX_PINCH = true.
Proof.
  rewrite can_activate_gesture_spec. apply bool_decide_eq_true_2.
  split; [done|]. simpl. rewrite lookup_empty. simpl. lra.
Qed.

(** C1, as the claim states it, fails: the emergency-stop flag belongs to
    the controller and the gate of the recognizer never reads it.  With
    the flag set, a pinch whose cooldown has elapsed can be activated. *)
Lemma gate_ignores_emergency_stop :
  emergency_stop (App.action_controller stopped_app) = true ∧
  can_activate_gesture (App.gesture_recognizer stopped_app) 1000
    THUMB_INDEX_PINCH = true.
Proof.
  split; [reflexivity | apply pinch_gate_open_when_stopped].
Qed.

(** C1, amended.  With the emergency-stop flag set, [can_execute_action]
    of the controller is false for every action type whatever the cooldown
    table holds, every gated action and [move_mouse] return failure and
    leave controller and world as they were (no pointer movement); the
    gate of the recognizer does not depend on the flag: it is false for
    the null gesture and otherwise tells whether more than [cooldown_time]
    has passed since the last activation of the class. *)
Theorem emergency_stop_blocks_controller (self : App.GestureControlApp)
  (w : Os.World) :
  let c := App.action_controller self in
  let r := App.gesture_recognizer self in
  emergency_stop c = true →
  (∀ a, can_execute_action c w a = false) ∧
  (∀ x y, move_mouse c x y w = (false, c, w)) ∧
  (∀ a calls, gated_action c a calls w = (false, c, w)) ∧
  (∀ g, can_activate_gesture r (Os.clock w) g =
          bool_decide (g ≠ NONE ∧
                       Os.clock w - default 0 (last_activation_time r !! g)
                         > cooldown_time r)).
Proof.
  intros c r Hstop. repeat split.
  - intros a. by apply can_execute_action_stopped.
  - intros x y. unfold move_mouse. by rewrite Hstop.
  - intros a calls. unfold gated_action.
    by rewrite can_execute_action_stopped.
  - intros g. apply can_activate_gesture_spec.
Qed.

Lemma emergency_stop_blocks_controller_witness :
  emergency_stop (App.action_controller stopped_app) = true ∧
  move_mouse (App.action_controller stopped_app) (1 / 2) (1 / 2) calm_world
    = (false, App.action_controller stopped_app, calm_world) ∧
  can_execute_action (App.action_controller stopped_app) calm_world
    LEFT_CLICK = false.
Proof.
  split; [reflexivity|].
  destruct (emergency_stop_blocks_controller stopped_app calm_world eq_refl)
    as (Hgate & Hmove & _).
  split; [apply Hmove | apply Hgate].
Defined.

(** Under emergency stop the dispatch of a pinch performs no click, yet it
    returns success, records the activation and counts the gesture. *)
Lemma pinch_dispatch_under_emergency_stop :
  let '(executed, app, w) :=
    App.execute_gesture_action stopped_app THUMB_INDEX_PINCH [] None None
      calm_world in
  executed = true ∧ App.gesture_count app = 1%nat ∧
  Os.performed w = [] ∧
  last_activation_time (App.gesture_recognizer app) !! THUMB_INDEX_PINCH
    = Some 1000.
Proof.
  unfold App.execute_gesture_action, App.gated_dispatch.
  assert (can_activate_gesture (App.gesture_recognizer stopped_app)
            (Os.clock calm_world) THUMB_INDEX_PINCH = true) as ->
    by apply pinch_gate_open_when_stopped.
  unfold left_click, gated_action.
  rewrite can_execute_action_stopped by reflexivity. simpl.
  repeat split; done.
Qed.
End EmergencyStop.

(** ** Scroll dispatch *)

Section ScrollDispatch.
Import Recognizer Controller.

Lemma py_int_trunc (x : R) :
  (0 <= x → IZR (py_int x) <= x < IZR (py_int x) + 1) ∧
  (x < 0 → IZR (py_int x) - 1 < x <= IZR (py_int x)).
Proof.
  unfold py_int. case_bool_decide; split; intros; try lra.
  - apply Zfloor_bound.
  - apply Zceil_bound.
Qed.

Lemma get_cursor_position_found (landmarks : list Landmark) (p : Landmark) :
  landmarks !! INDEX_TIP = Some p →
  get_cursor_position landmarks = Some (lm_x p, lm_y p).
Proof.
  intros Hp. unfold get_cursor_position.
  apply lookup_lt_Some in Hp as Hlen. unfold INDEX_TIP in Hlen.
  rewrite bool_decide_eq_false_2 by lia. by rewrite Hp.
Qed.

Lemma gated_action_blocked (c : ActionController) (a : ActionType)
  (calls : Os.M unit) (w : Os.World) :
  can_execute_action c w a = false → gated_action c a calls w = (false, c, w).
Proof. intros H. unfold gated_action. by rewrite H. Qed.

Lemma scroll_performed (c : ActionController) (amount : Z) (w : Os.World) :
  can_execute_action c w SCROLL = true → quiet 1 w →
  ∃ w', scroll c amount w
          = (true,
             set_last_action_time
               (<[SCROLL := Os.clock w]> (last_action_time c)) c, w') ∧
        Os.performed w' = Os.performed w ++ [Os.Scroll amount].
Proof.
  intros Hcan Hq. unfold scroll, gated_action, try_except, Os.bind.
  rewrite Hcan. simpl negb. cbv iota.
  destruct (call_quiet (Os.Scroll amount) _ _ Hq)
    as (w1 & -> & _ & Hclock & Hl).
  exists w1. unfold Os.time, Os.ret. by rewrite Hclock.
Qed.

Lemma scroll_hand_index_tip :
  scroll_hand !! INDEX_TIP = Some (1 / 2, 475 / 1000, 0).
Proof. reflexivity. Qed.

Lemma can_scroll_at_start :
  can_execute_action (App.action_controller (App.init 1920 1080))
    calm_world SCROLL = true.
Proof.
  unfold can_execute_action.
  cbn [App.init App.action_controller Controller.init emergency_stop
       last_action_time action_cooldowns calm_world Os.clock].
  apply bool_decide_eq_true_2.
  rewrite lookup_empty.
  rewrite lookup_insert_ne by done. rewrite lookup_insert_ne by done.
  rewrite lookup_insert_eq. simpl. lra.
Qed.

(** C3, as the claim states it, fails on the amount: the dispatcher takes
    [int(-delta_y * 150)], which truncates.  With the origin at 0.5 and
    the index tip at 0.475 the product is 3.75; the scroll that is
    performed has amount 3, which is not 3.75 rounded. *)
Lemma scroll_amount_truncates :
  ∃ app w,
    App.execute_gesture_action (App.init 1920 1080) TWO_FINGER_SCROLL
      scroll_hand None (Some (1 / 2)) calm_world = (true, app, w) ∧
    Os.performed w = [Os.Scroll 3] ∧
    - (475 / 1000 - 1 / 2) * 150 = 375 / 100 ∧
    ¬ Spec.is_round (- (475 / 1000 - 1 / 2) * 150) 3 ∧
    Spec.is_round (- (475 / 1000 - 1 / 2) * 150) 4.
Proof.
  unfold App.execute_gesture_action.
  rewrite (get_cursor_position_found _ _ scroll_hand_index_tip).
  cbn [fst snd lm_y].
  rewrite bool_decide_eq_true_2
    by (unfold Rabs; destruct (Rcase_abs _); lra).
  assert (py_int (- (475 / 1000 - 1 / 2) * 150) = 3%Z) as ->
    by (apply py_int_eq; lra).
  destruct (scroll_performed (App.action_controller (App.init 1920 1080)) 3
              calm_world can_scroll_at_start) as (w' & -> & Hl).
  { apply Forall_nil_2. }
  eexists _, w'. split; [done|]. split; [done|]. split; [lra|].
  unfold Spec.is_round, Rabs. split; destruct (Rcase_abs _); lra.
Qed.

(** C3, amended.  In a scroll frame with a recorded origin, the
    dispatcher calls [scroll] of the controller, and returns success, if
    and only if [|current_y - origin_y| > 0.02]; the amount it passes is
    [-(current_y - origin_y) * 150] truncated toward zero.  The controller
    performs the scroll when its own gate is open (no emergency stop, more
    than its scroll cooldown since the last scroll) and pyautogui does not
    raise, and does nothing when its gate is closed. *)
Theorem scroll_dispatch (self : App.GestureControlApp)
  (landmarks : list Landmark) (index_tip : Landmark)
  (last_pos : option (R * R)) (origin_y : R) (w : Os.World) :
  landmarks !! INDEX_TIP = Some index_tip →
  let delta_y := lm_y index_tip - origin_y in
  let amount := py_int (- delta_y * 150) in
  let c := App.action_controller self in
  (Rabs delta_y > 2 / 100 →
     App.execute_gesture_action self TWO_FINGER_SCROLL landmarks last_pos
       (Some origin_y) w
     = (true, App.set_controller (scroll c amount w).1.2 self,
        (scroll c amount w).2)) ∧
  (Rabs delta_y <= 2 / 100 →
     App.execute_gesture_action self TWO_FINGER_SCROLL landmarks last_pos
       (Some origin_y) w = (false, self, w)) ∧
  (0 <= - delta_y * 150 →
     IZR amount <= - delta_y * 150 < IZR amount + 1) ∧
  (- delta_y * 150 < 0 →
     IZR amount - 1 < - delta_y * 150 <= IZR amount) ∧
  (can_execute_action c w SCROLL = false →
     scroll c amount w = (false, c, w)) ∧
  (can_execute_action c w SCROLL = true → quiet 1 w →
     (scroll c amount w).1.1 = true ∧
     Os.performed (scroll c amount w).2
       = Os.performed w ++ [Os.Scroll amount]).
Proof.
  intros Htip delta_y amount c.
  assert (∀ b : bool,
    bool_decide (Rabs delta_y > 2 / 100) = b →
    App.execute_gesture_action self TWO_FINGER_SCROLL landmarks last_pos
      (Some origin_y) w
    = if b then (true, App.set_controller (scroll c amount w).1.2 self,
                 (scroll c amount w).2)
      else (false, self, w)) as Hexec.
  { intros b Hb. unfold App.execute_gesture_action.
    rewrite (get_cursor_position_found _ _ Htip). cbn [fst snd].
    fold delta_y. rewrite Hb. destruct b; [|done].
    fold amount c. by destruct (scroll c amount w) as [[? ?] ?]. }
  split; [|split; [|split; [|split; [|split]]]].
  - intros Hbig. apply (Hexec true). by apply bool_decide_eq_true_2.
  - intros Hsmall. apply (Hexec false). apply bool_decide_eq_false_2. lra.
  - apply py_int_trunc.
  - apply py_int_trunc.
  - intros Hcan. by apply gated_action_blocked.
  - intros Hcan Hq.
    destruct (scroll_performed c amount w Hcan Hq) as (w' & -> & Hl).
    done.
Qed.

Lemma scroll_dispatch_witness :
  scroll_hand !! INDEX_TIP = Some (1 / 2, 475 / 1000, 0) ∧
  App.execute_gesture_action (App.init 1920 1080) TWO_FINGER_SCROLL
    scroll_hand None (Some (475 / 1000)) calm_world
  = (false, App.init 1920 1080, calm_world).
Proof.
  split; [reflexivity|].
  destruct (scroll_dispatch (App.init 1920 1080) scroll_hand
              (1 / 2, 475 / 1000, 0) None (475 / 1000) calm_world eq_refl)
    as (_ & Hsmall & _).
  apply Hsmall. cbn [lm_y fst snd].
  replace (475 / 1000 - 475 / 1000) with 0 by lra. rewrite Rabs_R0. lra.
Defined.
End ScrollDispatch.

(** ** The pointer filter *)

Section PointerFilter.
Import Controller.
Variable self : ActionController.
Hypothesis smoothing_range : 0 <= mouse_smoothing self < 1.

(** The blend before truncation lies between the two pixels. *)
Lemma smooth_floor (prev target : Z) :
  (0 ≤ prev)%Z → (0 ≤ target)%Z →
  smooth self prev target
    = Zfloor (IZR prev + IZR (target - prev) * (1 - mouse_smoothing self)).
Proof.
  intros Hp Ht. unfold smooth, py_int.
  apply IZR_le in Hp, Ht. rewrite minus_IZR.
  rewrite bool_decide_eq_true_2; [done|]. nra.
Qed.

Lemma smooth_from_below (prev target : Z) :
  (0 ≤ prev ≤ target)%Z →
  (prev ≤ smooth self prev target ≤ target)%Z.
Proof.
  intros [Hp Hle]. rewrite smooth_floor by lia.
  set (v := IZR prev + _). assert (IZR prev <= v <= IZR target) as [Hlo Hhi].
  { unfold v. rewrite minus_IZR. apply IZR_le in Hle. nra. }
  split; [by apply Zfloor_lub|].
  apply le_IZR. pose proof (Zfloor_bound v). lra.
Qed.

Lemma smooth_from_above (prev target : Z) :
  (0 ≤ target < prev)%Z →
  (target ≤ smooth self prev target < prev)%Z.
Proof.
  intros [Ht Hlt]. rewrite smooth_floor by lia.
  set (v := IZR prev + _). assert (IZR target <= v < IZR prev) as [Hlo Hhi].
  { unfold v. rewrite minus_IZR. apply IZR_lt in Hlt. nra. }
  split; [by apply Zfloor_lub|].
  apply lt_IZR. pose proof (Zfloor_bound v). lra.
Qed.

Lemma smooth_fixed (target : Z) :
  (0 ≤ target)%Z → smooth self target target = target.
Proof.
  intros Ht. rewrite smooth_floor by lia. rewrite Z.sub_diag.
  rewrite Rmult_0_l, Rplus_0_r. apply ZfloorZ.
Qed.

(** With smoothing, truncation keeps a coordinate that comes from below
    strictly below its target. *)
Lemma smooth_short (prev target : Z) :
  0 < mouse_smoothing self → (0 ≤ prev < target)%Z →
  (smooth self prev target < target)%Z.
Proof.
  intros Ha [Hp Hlt]. rewrite smooth_floor by lia.
  set (v := IZR prev + _). assert (v < IZR target).
  { unfold v. rewrite minus_IZR. apply IZR_lt in Hlt. nra. }
  apply lt_IZR. pose proof (Zfloor_bound v). lra.
Qed.

(** A coordinate at rest below its target is less than [1 / (1 - α)]
    pixels away from it. *)
Lemma smooth_rest_below (prev target : Z) :
  (0 ≤ prev ≤ target)%Z → smooth self prev target = prev →
  IZR (target - prev) * (1 - mouse_smoothing self) < 1.
Proof.
  intros [Hp Hle]. rewrite smooth_floor by lia. intros Hrest.
  pose proof (Zfloor_bound
    (IZR prev + IZR (target - prev) * (1 - mouse_smoothing self))) as Hb.
  rewrite Hrest in Hb. lra.
Qed.

Lemma iterate_smooth_rest (n : nat) (prev target : Z) :
  smooth self prev target = prev → iterate_smooth self n prev target = prev.
Proof.
  intros Hrest. induction n as [|n IH]; simpl; [done|]. by rewrite Hrest.
Qed.

(** One coordinate settles: after at most as many calls as it is pixels
    away from its target it no longer changes. *)
Lemma iterate_smooth_settles (prev target : Z) :
  (0 ≤ prev)%Z → (0 ≤ target)%Z →
  ∃ (N : nat) (rest : Z),
    (N ≤ Z.to_nat (Z.abs (target - prev)))%nat ∧
    (∀ n, (N ≤ n)%nat → iterate_smooth self n prev target = rest) ∧
    Rabs (IZR (target - rest)) * (1 - mouse_smoothing self) < 1 ∧
    (target ≤ prev → rest = target)%Z ∧
    (prev ≤ target → prev ≤ rest ≤ target)%Z ∧
    (0 < mouse_smoothing self → (prev < target)%Z → (rest < target)%Z).
Proof.
  intros Hp Ht.
  remember (Z.to_nat (Z.abs (target - prev))) as d eqn:Hd.
  revert prev Hp Hd. induction d as [d IH] using lt_wf_ind. intros prev Hp Hd.
  destruct (decide (smooth self prev target = prev)) as [Hrest|Hmove].
  - exists 0%nat, prev. split; [lia|].
    split; [intros n _; by apply iterate_smooth_rest|].
    destruct (Z_lt_le_dec target prev) as [Habove|Hbelow].
    { pose proof (smooth_from_above prev target). lia. }
    split.
    { rewrite Rabs_right by (apply Rle_ge, IZR_le; lia).
      apply smooth_rest_below; [lia|done]. }
    split; [lia|]. split; [lia|]. intros Ha Hlt.
    pose proof (smooth_short prev target Ha). lia.
  - set (next := smooth self prev target) in *.
    assert ((0 ≤ next)%Z ∧
            (Z.to_nat (Z.abs (target - next)) < d)%nat ∧
            (target ≤ prev → target ≤ next)%Z ∧
            (prev ≤ target → prev ≤ next ≤ target)%Z)
      as (Hn & Hcloser & Hside & Hside').
    { destruct (Z_lt_le_dec target prev) as [Habove|Hbelow].
      - pose proof (smooth_from_above prev target). fold next in H. lia.
      - pose proof (smooth_from_below prev target). fold next in H. lia. }
    destruct (IH _ Hcloser next Hn eq_refl)
      as (N & rest & HN & Hstay & Hbound & Habove & Hbelow & Hshort).
    exists (S N), rest. split; [lia|]. split.
    { intros [|n] Hle; [lia|]. simpl. fold next. apply Hstay. lia. }
    split; [done|]. split; [lia|]. split; [lia|]. intros Ha Hlt.
    apply Hshort; [done|].
    pose proof (smooth_short prev target Ha). fold next in H. lia.
Qed.

Lemma iterate_smooth_S (n : nat) (prev target : Z) :
  iterate_smooth self (S n) prev target
  = smooth self (iterate_smooth self n prev target) target.
Proof.
  revert prev. induction n as [|n IH]; intros prev; [done|].
  change (iterate_smooth self (S (S n)) prev target)
    with (iterate_smooth self (S n) (smooth self prev target) target).
  by rewrite IH.
Qed.

Lemma smooth_nonneg (prev target : Z) :
  (0 ≤ prev)%Z → (0 ≤ target)%Z → (0 ≤ smooth self prev target)%Z.
Proof.
  intros Hp Ht. destruct (Z_lt_le_dec target prev).
  - pose proof (smooth_from_above prev target). lia.
  - pose proof (smooth_from_below prev target). lia.
Qed.

Lemma iterate_smooth_nonneg (n : nat) (prev target : Z) :
  (0 ≤ prev)%Z → (0 ≤ target)%Z → (0 ≤ iterate_smooth self n prev target)%Z.
Proof.
  intros Hp Ht. induction n as [|n IH]; [done|].
  rewrite iterate_smooth_S. by apply smooth_nonneg.
Qed.

(** A call never moves a coordinate away from its target. *)
Lemma iterate_smooth_monotone (n : nat) (prev target : Z) :
  (0 ≤ prev)%Z → (0 ≤ target)%Z →
  (Z.abs (target - iterate_smooth self (S n) prev target)
   ≤ Z.abs (target - iterate_smooth self n prev target))%Z.
Proof.
  intros Hp Ht. rewrite iterate_smooth_S.
  pose proof (iterate_smooth_nonneg n prev target Hp Ht) as Hn.
  set (cur := iterate_smooth self n prev target) in *.
  destruct (Z_lt_le_dec target cur).
  - pose proof (smooth_from_above cur target). lia.
  - pose proof (smooth_from_below cur target). lia.
Qed.
End PointerFilter.

Section PointerFilterIteration.
Import Controller.

Lemma never_raises_quiet (n : nat) (w : Os.World) :
  never_raises w → quiet n w.
Proof. apply Forall_take. Qed.

Lemma call_never_raises (c : Os.Call) (w : Os.World) :
  never_raises w →
  ∃ w', Os.call c w = (Some (), w') ∧ never_raises w' ∧
        Os.performed w' = Os.performed w ++ [c].
Proof.
  unfold never_raises, Os.call, Os.bind, Os.attempt, Os.effect.
  destruct w as [c0 p l s]; simpl. destruct s as [|raises rest]; simpl.
  - intros _. by eexists.
  - intros [-> H]%Forall_cons. by eexists.
Qed.

Lemma target_pixel_nonneg (size : Z) (normalized : R) :
  (0 ≤ target_pixel size normalized)%Z.
Proof. unfold target_pixel, py_maxZ. case_bool_decide; lia. Qed.

Lemma target_pixel_in_bounds (size : Z) (normalized : R) :
  (0 < size)%Z → (0 ≤ target_pixel size normalized ≤ size - 1)%Z.
Proof.
  intros Hsize. unfold target_pixel, py_maxZ, py_minZ.
  repeat case_bool_decide; lia.
Qed.

Lemma move_mouse_emits (self : ActionController) (x y : R) (w : Os.World) :
  emergency_stop self = false → never_raises w →
  ∃ w', move_mouse self x y w
          = (true, set_last_mouse_position (Some (emitted self x y)) self, w')
        ∧ never_raises w' ∧
        Os.performed w'
          = Os.performed w
            ++ [Os.MoveTo (emitted self x y).1 (emitted self x y).2].
Proof.
  intros Hgo Hw. unfold move_mouse, emitted, try_except. rewrite Hgo.
  destruct (last_mouse_position self) as [[prev_x prev_y]|];
    unfold Os.bind;
    match goal with |- context [Os.call ?c w] =>
      destruct (call_never_raises c w Hw) as (w' & -> & Hw' & Hl)
    end; by exists w'.
Qed.

Lemma iterate_move_from (n : nat) (self : ActionController) (x y : R)
  (w : Os.World) (prev_x prev_y : Z) :
  emergency_stop self = false → never_raises w →
  (iterate_move n (set_last_mouse_position (Some (prev_x, prev_y)) self)
     x y w).1
  = set_last_mouse_position
      (Some (iterate_smooth self n prev_x
               (target_pixel (screen_width self) x),
             iterate_smooth self n prev_y
               (target_pixel (screen_height self) y))) self.
Proof.
  intros Hgo. revert w prev_x prev_y.
  induction n as [|n IH]; intros w prev_x prev_y Hw; [done|].
  cbn [iterate_move iterate_smooth].
  destruct (move_mouse_emits
              (set_last_mouse_position (Some (prev_x, prev_y)) self) x y w
              Hgo Hw) as (w' & -> & Hw' & _).
  by apply IH.
Qed.

Lemma with_last_mouse_position (self : ActionController) (p : Z * Z) :
  last_mouse_position self = Some p →
  self = set_last_mouse_position (Some p) self.
Proof. destruct self; simpl. by intros ->. Qed.

Lemma iterate_move_position (n : nat) (self : ActionController) (x y : R)
  (w : Os.World) (prev_x prev_y : Z) :
  emergency_stop self = false → never_raises w →
  last_mouse_position self = Some (prev_x, prev_y) →
  last_mouse_position (iterate_move n self x y w).1
  = Some (iterate_smooth self n prev_x (target_pixel (screen_width self) x),
          iterate_smooth self n prev_y (target_pixel (screen_height self) y)).
Proof.
  intros Hgo Hw Hlast.
  rewrite (with_last_mouse_position self _ Hlast) at 1.
  by rewrite iterate_move_from.
Qed.

Lemma iterate_move_fresh (n : nat) (self : ActionController) (x y : R)
  (w : Os.World) :
  0 <= mouse_smoothing self < 1 →
  emergency_stop self = false → never_raises w →
  last_mouse_position self = None →
  last_mouse_position (iterate_move (S n) self x y w).1
  = Some (target_pixel (screen_width self) x,
          target_pixel (screen_height self) y).
Proof.
  intros Ha Hgo Hw Hlast. cbn [iterate_move].
  destruct (move_mouse_emits self x y w Hgo Hw) as (w' & -> & Hw' & _).
  unfold emitted. rewrite Hlast. rewrite iterate_move_from by done.
  cbn [last_mouse_position set_last_mouse_position].
  rewrite !iterate_smooth_rest;
    [done | apply smooth_fixed | apply smooth_fixed];
    auto using target_pixel_nonneg.
Qed.

Lemma near_centre_target :
  target_pixel 1920 (1 / 2) = 960%Z ∧ target_pixel 1080 (1 / 2) = 540%Z.
Proof.
  unfold target_pixel.
  rewrite (py_int_eq (1 / 2 * 1920) 960) by lra.
  rewrite (py_int_eq (1 / 2 * 1080) 540) by lra.
  done.
Qed.

Lemma near_centre_rest :
  smooth near_centre 959 960 = 959%Z ∧ smooth near_centre 539 540 = 539%Z.
Proof.
  unfold smooth. cbn [near_centre mouse_smoothing set_last_mouse_position
                      Controller.init].
  change (960 - 959)%Z with 1%Z. change (540 - 539)%Z with 1%Z.
  split; apply py_int_eq; lra.
Qed.

(** The controller reaches [near_centre] from its initial state with one
    call of [move_mouse]. *)
Lemma near_centre_reached :
  ∃ w, move_mouse (Controller.init 1920 1080) (4997 / 10000) (4995 / 10000)
         calm_world = (true, near_centre, w).
Proof.
  destruct (move_mouse_emits (Controller.init 1920 1080) (4997 / 10000)
              (4995 / 10000) calm_world eq_refl (Forall_nil_2 _))
    as (w & Hmove & _).
  exists w. rewrite Hmove. repeat f_equal.
  unfold emitted, target_pixel.
  cbn [last_mouse_position screen_width screen_height Controller.init].
  rewrite (py_int_eq (4997 / 10000 * 1920) 959) by lra.
  rewrite (py_int_eq (4995 / 10000 * 1080) 539) by lra.
  done.
Qed.

Lemma near_centre_stalls (n : nat) :
  last_mouse_position
    (iterate_move n near_centre (1 / 2) (1 / 2) calm_world).1
  = Some (959, 539)%Z.
Proof.
  rewrite (iterate_move_position n near_centre _ _ _ 959 539);
    [|done|apply Forall_nil_2|done].
  change (screen_width near_centre) with 1920%Z.
  change (screen_height near_centre) with 1080%Z.
  destruct near_centre_target as [-> ->].
  destruct near_centre_rest as [Hx Hy].
  by rewrite !iterate_smooth_rest.
Qed.

(** C4, as the claim states it, fails: the filter stores truncated
    integer pixels.  On a 1920 x 1080 screen with the default smoothing
    0.3, a pointer at (959, 539) that is sent to the centre (960, 540)
    again and again stays at (959, 539): 959 + 1 * 0.7 truncates to 959.
    The distance to the target is the square root of 2 after every call
    and does not tend to 0. *)
Lemma pointer_filter_stalls :
  mouse_smoothing near_centre < 1 ∧
  target_pixel (screen_width near_centre) (1 / 2) = 960%Z ∧
  target_pixel (screen_height near_centre) (1 / 2) = 540%Z ∧
  ¬ Un_cv (λ n, output_error
                  (iterate_move n near_centre (1 / 2) (1 / 2) calm_world).1
                  (960, 540)%Z) 0.
Proof.
  split; [simpl; lra|]. split; [apply near_centre_target|].
  split; [apply near_centre_target|].
  intros Hcv. destruct (Hcv 1 ltac:(lra)) as [N HN].
  specialize (HN N (Nat.le_refl N)).
  unfold output_error in HN. rewrite near_centre_stalls in HN.
  unfold Rdist, norm_diff in HN. cbn [fst snd] in HN.
  rewrite Rminus_0_r in HN.
  rewrite Rabs_right in HN by (apply Rle_ge, sqrt_pos).
  assert (1 <= sqrt ((959 - 960) * (959 - 960) + (539 - 540) * (539 - 540)))
    as Hge.
  { rewrite <- sqrt_1 at 1. apply sqrt_le_1_alt. lra. }
  lra.
Qed.

(** C4, amended.  Let [move_mouse] be called again and again with the same
    arguments, emergency stop off, a smoothing factor in [0, 1) and
    pyautogui not raising.  Without a previous position the first call
    stores the target pixel and every later call keeps it.  With a
    previous position on the screen, a call never moves a coordinate away
    from its target, and after at most as many calls as the larger
    coordinate distance in pixels the stored position no longer changes;
    each coordinate then rests less than [1 / (1 - α)] pixels from its
    target, on the side it started from: exactly on the target when it
    started there or beyond it, and, because the blend is truncated,
    strictly short of the target when it started before it and [α > 0]. *)
Theorem pointer_filter_settles (self : ActionController) (x y : R)
  (w : Os.World) :
  0 <= mouse_smoothing self < 1 →
  emergency_stop self = false →
  never_raises w →
  let α := mouse_smoothing self in
  let tx := target_pixel (screen_width self) x in
  let ty := target_pixel (screen_height self) y in
  let position n := last_mouse_position (iterate_move n self x y w).1 in
  (last_mouse_position self = None → ∀ n, position (S n) = Some (tx, ty)) ∧
  (∀ px py,
     last_mouse_position self = Some (px, py) → (0 ≤ px)%Z → (0 ≤ py)%Z →
     (∀ n, ∃ cx cy nx ny,
        position n = Some (cx, cy) ∧ position (S n) = Some (nx, ny) ∧
        (Z.abs (tx - nx) ≤ Z.abs (tx - cx))%Z ∧
        (Z.abs (ty - ny) ≤ Z.abs (ty - cy))%Z) ∧
     ∃ (N : nat) (rx ry : Z),
       (N ≤ Z.to_nat (Z.abs (tx - px)) `max` Z.to_nat (Z.abs (ty - py)))%nat ∧
       (∀ n, (N ≤ n)%nat → position n = Some (rx, ry)) ∧
       Rabs (IZR (tx - rx)) * (1 - α) < 1 ∧
       Rabs (IZR (ty - ry)) * (1 - α) < 1 ∧
       ((tx ≤ px)%Z → rx = tx) ∧ ((ty ≤ py)%Z → ry = ty) ∧
       ((px ≤ tx)%Z → (px ≤ rx ≤ tx)%Z) ∧
       ((py ≤ ty)%Z → (py ≤ ry ≤ ty)%Z) ∧
       (0 < α → (px < tx)%Z → (rx < tx)%Z) ∧
       (0 < α → (py < ty)%Z → (ry < ty)%Z)).
Proof.
  intros Ha Hgo Hw α tx ty position.
  assert (0 ≤ tx)%Z as Htx by apply target_pixel_nonneg.
  assert (0 ≤ ty)%Z as Hty by apply target_pixel_nonneg.
  split.
  - intros Hlast n. by apply iterate_move_fresh.
  - intros px py Hlast Hpx Hpy.
    assert (∀ n, position n
                 = Some (iterate_smooth self n px tx,
                         iterate_smooth self n py ty)) as Hpos
      by (intros n; by apply iterate_move_position).
    split.
    + intros n. eexists _, _, _, _.
      split; [apply Hpos|]. split; [apply Hpos|].
      split; by apply iterate_smooth_monotone.
    + destruct (iterate_smooth_settles self Ha px tx Hpx Htx)
        as (Nx & rx & HNx & Hx & Hbx & Hax & Hlx & Hsx).
      destruct (iterate_smooth_settles self Ha py ty Hpy Hty)
        as (Ny & ry & HNy & Hy & Hby & Hay & Hly & Hsy).
      exists (Nx `max` Ny)%nat, rx, ry.
      split; [lia|]. split.
      { intros n Hn. rewrite Hpos, Hx, Hy by lia. done. }
      repeat split; try done; try (by apply Hlx); try (by apply Hly).
Qed.

Lemma pointer_filter_settles_witness :
  0 <= mouse_smoothing near_centre < 1 ∧
  emergency_stop near_centre = false ∧
  never_raises calm_world ∧
  ∃ (N : nat) (rx ry : Z),
    (∀ n, (N ≤ n)%nat →
       last_mouse_position
         (iterate_move n near_centre (1 / 2) (1 / 2) calm_world).1
       = Some (rx, ry)) ∧
    Rabs (IZR (target_pixel (screen_width near_centre) (1 / 2) - rx))
      * (1 - mouse_smoothing near_centre) < 1.
Proof.
  assert (0 <= mouse_smoothing near_centre < 1) as Ha by (simpl; lra).
  assert (never_raises calm_world) as Hw by apply Forall_nil_2.
  split; [exact Ha|]. split; [reflexivity|]. split; [exact Hw|].
  destruct (pointer_filter_settles near_centre (1 / 2) (1 / 2) calm_world
              Ha eq_refl Hw) as [_ Hsome].
  destruct (Hsome 959%Z 539%Z eq_refl ltac:(lia) ltac:(lia))
    as (_ & N & rx & ry & _ & Hstay & Hbx & _).
  exists N, rx, ry. split; [exact Hstay | exact Hbx].
Defined.
End PointerFilterIteration.

(** ** The history window and its vote *)

Section Resolver.
Import Recognizer.

Lemma foldl_Rplus (a : R) (xs : list R) :
  foldl Rplus a xs = a + Spec.total xs.
Proof.
  revert a. induction xs as [|x xs IH]; intros a; simpl; [lra|].
  rewrite IH. unfold Spec.total. lra.
Qed.

Lemma py_sum_total (xs : list R) : py_sum xs = Spec.total xs.
Proof. unfold py_sum. rewrite foldl_Rplus. lra. Qed.

Lemma total_app (xs ys : list R) :
  Spec.total (xs ++ ys) = Spec.total xs + Spec.total ys.
Proof.
  unfold Spec.total. induction xs as [|x xs IH]; simpl; [lra|].
  rewrite IH. lra.
Qed.

(** A non-empty group scores the sum of its confidences. *)
Lemma group_score_total (cs : list R) :
  cs ≠ [] → group_score cs = Spec.total cs.
Proof.
  intros Hne. unfold group_score. rewrite py_sum_total.
  assert (INR (length cs) ≠ 0) as Hlen.
  { apply not_0_INR. destruct cs; [done|simpl; lia]. }
  field. exact Hlen.
Qed.

(** *** The dictionary [gesture_counts] *)

Lemma counts_lookup_append (counts : list (GestureType * list R))
  (g g' : GestureType) (c : R) :
  counts_lookup (counts_append counts g c) g'
  = if decide (g = g')
    then Some (default [] (counts_lookup counts g) ++ [c])
    else counts_lookup counts g'.
Proof.
  induction counts as [|[k cs] rest IH]; simpl.
  - destruct (decide (g = g')); [done|]. done.
  - destruct (decide (k = g)) as [->|Hk]; simpl.
    + destruct (decide (g = g')); [done|]. done.
    + rewrite IH. destruct (decide (k = g')) as [->|Hk'].
      * by rewrite decide_False by done.
      * done.
Qed.

Lemma counts_lookup_elem (counts : list (GestureType * list R))
  (g : GestureType) (cs : list R) :
  counts_lookup counts g = Some cs → (g, cs) ∈ counts.
Proof.
  induction counts as [|[k ks] rest IH]; simpl; [done|].
  destruct (decide (k = g)) as [->|Hk].
  - intros [= ->]. apply list_elem_of_here.
  - intros H. apply list_elem_of_further. by apply IH.
Qed.

Lemma counts_lookup_None (counts : list (GestureType * list R))
  (g : GestureType) :
  counts_lookup counts g = None → g ∉ counts.*1.
Proof.
  induction counts as [|[k ks] rest IH]; simpl.
  - intros _. apply not_elem_of_nil.
  - destruct (decide (k = g)) as [->|Hk]; [done|].
    intros H. apply not_elem_of_cons. split; [done|]. by apply IH.
Qed.

Lemma elem_counts_lookup (counts : list (GestureType * list R))
  (g : GestureType) (cs : list R) :
  NoDup counts.*1 → (g, cs) ∈ counts → counts_lookup counts g = Some cs.
Proof.
  induction counts as [|[k ks] rest IH]; simpl.
  - intros _ H. by apply elem_of_nil in H.
  - intros [Hk Hnd]%NoDup_cons [Heq|Hin]%elem_of_cons.
    + simplify_eq. by rewrite decide_True.
    + destruct (decide (k = g)) as [->|Hne]; [|by apply IH].
      exfalso. apply Hk. apply list_elem_of_fmap. by exists (g, cs).
Qed.

Lemma counts_append_keys (counts : list (GestureType * list R))
  (g : GestureType) (c : R) :
  (counts_append counts g c).*1
  = if decide (g ∈ counts.*1) then counts.*1 else counts.*1 ++ [g].
Proof.
  induction counts as [|[k ks] rest IH]; [done|].
  cbn [counts_append].
  destruct (decide (k = g)) as [->|Hk]; rewrite !fmap_cons; cbn [fst].
  - rewrite decide_True by apply list_elem_of_here. done.
  - rewrite IH. destruct (decide (g ∈ rest.*1)) as [Hin|Hout].
    + rewrite decide_True by (by apply list_elem_of_further). done.
    + rewrite decide_False; [done|].
      intros [?|?]%elem_of_cons; congruence.
Qed.
Lemma counts_append_NoDup (counts : list (GestureType * list R))
  (g : GestureType) (c : R) :
  NoDup counts.*1 → NoDup (counts_append counts g c).*1.
Proof.
  intros Hnd. rewrite counts_append_keys.
  destruct (decide (g ∈ counts.*1)) as [Hin|Hout]; [done|].
  apply NoDup_app. split; [done|]. split.
  - intros k Hk [->|Hnil%elem_of_nil]%elem_of_cons; done.
  - apply NoDup_singleton.
Qed.
Lemma gesture_counts_snoc (h : list Classification) (e : Classification) :
  gesture_counts_of (h ++ [e])
  = counts_append (gesture_counts_of h) e.1 e.2.
Proof. unfold gesture_counts_of. by rewrite foldl_app. Qed.

Lemma confidences_of_snoc (g : GestureType) (h : list Classification)
  (e : Classification) :
  Spec.confidences_of g (h ++ [e])
  = Spec.confidences_of g h ++ (if decide (e.1 = g) then [e.2] else []).
Proof.
  unfold Spec.confidences_of. rewrite filter_app, fmap_app. f_equal.
  destruct (decide (e.1 = g)) as [He|He].
  - by rewrite filter_cons_True.
  - by rewrite filter_cons_False.
Qed.

Lemma gesture_counts_NoDup (h : list Classification) :
  NoDup (gesture_counts_of h).*1.
Proof.
  induction h as [|e h IH] using rev_ind; [apply NoDup_nil_2|].
  rewrite gesture_counts_snoc. by apply counts_append_NoDup.
Qed.

(** The dictionary maps each class of the window to its confidences, in
    the order of the window, and holds no other key. *)
Lemma gesture_counts_lookup (h : list Classification) (g : GestureType) :
  counts_lookup (gesture_counts_of h) g
  = match Spec.confidences_of g h with
    | [] => None
    | cs => Some cs
    end.
Proof.
  induction h as [|e h IH] using rev_ind; [done|].
  rewrite gesture_counts_snoc, confidences_of_snoc, counts_lookup_append.
  destruct (decide (e.1 = g)) as [<-|Hne].
  - rewrite IH. by destruct (Spec.confidences_of e.1 h).
  - by rewrite IH, app_nil_r.
Qed.

Lemma gesture_counts_elem (h : list Classification) (g : GestureType)
  (cs : list R) :
  (g, cs) ∈ gesture_counts_of h ↔ cs = Spec.confidences_of g h ∧ cs ≠ [].
Proof.
  split.
  - intros Hin.
    apply (elem_counts_lookup _ _ _ (gesture_counts_NoDup h)) in Hin.
    rewrite gesture_counts_lookup in Hin.
    destruct (Spec.confidences_of g h); by simplify_eq.
  - intros [-> Hne]. apply counts_lookup_elem.
    rewrite gesture_counts_lookup.
    by destruct (Spec.confidences_of g h).
Qed.

Lemma present_confidences (g : GestureType) (h : list Classification) :
  Spec.present g h ↔ Spec.confidences_of g h ≠ [].
Proof.
  unfold Spec.present, Spec.confidences_of. split.
  - intros [e [-> Hin]]%list_elem_of_fmap Hnil.
    apply fmap_nil_inv in Hnil.
    match type of Hnil with ?l = [] =>
      assert (e ∈ l) as Hf by (by apply list_elem_of_filter)
    end.
    rewrite Hnil in Hf. by apply elem_of_nil in Hf.
  - intros Hne.
    match type of Hne with fmap _ ?l ≠ [] =>
      destruct l as [|e l'] eqn:Hf; [done|];
      assert (e ∈ l) as Hin by (rewrite Hf; apply list_elem_of_here)
    end.
    apply list_elem_of_filter in Hin as [<- Hin].
    apply list_elem_of_fmap. by exists e.
Qed.

Lemma score_group_score (g : GestureType) (h : list Classification) :
  Spec.score g h = group_score (Spec.confidences_of g h).
Proof.
  unfold Spec.score, Spec.average_confidence, Spec.count, group_score.
  by rewrite py_sum_total.
Qed.

(** *** The search for the best group *)

Lemma best_step_score (best : GestureType * R)
  (item : GestureType * list R) :
  best_step best item
  = if bool_decide (group_score item.2 > best.2)
    then (item.1, group_score item.2) else best.
Proof. done. Qed.

Lemma best_fold (items : list (GestureType * list R))
  (init : GestureType * R) :
  let best := foldl best_step init items in
  init.2 <= best.2 ∧
  (∀ item, item ∈ items → group_score item.2 <= best.2) ∧
  (best = init ∨
   ∃ item, item ∈ items ∧ best = (item.1, group_score item.2)).
Proof.
  revert init. induction items as [|item items IH]; intros init; simpl.
  - split; [lra|]. split; [|by left].
    intros item Hin. by apply elem_of_nil in Hin.
  - destruct (IH (best_step init item)) as (Hge & Hmax & Hwho).
    set (best := foldl best_step (best_step init item) items) in *.
    assert (init.2 <= (best_step init item).2 ∧
            group_score item.2 <= (best_step init item).2) as [Hi Hs].
    { rewrite best_step_score. case_bool_decide; simpl; lra. }
    split; [lra|]. split.
    + intros item' [->|Hin]%elem_of_cons; [lra|by apply Hmax].
    + destruct Hwho as [Heq|(item' & Hin & Heq)].
      * rewrite Heq, best_step_score. case_bool_decide; [|by left].
        right. exists item. split; [apply list_elem_of_here|done].
      * right. exists item'. split; [by apply list_elem_of_further|done].
Qed.

(** *** Valid windows *)

Lemma valid_confidences_nonneg (g : GestureType) (h : list Classification) :
  valid_window h → Forall (λ c, 0 <= c) (Spec.confidences_of g h).
Proof.
  intros Hv. apply Forall_forall. intros c Hc.
  apply list_elem_of_fmap in Hc as (e & -> & He).
  apply list_elem_of_filter in He as [_ He].
  unfold valid_window in Hv. rewrite Forall_forall in Hv.
  destruct (Hv e He) as [->|Hhalf]; simpl; lra.
Qed.

Lemma total_nonneg (cs : list R) :
  Forall (λ c, 0 <= c) cs → 0 <= Spec.total cs.
Proof.
  unfold Spec.total. induction 1 as [|c cs Hc _ IH]; simpl; lra.
Qed.

Lemma total_elem_le (cs : list R) (c : R) :
  Forall (λ c, 0 <= c) cs → c ∈ cs → c <= Spec.total cs.
Proof.
  intros Hnn Hin. induction Hnn as [|c' cs Hc Hcs IH].
  - by apply elem_of_nil in Hin.
  - pose proof (total_nonneg cs Hcs). unfold Spec.total in *. simpl.
    apply elem_of_cons in Hin as [->|Hin]; [lra|].
    specialize (IH Hin). lra.
Qed.

Lemma group_score_nonneg (cs : list R) :
  Forall (λ c, 0 <= c) cs → 0 <= group_score cs.
Proof.
  intros Hnn. destruct cs as [|c cs].
  - unfold group_score. simpl. lra.
  - rewrite group_score_total by done. by apply total_nonneg.
Qed.

(** In a valid window a class whose group scores nothing is the null
    gesture. *)
Lemma zero_score_is_NONE (h : list Classification) (e : Classification) :
  valid_window h → e ∈ h →
  group_score (Spec.confidences_of e.1 h) <= 0 → e.1 = NONE.
Proof.
  intros Hv He Hscore.
  assert (e.2 ∈ Spec.confidences_of e.1 h) as Hin.
  { apply list_elem_of_fmap. exists e. split; [done|].
    by apply list_elem_of_filter. }
  rewrite group_score_total in Hscore
    by (intros Hnil; rewrite Hnil in Hin; by apply elem_of_nil in Hin).
  pose proof (total_elem_le _ _ (valid_confidences_nonneg e.1 h Hv) Hin).
  unfold valid_window in Hv. rewrite Forall_forall in Hv.
  destruct (Hv e He) as [->|Hhalf]; [done|lra].
Qed.
(** *** The vote *)

Lemma _get_smoothed_gesture_nonempty (self : GestureRecognizer) :
  gesture_history self ≠ [] →
  _get_smoothed_gesture self
  = let gesture_counts := gesture_counts_of (gesture_history self) in
    let best := foldl best_step (NONE, 0) gesture_counts in
    (best.1,
     match counts_lookup gesture_counts best.1 with
     | Some cs => py_sum cs / INR (length cs)
     | None => 0
     end).
Proof.
  intros Hne. unfold _get_smoothed_gesture.
  by destruct (gesture_history self).
Qed.

Lemma nonempty_elem {A} (l : list A) : l ≠ [] → ∃ x, x ∈ l.
Proof. destruct l as [|x l]; [done|]. exists x. apply list_elem_of_here. Qed.

Lemma smoothed_gesture_vote (self : GestureRecognizer) :
  let h := gesture_history self in
  valid_window h → h ≠ [] →
  let out := _get_smoothed_gesture self in
  Spec.present out.1 h ∧
  (∀ g, Spec.present g h → Spec.score g h <= Spec.score out.1 h) ∧
  out.2 = Spec.average_confidence out.1 h.
Proof.
  intros h Hv Hne out.
  pose proof (_get_smoothed_gesture_nonempty self Hne) as Hout.
  fold out in Hout. cbv zeta in Hout. fold h in Hout.
  destruct (nonempty_elem h Hne) as [e He].
  clearbody h out.
  set (counts := gesture_counts_of h) in *.
  set (best := foldl best_step (NONE, 0) counts) in *.
  destruct (best_fold counts (NONE, 0)) as (_ & Hmax & Hwho).
  fold best in Hmax, Hwho.
  (* the winner is a group of the dictionary, also when no score beat
     the initial 0 *)
  assert (∃ cs, (best.1, cs) ∈ counts ∧ best.2 = group_score cs)
    as (cs & Hin & Hscore).
  { destruct Hwho as [Hinit|([g cs] & Hin & ->)]; [|by exists cs].
    assert ((e.1, Spec.confidences_of e.1 h) ∈ counts) as Hgrp.
    { apply gesture_counts_elem. split; [done|].
      apply present_confidences, list_elem_of_fmap. by exists e. }
    pose proof (Hmax _ Hgrp) as Hle. rewrite Hinit in Hle. simpl in Hle.
    assert (e.1 = NONE) as HN by (by apply (zero_score_is_NONE h e)).
    exists (Spec.confidences_of e.1 h). rewrite Hinit. simpl.
    rewrite <- HN. split; [done|].
    pose proof (group_score_nonneg _ (valid_confidences_nonneg e.1 h Hv)).
    lra. }
  apply gesture_counts_elem in Hin as Hcs. destruct Hcs as [Hcs Hcsne].
  rewrite Hout. cbn [fst snd]. split; [|split].
  - apply present_confidences. by rewrite <- Hcs.
  - intros g Hg. rewrite !score_group_score, <- Hcs, <- Hscore.
    apply (Hmax (g, Spec.confidences_of g h)).
    apply gesture_counts_elem. split; [done|]. by apply present_confidences.
  - rewrite (elem_counts_lookup counts _ _ (gesture_counts_NoDup h) Hin).
    unfold Spec.average_confidence, Spec.count.
    by rewrite py_sum_total, Hcs.
Qed.

(** *** What the recognizer puts into the window *)

Lemma frame_classification_valid (self : GestureRecognizer)
  (landmarks : list Landmark) (e : Classification) :
  frame_classification self landmarks = Some e → valid_entry e.
Proof.
  unfold frame_classification.
  destruct (max_by_confidence _) as [[g c]|]; simpl; [|done].
  case_bool_decide; intros [= <-]; [by left|right; simpl; lra].
Qed.

Lemma history_append_valid (h : list Classification) (e : Classification) :
  valid_window h → valid_entry e → valid_window (history_append h e).
Proof.
  intros Hh He. unfold history_append, valid_window.
  assert (Forall valid_entry (h ++ [e])) as Hall
    by (apply Forall_app; split; [done|by apply Forall_singleton]).
  case_bool_decide; [by apply Forall_drop|done].
Qed.

Lemma history_append_nonempty (h : list Classification)
  (e : Classification) : history_append h e ≠ [].
Proof.
  unfold history_append, history_maxlen. case_bool_decide as Hlen.
  - intros Hnil. apply (f_equal length) in Hnil.
    rewrite length_drop in Hnil. simpl in Hnil. lia.
  - by destruct h.
Qed.

Lemma recognize_gesture_valid (self : GestureRecognizer)
  (landmarks : list Landmark) :
  valid_window (gesture_history self) →
  valid_window (gesture_history (recognize_gesture self landmarks).2).
Proof.
  intros Hv. unfold recognize_gesture. case_bool_decide; [done|].
  destruct (frame_classification self landmarks) as [e|] eqn:He; [|done].
  simpl. apply history_append_valid; [done|].
  by apply (frame_classification_valid self landmarks).
Qed.

Lemma run_frames_valid (self : GestureRecognizer)
  (frames : list (list Landmark)) :
  valid_window (gesture_history self) →
  valid_window (gesture_history (run_frames self frames)).
Proof.
  revert self. induction frames as [|lm frames IH]; intros self Hv; [done|].
  simpl. apply IH. by apply recognize_gesture_valid.
Qed.

Lemma frame_classification_total (self : GestureRecognizer)
  (landmarks : list Landmark) :
  ∃ e, frame_classification self landmarks = Some e.
Proof.
  unfold frame_classification.
  destruct (max_by_confidence (gestures self landmarks)) as [[g c]|] eqn:Hmax.
  - cbn [mbind option_bind]. case_bool_decide; by eexists.
  - unfold gestures in Hmax. cbn [max_by_confidence] in Hmax. discriminate.
Qed.

(** A hand of 21 landmarks always enters the window, and the call returns
    the vote over the new window. *)
Lemma recognize_gesture_hand (self : GestureRecognizer)
  (landmarks : list Landmark) :
  length landmarks = 21%nat →
  ∃ e, frame_classification self landmarks = Some e ∧
       let self' :=
         set_history (history_append (gesture_history self) e) self in
       recognize_gesture self landmarks
       = (_get_smoothed_gesture self', self').
Proof.
  intros Hlen. unfold recognize_gesture.
  rewrite bool_decide_eq_false_2 by (intros H; by apply H).
  destruct (frame_classification_total self landmarks) as [e He].
  exists e. split; [done|]. by rewrite He.
Qed.

(** The vote relies on what the window holds: on a window with a class
    of confidence 0 other than the null gesture, which [recognize_gesture]
    never builds, the initial best [(NONE, 0)] survives although the null
    gesture is not in the window. *)
Lemma vote_outside_valid_windows :
  _get_smoothed_gesture (set_history [(INDEX_EXTENDED, 0)] Recognizer.init)
  = (NONE, 0) ∧
  ¬ Spec.present NONE [(INDEX_EXTENDED, 0)] ∧
  ¬ valid_window [(INDEX_EXTENDED, 0)].
Proof.
  split; [|split].
  - unfold _get_smoothed_gesture.
    cbn [gesture_history set_history gesture_counts_of foldl counts_append
         fst snd].
    rewrite best_step_score. cbn [fst snd].
    rewrite bool_decide_eq_false_2; [done|].
    unfold group_score, py_sum. simpl. lra.
  - unfold Spec.present. simpl. by intros [?|?%elem_of_nil]%elem_of_cons.
  - intros [[?|Hhalf] _]%Forall_cons; [done|]. simpl in Hhalf. lra.
Qed.

(** C8.  Start from a recognizer whose window holds what
    [recognize_gesture] stores (the empty window of a new recognizer is
    one) and feed it any frames.  If the window is then not empty, the
    stabilized output [_get_smoothed_gesture] is a class present in the
    window whose score, count times average confidence, is at least the
    score of every class present, and its confidence is the average of
    the confidences stored for that class.  Which of several classes of
    maximal score wins is not part of the statement. *)
Theorem stabilized_output_vote (self0 : GestureRecognizer)
  (frames : list (list Landmark)) :
  valid_window (gesture_history self0) →
  let self := run_frames self0 frames in
  let h := gesture_history self in
  h ≠ [] →
  let out := _get_smoothed_gesture self in
  Spec.present out.1 h ∧
  (∀ g, Spec.present g h → Spec.score g h <= Spec.score out.1 h) ∧
  out.2 = Spec.average_confidence out.1 h.
Proof.
  intros Hv self h Hne. apply smoothed_gesture_vote; [|done].
  by apply run_frames_valid.
Qed.

Lemma stabilized_output_vote_witness :
  valid_window (gesture_history Recognizer.init) ∧
  gesture_history (run_frames Recognizer.init [flat_hand]) ≠ [] ∧
  Spec.present
    (_get_smoothed_gesture (run_frames Recognizer.init [flat_hand])).1
    (gesture_history (run_frames Recognizer.init [flat_hand])).
Proof.
  assert (valid_window (gesture_history Recognizer.init)) as Hv
    by apply Forall_nil_2.
  assert (gesture_history (run_frames Recognizer.init [flat_hand]) ≠ [])
    as Hne.
  { destruct (recognize_gesture_hand Recognizer.init flat_hand eq_refl)
      as (e & _ & Hrec).
    unfold run_frames. cbn [foldl]. rewrite Hrec.
    apply history_append_nonempty. }
  split; [exact Hv|]. split; [exact Hne|].
  apply (stabilized_output_vote Recognizer.init [flat_hand] Hv Hne).
Defined.
End Resolver.

(** ** The scroll origin in the processing loop *)

Section ProcessingLoop.
Import Recognizer Controller.

(** [processing_loop] records the scroll origin only after a scroll frame
    whose action was executed, and the scroll branch of
    [execute_gesture_action] executes nothing without a recorded origin:
    an origin that is not recorded stays so, whatever the frame. *)
Lemma scroll_origin_stays_unrecorded (self : App.GestureControlApp)
  (vars : App.LoopVars) (landmarks : list Landmark) (w : Os.World) :
  App.scroll_start_y vars = None →
  App.scroll_start_y (App.process_hand self vars landmarks w).1.2 = None.
Proof.
  intros Hnone. unfold App.process_hand.
  destruct (recognize_gesture _ landmarks) as [[gesture_type confidence] r].
  destruct (App.control_enabled _ && bool_decide (gesture_type ≠ NONE));
    [|done].
  destruct (App.execute_gesture_action _ gesture_type landmarks _ _ w)
    as [[executed app] w'] eqn:Hexec.
  destruct executed; [|done]. cbn [fst snd App.scroll_start_y].
  destruct (decide (gesture_type = TWO_FINGER_SCROLL)) as [->|_]; [|done].
  exfalso. rewrite Hnone in Hexec.
  unfold App.execute_gesture_action in Hexec.
  by destruct (get_cursor_position landmarks).
Qed.
End ProcessingLoop.

(** * Properties beyond the claims *)

(** ** The detectors: ranges and the per-frame arg-max *)

Section DetectorRanges.
Import Recognizer.

Lemma py_clamp_range (x : R) : 0 <= py_max 0 (py_min 1 x) <= 1.
Proof. unfold py_max, py_min. repeat case_bool_decide; lra. Qed.

Ltac lookup_cases :=
  repeat match goal with
         | |- context [?l !! ?i] =>
             destruct (l !! i) eqn:?;
             cbn [default from_option Datatypes.id mbind option_bind fmap
                  option_fmap option_map]
         end.

Lemma _detect_pinch_range (self : GestureRecognizer) (lm : list Landmark)
  (i j : nat) : 0 <= _detect_pinch self lm i j <= 1.
Proof.
  unfold _detect_pinch. lookup_cases; try lra.
  case_bool_decide; cbn [default from_option Datatypes.id]; [apply py_clamp_range|lra].
Qed.

Lemma count_true_le (flags : list bool) :
  (count_true flags ≤ length flags)%nat.
Proof. unfold count_true. apply length_filter. Qed.

Lemma quarter_range (n : nat) :
  (n ≤ 4)%nat →
  0 <= (if bool_decide (INR n / 4 > 75 / 100) then INR n / 4 else 0) <= 1.
Proof.
  intros Hn. case_bool_decide; [|lra].
  apply le_INR in Hn. pose proof (pos_INR n). simpl in Hn. lra.
Qed.

Lemma _detect_closed_fist_range (self : GestureRecognizer)
  (lm : list Landmark) : 0 <= _detect_closed_fist self lm <= 1.
Proof.
  apply quarter_range.
  pose proof (count_true_le (negb <$> fingers_extended self lm)) as H.
  by rewrite length_fmap in H.
Qed.

Lemma _detect_open_palm_range (self : GestureRecognizer)
  (lm : list Landmark) : 0 <= _detect_open_palm self lm <= 1.
Proof. apply quarter_range, (count_true_le (fingers_extended self lm)). Qed.

Lemma _detect_index_extended_range (self : GestureRecognizer)
  (lm : list Landmark) : 0 <= _detect_index_extended self lm <= 1.
Proof. unfold _detect_index_extended. repeat case_match; lra. Qed.

Lemma _detect_two_finger_scroll_range (self : GestureRecognizer)
  (lm : list Landmark) : 0 <= _detect_two_finger_scroll self lm <= 1.
Proof. unfold _detect_two_finger_scroll. repeat case_match; lra. Qed.

Lemma _detect_three_finger_close_range (lm : list Landmark) :
  0 <= _detect_three_finger_close lm <= 1.
Proof.
  unfold _detect_three_finger_close. lookup_cases; try lra.
  case_match; cbn [default from_option Datatypes.id]; [apply py_clamp_range|lra].
Qed.

Lemma _detect_three_finger_spread_range (self : GestureRecognizer)
  (lm : list Landmark) : 0 <= _detect_three_finger_spread self lm <= 1.
Proof.
  unfold _detect_three_finger_spread. case_match; [lra|].
  lookup_cases; try lra. case_match; cbn [default from_option Datatypes.id]; lra.
Qed.

Lemma _detect_thumb_down_range (lm : list Landmark) :
  0 <= _detect_thumb_down lm <= 1.
Proof.
  unfold _detect_thumb_down. lookup_cases; try lra.
  case_bool_decide; cbn [default from_option Datatypes.id]; [|lra].
  unfold py_min. case_bool_decide; lra.
Qed.

Lemma _detect_thumb_pinky_extended_range (self : GestureRecognizer)
  (lm : list Landmark) : 0 <= _detect_thumb_pinky_extended self lm <= 1.
Proof.
  unfold _detect_thumb_pinky_extended. lookup_cases; try lra.
  case_match; cbn [default from_option Datatypes.id]; lra.
Qed.

Lemma gestures_range (self : GestureRecognizer) (lm : list Landmark) :
  Forall (λ item : Classification, 0 <= item.2 <= 1) (gestures self lm).
Proof.
  unfold gestures.
  repeat (apply Forall_cons; split); cbn [snd];
    auto using _detect_pinch_range, _detect_closed_fist_range,
      _detect_open_palm_range, _detect_index_extended_range,
      _detect_two_finger_scroll_range, _detect_three_finger_close_range,
      _detect_three_finger_spread_range, _detect_thumb_down_range,
      _detect_thumb_pinky_extended_range.
Qed.

(** X1.  Each of the ten detectors returns a confidence in [0, 1], for
    every landmark sequence (also a malformed one) and every setting of
    the thresholds. *)
Theorem detectors_in_unit_interval (self : GestureRecognizer)
  (lm : list Landmark) :
  Forall (λ item : Classification, 0 <= item.2 <= 1) (gestures self lm) ∧
  length (gestures self lm) = 10%nat.
Proof. split; [apply gestures_range|done]. Qed.
End DetectorRanges.

Section ArgMax.
Import Recognizer.

(** The scan of [max]: the running best is the first item of maximal
    confidence among those seen. *)
Lemma max_scan (before mid rest : list Classification)
  (best : Classification) :
  Forall (λ x : Classification, x.2 < best.2) before →
  Forall (λ x : Classification, x.2 <= best.2) mid →
  let winner :=
    foldl (λ best y, if bool_decide (y.2 > best.2) then y else best)
          best rest in
  ∃ before' after,
    before ++ best :: mid ++ rest = before' ++ winner :: after ∧
    Forall (λ x : Classification, x.2 < winner.2) before' ∧
    Forall (λ x : Classification, x.2 <= winner.2) after.
Proof.
  revert before mid best.
  induction rest as [|y rest IH]; intros before mid best Hb Hm; simpl.
  - exists before, mid. by rewrite app_nil_r.
  - case_bool_decide as Hy.
    + destruct (IH (before ++ best :: mid) [] y) as (b' & a' & Heq & ? & ?).
      * apply Forall_app. split.
        { eapply Forall_impl; [exact Hb|]. simpl. intros; lra. }
        apply Forall_cons. split; [lra|].
        eapply Forall_impl; [exact Hm|]. simpl. intros; lra.
      * apply Forall_nil_2.
      * exists b', a'. split; [|done]. rewrite <- Heq.
        by rewrite <- !app_assoc.
    + destruct (IH before (mid ++ [y]) best) as (b' & a' & Heq & ? & ?).
      * done.
      * apply Forall_app. split; [done|]. apply Forall_singleton. lra.
      * exists b', a'. split; [|done]. rewrite <- Heq.
        by rewrite <- !app_assoc.
Qed.

Lemma max_by_confidence_first (items : list Classification) :
  items ≠ [] →
  ∃ before winner after,
    max_by_confidence items = Some winner ∧
    items = before ++ winner :: after ∧
    Forall (λ x : Classification, x.2 < winner.2) before ∧
    Forall (λ x : Classification, x.2 <= winner.2) after.
Proof.
  destruct items as [|x rest]; [done|]. intros _.
  destruct (max_scan [] [] rest x (Forall_nil_2 _) (Forall_nil_2 _))
    as (before & after & Heq & Hb & Ha).
  eexists before, _, after. by repeat split.
Qed.

(** X2.  The classification of a frame is the first entry of maximal
    confidence in the order of the [gestures] dictionary (every earlier
    detector is strictly below it, every later one at most equal), unless
    that maximum is below 0.5, in which case it is the null gesture with
    confidence 0. *)
Theorem frame_classification_argmax (self : GestureRecognizer)
  (lm : list Landmark) :
  ∃ before gesture confidence after,
    gestures self lm = before ++ (gesture, confidence) :: after ∧
    Forall (λ x : Classification, x.2 < confidence) before ∧
    Forall (λ x : Classification, x.2 <= confidence) after ∧
    gesture ≠ NONE ∧
    frame_classification self lm
    = Some (if bool_decide (confidence < 5 / 10) then (NONE, 0)
            else (gesture, confidence)).
Proof.
  destruct (max_by_confidence_first (gestures self lm))
    as (before & [g c] & after & Hmax & Heq & Hb & Ha); [done|].
  exists before, g, c, after. repeat split; try done.
  - assert (Forall (λ x : Classification, x.1 ≠ NONE) (gestures self lm))
      as Hkeys by (unfold gestures; repeat (apply Forall_cons; split); done).
    rewrite Heq in Hkeys. apply Forall_app in Hkeys as [_ Hkeys].
    by apply Forall_cons in Hkeys as [Hg _].
  - unfold frame_classification. rewrite Hmax.
    cbn [mbind option_bind]. by case_bool_decide.
Qed.
End ArgMax.

(** ** The detectors that read the four extension flags *)

Section FingerFlags.
Import Recognizer.
Variable self : GestureRecognizer.
Variable lm : list Landmark.

Ltac count_flags :=
  repeat match goal with
         | |- context [count_true ?l] =>
             let n := eval vm_compute in (count_true l) in
             change (count_true l) with n
         end.

Lemma _detect_closed_fist_flags :
  _detect_closed_fist self lm
  = if negb (_is_finger_extended self lm INDEX_TIP INDEX_MCP)
       && negb (_is_finger_extended self lm MIDDLE_TIP MIDDLE_MCP)
       && negb (_is_finger_extended self lm RING_TIP RING_MCP)
       && negb (_is_finger_extended self lm PINKY_TIP PINKY_MCP)
    then 1 else 0.
Proof.
  unfold _detect_closed_fist, fingers_extended.
  destruct (_is_finger_extended self lm INDEX_TIP INDEX_MCP),
    (_is_finger_extended self lm MIDDLE_TIP MIDDLE_MCP),
    (_is_finger_extended self lm RING_TIP RING_MCP),
    (_is_finger_extended self lm PINKY_TIP PINKY_MCP);
    cbv zeta; count_flags; cbn [negb andb INR];
    case_bool_decide; lra.
Qed.

Lemma _detect_open_palm_flags :
  _detect_open_palm self lm
  = if _is_finger_extended self lm INDEX_TIP INDEX_MCP
       && _is_finger_extended self lm MIDDLE_TIP MIDDLE_MCP
       && _is_finger_extended self lm RING_TIP RING_MCP
       && _is_finger_extended self lm PINKY_TIP PINKY_MCP
    then 1 else 0.
Proof.
  unfold _detect_open_palm, fingers_extended.
  destruct (_is_finger_extended self lm INDEX_TIP INDEX_MCP),
    (_is_finger_extended self lm MIDDLE_TIP MIDDLE_MCP),
    (_is_finger_extended self lm RING_TIP RING_MCP),
    (_is_finger_extended self lm PINKY_TIP PINKY_MCP);
    cbv zeta; count_flags; cbn [negb andb INR];
    case_bool_decide; lra.
Qed.

Lemma _detect_three_finger_spread_flags :
  _detect_three_finger_spread self lm > 0 →
  _is_finger_extended self lm INDEX_TIP INDEX_MCP = true ∧
  _is_finger_extended self lm MIDDLE_TIP MIDDLE_MCP = true ∧
  _is_finger_extended self lm RING_TIP RING_MCP = true.
Proof.
  unfold _detect_three_finger_spread.
  destruct (_is_finger_extended self lm INDEX_TIP INDEX_MCP),
    (_is_finger_extended self lm MIDDLE_TIP MIDDLE_MCP),
    (_is_finger_extended self lm RING_TIP RING_MCP);
    cbn [negb andb]; intros; (done || lra).
Qed.

Lemma _detect_thumb_pinky_extended_flags :
  _detect_thumb_pinky_extended self lm > 0 →
  _is_finger_extended self lm INDEX_TIP INDEX_MCP = false ∧
  _is_finger_extended self lm MIDDLE_TIP MIDDLE_MCP = false ∧
  _is_finger_extended self lm RING_TIP RING_MCP = false.
Proof.
  unfold _detect_thumb_pinky_extended.
  destruct (lm !! THUMB_TIP), (lm !! PINKY_TIP), (lm !! WRIST);
    cbn [default from_option Datatypes.id mbind option_bind];
    try (intros; lra).
  destruct (_is_finger_extended self lm INDEX_TIP INDEX_MCP),
    (_is_finger_extended self lm MIDDLE_TIP MIDDLE_MCP),
    (_is_finger_extended self lm RING_TIP RING_MCP);
    rewrite ?andb_false_r; cbn [negb andb default from_option Datatypes.id];
    intros; (done || lra).
Qed.

(** X3.  The detectors that read the extension flags of the four
    non-thumb fingers exclude one another as the flags dictate: a certain
    index pointing (0.9) rules out scroll, spread, palm and fist; a scroll
    pose leaves index pointing at 0.5 and rules out spread, palm, fist and
    thumb-pinky; a fist rules out index pointing, scroll, spread and palm;
    a palm or a spread leaves index pointing at 0.5; thumb-pinky rules out
    index pointing, scroll, spread and palm. *)
Theorem finger_flag_detectors :
  (_detect_index_extended self lm = 9 / 10 →
     _detect_two_finger_scroll self lm = 0 ∧
     _detect_three_finger_spread self lm = 0 ∧
     _detect_open_palm self lm = 0 ∧ _detect_closed_fist self lm = 0) ∧
  (_detect_two_finger_scroll self lm > 0 →
     _detect_index_extended self lm = 5 / 10 ∧
     _detect_three_finger_spread self lm = 0 ∧
     _detect_open_palm self lm = 0 ∧ _detect_closed_fist self lm = 0 ∧
     _detect_thumb_pinky_extended self lm = 0) ∧
  (_detect_closed_fist self lm > 0 →
     _detect_closed_fist self lm = 1 ∧
     _detect_index_extended self lm = 0 ∧
     _detect_two_finger_scroll self lm = 0 ∧
     _detect_three_finger_spread self lm = 0 ∧
     _detect_open_palm self lm = 0) ∧
  (_detect_open_palm self lm > 0 →
     _detect_open_palm self lm = 1 ∧
     _detect_index_extended self lm = 5 / 10 ∧
     _detect_two_finger_scroll self lm = 0 ∧
     _detect_closed_fist self lm = 0 ∧
     _detect_thumb_pinky_extended self lm = 0) ∧
  (_detect_three_finger_spread self lm > 0 →
     _detect_index_extended self lm = 5 / 10 ∧
     _detect_closed_fist self lm = 0) ∧
  (_detect_thumb_pinky_extended self lm > 0 →
     _detect_index_extended self lm = 0 ∧
     _detect_two_finger_scroll self lm = 0 ∧
     _detect_three_finger_spread self lm = 0 ∧
     _detect_open_palm self lm = 0).
Proof.
  pose proof _detect_three_finger_spread_flags as Hspread.
  pose proof _detect_thumb_pinky_extended_flags as Hpinky.
  pose proof (_detect_three_finger_spread_range self lm) as Hsr.
  pose proof (_detect_thumb_pinky_extended_range self lm) as Hpr.
  rewrite _detect_closed_fist_flags, _detect_open_palm_flags.
  unfold _detect_index_extended, _detect_two_finger_scroll.
  set (spread := _detect_three_finger_spread self lm) in *.
  set (pinky := _detect_thumb_pinky_extended self lm) in *.
  destruct (_is_finger_extended self lm INDEX_TIP INDEX_MCP),
    (_is_finger_extended self lm MIDDLE_TIP MIDDLE_MCP),
    (_is_finger_extended self lm RING_TIP RING_MCP),
    (_is_finger_extended self lm PINKY_TIP PINKY_MCP);
    cbn [negb andb];
    repeat split; intros; try lra;
    try (destruct (Rle_lt_or_eq_dec 0 spread ltac:(lra)) as [Hpos|<-];
         [apply Rlt_gt, Hspread in Hpos; naive_solver | done]);
    try (destruct (Rle_lt_or_eq_dec 0 pinky ltac:(lra)) as [Hpos|<-];
         [apply Rlt_gt, Hpinky in Hpos; naive_solver | done]);
    try (exfalso;
         match goal with H : spread > 0 |- _ =>
           apply Hspread in H; naive_solver end);
    try (exfalso;
         match goal with H : pinky > 0 |- _ =>
           apply Hpinky in H; naive_solver end).
Qed.
End FingerFlags.

(** ** Detectors on a sequence that is too short *)

Section ShortHand.
Import Recognizer.
Variable self : GestureRecognizer.
Variable lm : list Landmark.
Hypothesis short : (length lm ≤ 8)%nat.

Lemma short_lookup (i : nat) : (8 ≤ i)%nat → lm !! i = None.
Proof. intros Hi. apply lookup_ge_None. lia. Qed.

Lemma short_not_extended (tip mcp : nat) :
  (8 ≤ tip)%nat → _is_finger_extended self lm tip mcp = false.
Proof.
  intros Htip. unfold _is_finger_extended.
  rewrite (short_lookup tip) by done. reflexivity.
Qed.

Lemma short_gestures :
  gestures self lm
  = [ (THUMB_INDEX_PINCH, 0); (THUMB_MIDDLE_PINCH, 0); (CLOSED_FIST, 1);
      (OPEN_PALM, 0); (TWO_FINGER_SCROLL, 0); (THREE_FINGER_CLOSE, 0);
      (THREE_FINGER_SPREAD, 0); (THUMB_DOWN, _detect_thumb_down lm);
      (THUMB_PINKY_EXTENDED, 0); (INDEX_EXTENDED, 0) ].
Proof.
  unfold gestures.
  rewrite _detect_closed_fist_flags, _detect_open_palm_flags.
  unfold _detect_index_extended, _detect_two_finger_scroll,
    _detect_three_finger_spread.
  rewrite !short_not_extended by (unfold INDEX_TIP, MIDDLE_TIP, RING_TIP,
                                   PINKY_TIP; lia).
  cbn [negb andb].
  assert (_detect_pinch self lm THUMB_TIP INDEX_TIP = 0) as ->.
  { unfold _detect_pinch. rewrite (short_lookup INDEX_TIP) by done.
    by destruct (lm !! THUMB_TIP). }
  assert (_detect_pinch self lm THUMB_TIP MIDDLE_TIP = 0) as ->.
  { unfold _detect_pinch.
    rewrite (short_lookup MIDDLE_TIP) by (unfold MIDDLE_TIP; lia).
    by destruct (lm !! THUMB_TIP). }
  assert (_detect_three_finger_close lm = 0) as ->.
  { unfold _detect_three_finger_close.
    by rewrite (short_lookup INDEX_TIP). }
  assert (_detect_thumb_pinky_extended self lm = 0) as ->.
  { unfold _detect_thumb_pinky_extended.
    rewrite (short_lookup PINKY_TIP) by (unfold PINKY_TIP; lia).
    by destruct (lm !! THUMB_TIP). }
  done.
Qed.

Lemma short_frame_classification :
  frame_classification self lm = Some (CLOSED_FIST, 1).
Proof.
  unfold frame_classification. rewrite short_gestures.
  pose proof (_detect_thumb_down_range lm) as Hdown.
  cbn [max_by_confidence foldl snd].
  repeat first
    [ rewrite (bool_decide_eq_false_2 (0 > 0)) by lra
    | rewrite (bool_decide_eq_true_2 (1 > 0)) by lra
    | rewrite (bool_decide_eq_false_2 (0 > 1)) by lra
    | rewrite (bool_decide_eq_false_2 (_detect_thumb_down lm > 1)) by lra ];
    cbn [snd].
  cbn [mbind option_bind].
  by rewrite bool_decide_eq_false_2 by lra.
Qed.
End ShortHand.

(** X4.  On a landmark sequence with fewer than nine entries every finger
    counts as not extended, because the failed lookups are caught: the
    closed-fist detector returns 1, every other detector but thumb-down
    returns 0, and the frame would be classified as a closed fist with
    confidence 1.  Only the length guard of [recognize_gesture] keeps such
    a sequence out of the window. *)
Theorem short_hand_is_fist (self : Recognizer.GestureRecognizer)
  (lm : list Landmark) :
  (length lm ≤ 8)%nat →
  Recognizer._detect_closed_fist self lm = 1 ∧
  Recognizer._detect_open_palm self lm = 0 ∧
  Recognizer._detect_index_extended self lm = 0 ∧
  Recognizer.frame_classification self lm = Some (CLOSED_FIST, 1) ∧
  Recognizer.recognize_gesture self lm = ((NONE, 0), self).
Proof.
  intros Hshort.
  pose proof (short_gestures self lm Hshort) as Hg.
  unfold Recognizer.gestures in Hg. simplify_eq.
  repeat split; try done.
  - by apply short_frame_classification.
  - unfold Recognizer.recognize_gesture.
    rewrite bool_decide_eq_true_2; [done|lia].
Qed.

Lemma short_hand_is_fist_witness :
  (length ([] : list Landmark) ≤ 8)%nat ∧
  Recognizer.frame_classification Recognizer.init []
  = Some (CLOSED_FIST, 1).
Proof.
  assert (length ([] : list Landmark) ≤ 8)%nat as Hlen by (simpl; lia).
  split; [exact Hlen|].
  apply (short_hand_is_fist Recognizer.init [] Hlen).
Defined.

(** ** The window over a run of frames *)

Section Window.
Import Recognizer.

Lemma last_n_length {A} (n : nat) (l : list A) :
  length (last_n n l) = (length l `min` n)%nat.
Proof. unfold last_n. rewrite length_drop. lia. Qed.

Lemma last_n_all {A} (n : nat) (l : list A) :
  (length l ≤ n)%nat → last_n n l = l.
Proof.
  intros Hle. unfold last_n.
  by replace (length l - n)%nat with 0%nat by lia.
Qed.

Lemma last_n_app_last_n {A} (n : nat) (a b : list A) :
  last_n n (last_n n a ++ b) = last_n n (a ++ b).
Proof.
  unfold last_n. rewrite !length_app, length_drop, !drop_app, drop_drop.
  rewrite length_drop. f_equal; f_equal; lia.
Qed.

Lemma history_append_last_n (h : list Classification) (e : Classification) :
  (length h ≤ history_maxlen)%nat →
  history_append h e = last_n history_maxlen (h ++ [e]).
Proof.
  unfold history_append, last_n, history_maxlen. intros Hlen.
  rewrite length_app. simpl length.
  case_bool_decide as Hfull; simpl in Hfull.
  - by replace (length h + 1 - 5)%nat with 1%nat by lia.
  - by replace (length h + 1 - 5)%nat with 0%nat by lia.
Qed.

Lemma frame_classification_thresholds (s1 s2 : GestureRecognizer)
  (lm : list Landmark) :
  pinch_threshold s1 = pinch_threshold s2 →
  finger_extended_threshold s1 = finger_extended_threshold s2 →
  frame_classification s1 lm = frame_classification s2 lm.
Proof.
  intros Hp Hf. unfold frame_classification, gestures, _detect_pinch,
    _detect_closed_fist, _detect_open_palm, _detect_index_extended,
    _detect_two_finger_scroll, _detect_three_finger_spread,
    _detect_thumb_pinky_extended, fingers_extended, _is_finger_extended.
  by rewrite Hp, Hf.
Qed.

Lemma recognize_gesture_thresholds (self : GestureRecognizer)
  (lm : list Landmark) :
  pinch_threshold (recognize_gesture self lm).2 = pinch_threshold self ∧
  finger_extended_threshold (recognize_gesture self lm).2
  = finger_extended_threshold self.
Proof.
  unfold recognize_gesture. case_bool_decide; [done|].
  by destruct (frame_classification self lm).
Qed.

Lemma frame_entries_thresholds (s1 s2 : GestureRecognizer)
  (frames : list (list Landmark)) :
  pinch_threshold s1 = pinch_threshold s2 →
  finger_extended_threshold s1 = finger_extended_threshold s2 →
  frame_entries s1 frames = frame_entries s2 frames.
Proof.
  intros Hp Hf. unfold frame_entries.
  induction frames as [|lm frames IH]; [done|].
  cbn [omap list_omap]. rewrite IH.
  by rewrite (frame_classification_thresholds s1 s2 lm Hp Hf).
Qed.

Lemma recognize_gesture_history (self : GestureRecognizer)
  (lm : list Landmark) :
  (frame_entries self [lm] = [] ∧
   gesture_history (recognize_gesture self lm).2 = gesture_history self)
  ∨ ∃ e, frame_entries self [lm] = [e] ∧
         gesture_history (recognize_gesture self lm).2
         = history_append (gesture_history self) e.
Proof.
  unfold recognize_gesture, frame_entries. cbn [omap list_omap].
  destruct (decide (length lm = 21%nat)) as [Hok|Hbad].
  - rewrite (bool_decide_eq_true_2 (length lm = 21%nat)) by done.
    rewrite (bool_decide_eq_false_2 (length lm ≠ 21%nat))
      by (intros H; by apply H).
    destruct (frame_classification self lm) as [e|].
    + right. by exists e.
    + by left.
  - rewrite (bool_decide_eq_false_2 (length lm = 21%nat)) by done.
    rewrite (bool_decide_eq_true_2 (length lm ≠ 21%nat)) by done.
    by left.
Qed.

Lemma run_frames_window (self0 : GestureRecognizer)
  (frames : list (list Landmark)) :
  (length (gesture_history self0) ≤ history_maxlen)%nat →
  gesture_history (run_frames self0 frames)
  = last_n history_maxlen
      (gesture_history self0 ++ frame_entries self0 frames).
Proof.
  revert self0. induction frames as [|lm frames IH]; intros self0 Hlen.
  - unfold frame_entries. simpl. rewrite app_nil_r. by rewrite last_n_all.
  - change (run_frames self0 (lm :: frames))
      with (run_frames (recognize_gesture self0 lm).2 frames).
    destruct (recognize_gesture_thresholds self0 lm) as [Hp Hf].
    assert (frame_entries self0 (lm :: frames)
            = frame_entries self0 [lm] ++ frame_entries self0 frames) as ->.
    { unfold frame_entries. cbn [omap list_omap]. by case_match. }
    rewrite <- (frame_entries_thresholds _ self0 frames Hp Hf).
    destruct (recognize_gesture_history self0 lm)
      as [[He Hsame]|(e & He & Happ)]; rewrite He.
    + rewrite IH by (by rewrite Hsame). by rewrite Hsame.
    + rewrite IH.
      * rewrite Happ, history_append_last_n by done.
        by rewrite last_n_app_last_n, <- app_assoc.
      * rewrite Happ, history_append_last_n by done.
        rewrite last_n_length. lia.
Qed.

(** X5.  A recognizer whose window holds at most five entries and that is
    fed any frames holds afterwards the last five of: its former entries
    followed by the per-frame classifications of the frames of 21
    landmarks, in order.  Frames of another length leave no trace, and the
    window never exceeds five entries. *)
Theorem window_is_last_five (self0 : GestureRecognizer)
  (frames : list (list Landmark)) :
  (length (gesture_history self0) ≤ 5)%nat →
  gesture_history (run_frames self0 frames)
  = last_n 5 (gesture_history self0 ++ frame_entries self0 frames) ∧
  (length (gesture_history (run_frames self0 frames)) ≤ 5)%nat ∧
  length (frame_entries self0 frames)
  = length (filter (λ lm, length lm = 21%nat) frames).
Proof.
  intros Hlen. split; [by apply run_frames_window|]. split.
  - rewrite run_frames_window by done. rewrite last_n_length.
    unfold history_maxlen. lia.
  - unfold frame_entries. induction frames as [|lm frames IH]; [done|].
    cbn [omap list_omap]. case_bool_decide as Hlm.
    + rewrite filter_cons_True by done.
      destruct (frame_classification_total self0 lm) as [e ->].
      simpl. by rewrite IH.
    + by rewrite filter_cons_False.
Qed.

Lemma window_is_last_five_witness :
  (length (gesture_history Recognizer.init) ≤ 5)%nat ∧
  (length (gesture_history (run_frames Recognizer.init
                              [flat_hand; []; flat_hand])) ≤ 5)%nat.
Proof.
  assert (length (gesture_history Recognizer.init) ≤ 5)%nat as Hlen
    by (simpl; lia).
  split; [exact Hlen|].
  apply (window_is_last_five Recognizer.init
           [flat_hand; []; flat_hand] Hlen).
Defined.
End Window.

(** ** The stabilized output over a run of frames *)

Section StabilizedOutput.
Import Recognizer.

Lemma frame_classification_entry (self : GestureRecognizer)
  (lm : list Landmark) (e : Classification) :
  frame_classification self lm = Some e → frame_entry e.
Proof.
  destruct (max_by_confidence_first (gestures self lm))
    as (before & [g c] & after & Hmax & Heq & _ & _); [done|].
  unfold frame_classification. rewrite Hmax. cbn [mbind option_bind].
  assert ((g, c) ∈ gestures self lm) as Hin
    by (rewrite Heq; apply elem_of_app; right; left).
  pose proof (gestures_range self lm) as Hrange.
  rewrite Forall_forall in Hrange. specialize (Hrange _ Hin).
  assert (g ≠ NONE) as Hg.
  { unfold gestures in Hin.
    repeat (apply elem_of_cons in Hin as [Hin|Hin]; [by simplify_eq|]).
    by apply elem_of_nil in Hin. }
  case_bool_decide; intros [= <-]; [by left|right].
  simpl in *. split; [done|lra].
Qed.

Lemma frame_entry_valid (e : Classification) : frame_entry e → valid_entry e.
Proof. intros [->|[_ H]]; [by left|right; lra]. Qed.

Lemma history_append_entries (h : list Classification) (e : Classification) :
  Forall frame_entry h → frame_entry e →
  Forall frame_entry (history_append h e).
Proof.
  intros Hh He. unfold history_append.
  assert (Forall frame_entry (h ++ [e])) as Hall
    by (apply Forall_app; split; [done|by apply Forall_singleton]).
  case_bool_decide; [by apply Forall_drop|done].
Qed.

Lemma recognize_gesture_entries (self : GestureRecognizer)
  (lm : list Landmark) :
  Forall frame_entry (gesture_history self) →
  Forall frame_entry (gesture_history (recognize_gesture self lm).2).
Proof.
  intros Hh. unfold recognize_gesture. case_bool_decide; [done|].
  destruct (frame_classification self lm) as [e|] eqn:He; [|done].
  simpl. apply history_append_entries; [done|].
  by apply (frame_classification_entry self lm).
Qed.

Lemma run_frames_entries (self : GestureRecognizer)
  (frames : list (list Landmark)) :
  Forall frame_entry (gesture_history self) →
  Forall frame_entry (gesture_history (run_frames self frames)).
Proof.
  revert self. induction frames as [|lm frames IH]; intros self Hh; [done|].
  simpl. apply IH. by apply recognize_gesture_entries.
Qed.

Lemma total_bounds (a b : R) (cs : list R) :
  Forall (λ c, a <= c <= b) cs →
  INR (length cs) * a <= Spec.total cs <= INR (length cs) * b.
Proof.
  unfold Spec.total. induction 1 as [|c cs Hc _ IH].
  - simpl. lra.
  - cbn [length foldr]. rewrite S_INR. lra.
Qed.

Lemma average_bounds (a b : R) (cs : list R) :
  cs ≠ [] → Forall (λ c, a <= c <= b) cs →
  a <= Spec.total cs / INR (length cs) <= b.
Proof.
  intros Hne Hcs. pose proof (total_bounds a b cs Hcs) as Ht.
  assert (0 < INR (length cs)) as Hn.
  { apply lt_0_INR. destruct cs; [done|simpl; lia]. }
  assert (0 < / INR (length cs)) as Hinv by (by apply Rinv_0_lt_compat).
  assert (INR (length cs) * / INR (length cs) = 1) as Hone
    by (apply Rinv_r; lra).
  assert (0 <= (Spec.total cs - INR (length cs) * a) * / INR (length cs))
    as Hlo by (apply Rmult_le_pos; lra).
  assert (0 <= (INR (length cs) * b - Spec.total cs) * / INR (length cs))
    as Hhi by (apply Rmult_le_pos; lra).
  assert (INR (length cs) * a * / INR (length cs) = a) as Ha
    by (rewrite (Rmult_comm _ a), Rmult_assoc, Hone; lra).
  assert (INR (length cs) * b * / INR (length cs) = b) as Hb
    by (rewrite (Rmult_comm _ b), Rmult_assoc, Hone; lra).
  rewrite Rmult_minus_distr_r in Hlo, Hhi. unfold Rdiv. lra.
Qed.

Lemma confidences_of_entries (g : GestureType) (h : list Classification) :
  Forall frame_entry h →
  Forall (λ c, if decide (g = NONE) then 0 <= c <= 0 else 1 / 2 <= c <= 1)
         (Spec.confidences_of g h).
Proof.
  intros Hh. apply Forall_forall. intros c Hc.
  apply list_elem_of_fmap in Hc as (e & -> & He).
  apply list_elem_of_filter in He as [<- He].
  rewrite Forall_forall in Hh.
  destruct (Hh e He) as [->|[Hg Hc]]; simpl.
  - lra.
  - by rewrite decide_False.
Qed.

Lemma smoothed_gesture_range (self : GestureRecognizer) :
  Forall frame_entry (gesture_history self) →
  frame_entry (_get_smoothed_gesture self).
Proof.
  intros Hh.
  destruct (gesture_history self) as [|e0 h0] eqn:Hhist.
  { unfold _get_smoothed_gesture. rewrite Hhist. by left. }
  rewrite <- Hhist in *.
  assert (gesture_history self ≠ []) as Hne by (by rewrite Hhist).
  destruct (smoothed_gesture_vote self) as (Hpres & _ & Havg); [|done|].
  { eapply Forall_impl; [exact Hh|]. apply frame_entry_valid. }
  destruct (_get_smoothed_gesture self) as [g c]. simpl in *.
  apply present_confidences in Hpres.
  pose proof (confidences_of_entries g _ Hh) as Hcs.
  unfold Spec.average_confidence, Spec.count in Havg.
  destruct (decide (g = NONE)) as [->|Hg].
  - left. pose proof (average_bounds 0 0 _ Hpres Hcs). f_equal. lra.
  - right. pose proof (average_bounds (1 / 2) 1 _ Hpres Hcs).
    simpl. split; [done|lra].
Qed.

(** X6.  Whatever frames a recognizer has seen, the pair returned by
    [recognize_gesture] is either the null gesture with confidence exactly
    0 or a class other than the null gesture with a confidence between 0.5
    and 1. *)
Theorem stabilized_output_range (self0 : GestureRecognizer)
  (frames : list (list Landmark)) (lm : list Landmark) :
  Forall frame_entry (gesture_history self0) →
  let out := (recognize_gesture (run_frames self0 frames) lm).1 in
  out = (NONE, 0) ∨ (out.1 ≠ NONE ∧ 1 / 2 <= out.2 <= 1).
Proof.
  intros Hh out.
  pose proof (run_frames_entries self0 frames Hh) as Hrun.
  pose proof (recognize_gesture_entries _ lm Hrun) as Hnext.
  assert (out = (NONE, 0) ∨
          out = _get_smoothed_gesture
                  (recognize_gesture (run_frames self0 frames) lm).2)
    as [Hnull|Hvote].
  { unfold out, recognize_gesture. case_bool_decide; [by left|].
    destruct (frame_classification _ lm); [by right|by left]. }
  - by left.
  - rewrite Hvote. by apply smoothed_gesture_range.
Qed.

Lemma stabilized_output_range_witness :
  Forall frame_entry (gesture_history Recognizer.init) ∧
  ((recognize_gesture (run_frames Recognizer.init [flat_hand])
      flat_hand).1 = (NONE, 0) ∨
   (recognize_gesture (run_frames Recognizer.init [flat_hand])
      flat_hand).1.1 ≠ NONE).
Proof.
  assert (Forall frame_entry (gesture_history Recognizer.init)) as Hh
    by apply Forall_nil_2.
  split; [exact Hh|].
  destruct (stabilized_output_range Recognizer.init [flat_hand] flat_hand Hh)
    as [Hnull|[Hclass _]]; [by left|by right].
Defined.
End StabilizedOutput.

Section Unanimity.
Import Recognizer.







End Unanimity.

(** ** The activation gate *)

Section Gate.
Import Recognizer.

(** X8.  After [activate_gesture] for a class at time [t], the gate
    refuses that class at every time up to and including
    [t + cooldown_time] and admits it (unless it is the null gesture) at
    every later time; the gates of all other classes and the window are
    as before.  A class that was never activated counts as activated at
    time 0. *)
Theorem activation_gate_cooldown (self : GestureRecognizer) (t : R)
  (gesture : GestureType) :
  let self' := activate_gesture self t gesture in
  (∀ now, now - t <= cooldown_time self →
     can_activate_gesture self' now gesture = false) ∧
  (∀ now, gesture ≠ NONE → now - t > cooldown_time self →
     can_activate_gesture self' now gesture = true) ∧
  (∀ now other, other ≠ gesture →
     can_activate_gesture self' now other
     = can_activate_gesture self now other) ∧
  (∀ now other, last_activation_time self !! other = None →
     can_activate_gesture self now other
     = bool_decide (other ≠ NONE ∧ now > cooldown_time self)) ∧
  gesture_history self' = gesture_history self.
Proof.
  intros self'. repeat split.
  - intros now Hsoon. rewrite can_activate_gesture_spec.
    apply bool_decide_eq_false_2. intros [_ Hgt].
    unfold self', activate_gesture in Hgt. simpl in Hgt.
    rewrite lookup_insert_eq in Hgt. simpl in Hgt. lra.
  - intros now Hg Hlate. rewrite can_activate_gesture_spec.
    apply bool_decide_eq_true_2. split; [done|].
    unfold self', activate_gesture. simpl.
    rewrite lookup_insert_eq. simpl. lra.
  - intros now other Hother. rewrite !can_activate_gesture_spec.
    unfold self', activate_gesture. simpl.
    by rewrite lookup_insert_ne.
  - intros now other Hnever. rewrite can_activate_gesture_spec, Hnever.
    simpl. apply bool_decide_ext. split; intros [? ?]; split; (done || lra).
Qed.
End Gate.

(** ** The controller: what its methods call *)

Section MethodCalls.
Import Controller.

Lemma extends_refl (P : Os.Call → Prop) (w : Os.World) : extends P w w.
Proof. exists []. by rewrite app_nil_r. Qed.

Lemma extends_trans (P : Os.Call → Prop) (w1 w2 w3 : Os.World) :
  extends P w1 w2 → extends P w2 w3 → extends P w1 w3.
Proof.
  intros (e1 & H1 & F1 & N1) (e2 & H2 & F2 & N2). exists (e1 ++ e2).
  split; [by rewrite H2, H1, app_assoc|].
  split; [by apply Forall_app|]. auto.
Qed.

Lemma extends_impl (P Q : Os.Call → Prop) (w w' : Os.World) :
  (∀ c, P c → Q c) → extends P w w' → extends Q w w'.
Proof.
  intros HPQ (e & H & F & N). exists e. split; [done|]. split; [|done].
  by eapply Forall_impl.
Qed.

Lemma only_attempt (P : Os.Call → Prop) : only P Os.attempt.
Proof.
  intros [c p l s]. unfold Os.attempt. simpl.
  destruct s as [|raises rest]; [apply extends_refl|].
  exists []. simpl. rewrite app_nil_r. split; [done|]. split; [done|].
  unfold never_raises. simpl. by intros [_ H]%Forall_cons.
Qed.

Lemma only_ret {A} (P : Os.Call → Prop) (a : A) : only P (Os.ret a).
Proof. intros w. apply extends_refl. Qed.

Lemma only_bind {A B} (P : Os.Call → Prop) (m : Os.M A) (k : A → Os.M B) :
  only P m → (∀ a, only P (k a)) → only P (Os.bind m k).
Proof.
  intros Hm Hk w. unfold Os.bind. specialize (Hm w).
  destruct (m w) as [[a|] w1]; [|done].
  eapply extends_trans; [exact Hm|]. apply Hk.
Qed.

Lemma only_effect (P : Os.Call → Prop) (c : Os.Call) :
  P c → only P (Os.effect c).
Proof.
  intros Hc w. exists [c]. simpl. split; [done|].
  split; [by apply Forall_singleton|done].
Qed.

Lemma only_call (P : Os.Call → Prop) (c : Os.Call) :
  P c → only P (Os.call c).
Proof.
  intros Hc. apply only_bind; [apply only_attempt|].
  intros _. by apply only_effect.
Qed.

Lemma only_position (P : Os.Call → Prop) : only P Os.position.
Proof.
  apply only_bind; [apply only_attempt|]. intros _ w. apply extends_refl.
Qed.

Lemma only_time (P : Os.Call → Prop) : only P Os.time.
Proof. intros w. apply extends_refl. Qed.

Lemma only_sleep (P : Os.Call → Prop) (seconds : R) :
  only P (Os.sleep seconds).
Proof. intros w. exists []. simpl. by rewrite app_nil_r. Qed.

Lemma try_except_extends (P : Os.Call → Prop) (self : ActionController)
  (body : Os.M ActionController) (w : Os.World) :
  only P body → extends P w (try_except self body w).2.
Proof.
  intros Hbody. unfold try_except. specialize (Hbody w).
  by destruct (body w) as [[s|] w1].
Qed.

Lemma gated_action_extends (P : Os.Call → Prop) (self : ActionController)
  (a : ActionType) (calls : Os.M unit) (w : Os.World) :
  only P calls → extends P w (gated_action self a calls w).2.
Proof.
  intros Hcalls. unfold gated_action.
  destruct (can_execute_action self w a); [|apply extends_refl].
  simpl negb. cbv iota. apply try_except_extends.
  apply only_bind; [done|]. intros _.
  apply only_bind; [apply only_time|]. intros now. apply only_ret.
Qed.

Lemma move_mouse_extends (self : ActionController) (x y : R)
  (w : Os.World) :
  extends (λ c, c = Os.MoveTo (emitted self x y).1 (emitted self x y).2)
          w (move_mouse self x y w).2.
Proof.
  unfold move_mouse. destruct (emergency_stop self); [apply extends_refl|].
  apply try_except_extends. unfold emitted.
  destruct (last_mouse_position self) as [[px py]|];
    (apply only_bind; [by apply only_call|intros _; apply only_ret]).
Qed.

Lemma start_drag_extends (self : ActionController) (w : Os.World) :
  extends (λ c, c = Os.MouseDown) w (start_drag self w).2.
Proof.
  unfold start_drag. destruct (is_dragging self); [apply extends_refl|].
  apply try_except_extends.
  apply only_bind; [apply only_position|]. intros p.
  apply only_bind; [by apply only_call|]. intros _. apply only_ret.
Qed.

Lemma end_drag_extends (self : ActionController) (w : Os.World) :
  extends (λ c, c = Os.MouseUp) w (end_drag self w).2.
Proof.
  unfold end_drag. destruct (is_dragging self); [|apply extends_refl].
  simpl negb. cbv iota. apply try_except_extends.
  apply only_bind; [by apply only_call|]. intros _.
  apply only_bind; [apply only_position|]. intros p. apply only_ret.
Qed.

Lemma reset_extends (self : ActionController) (w : Os.World) :
  extends (λ c, c = Os.MouseUp) w (reset self w).2.
Proof.
  unfold reset. destruct (is_dragging self); [|apply extends_refl].
  pose proof (end_drag_extends self w) as H.
  by destruct (end_drag self w) as [[r s] w1].
Qed.

Lemma call_method_extends (m : Method) (self : ActionController)
  (w : Os.World) :
  extends (may_call m) w (call_method m self w).2.
Proof.
  destruct m; cbn [call_method may_call snd];
    try apply extends_refl.
  - eapply extends_impl; [|apply move_mouse_extends].
    intros c ->. simpl. eauto.
  - apply gated_action_extends. by apply only_call.
  - apply gated_action_extends. by apply only_call.
  - apply gated_action_extends. by apply only_call.
  - apply start_drag_extends.
  - apply end_drag_extends.
  - apply gated_action_extends.
    apply only_bind; [apply only_call; by left|]. intros _.
    apply only_bind; [apply only_sleep|]. intros _.
    apply only_call. by right.
  - apply gated_action_extends.
    apply only_bind; [apply only_call; by left|]. intros _.
    apply only_bind; [apply only_sleep|]. intros _.
    apply only_call. by right.
  - apply gated_action_extends. by apply only_call.
  - apply gated_action_extends. destruct up; by apply only_call.
  - apply reset_extends.
Qed.

(** X9.  A method of the controller only appends to the log of performed
    pyautogui calls, and only calls of its own kind: [move_mouse] pointer
    movements, the clicks their click, [scroll] a scroll of the requested
    amount, [start_drag] a button press, [end_drag] and [reset] a button
    release, the window commands their key strokes, [adjust_volume] the
    volume key of its direction, and the setters nothing.  This holds
    whichever calls raise. *)
Theorem methods_call_their_own (m : Method) (self : ActionController)
  (w : Os.World) :
  ∃ extra,
    Os.performed (call_method m self w).2 = Os.performed w ++ extra ∧
    Forall (may_call m) extra.
Proof.
  destruct (call_method_extends m self w) as (extra & H & F & _).
  by exists extra.
Qed.
End MethodCalls.

(** ** The controller: cooldowns *)

Section Cooldowns.
Import Controller.

Lemma gated_action_success (self self' : ActionController) (a : ActionType)
  (calls : Os.M unit) (w w' : Os.World) :
  gated_action self a calls w = (true, self', w') →
  can_execute_action self w a = true ∧
  self' = set_last_action_time
            (<[a := Os.clock w']> (last_action_time self)) self.
Proof.
  unfold gated_action. destruct (can_execute_action self w a); [|done].
  simpl negb. cbv iota. unfold try_except, Os.bind.
  destruct (calls w) as [[[]|] w1]; [|done].
  unfold Os.time, Os.ret. by intros [= <- <-].
Qed.

Lemma call_method_gated (m : Method) (a : ActionType) :
  gate_of m = Some a →
  ∃ calls, ∀ self w,
    call_method m self w
    = (Some (gated_action self a calls w).1.1,
       (gated_action self a calls w).1.2, (gated_action self a calls w).2).
Proof.
  destruct m; intros [= <-]; cbn [call_method];
    eexists; intros self w; reflexivity.
Qed.

Lemma init_cooldowns (width height : Z) (a : ActionType) :
  default 0 (action_cooldowns (init width height) !! a)
  = match a with
    | LEFT_CLICK | RIGHT_CLICK | VOLUME_UP | VOLUME_DOWN => 1 / 10
    | SCROLL => 5 / 100
    | MINIMIZE_WINDOW | MAXIMIZE_WINDOW | CLOSE_WINDOW => 1
    | MOVE_MOUSE | DRAG_START | DRAG_END => 0
    end.
Proof.
  cbn [init action_cooldowns].
  destruct a;
    repeat first [ rewrite lookup_insert_eq | rewrite lookup_insert_ne by done
                 | rewrite lookup_empty ];
    reflexivity.
Qed.

Lemma can_execute_action_after (self : ActionController) (a b : ActionType)
  (t : R) (w : Os.World) :
  can_execute_action
    (set_last_action_time (<[a := t]> (last_action_time self)) self) w b
  = if decide (a = b)
    then negb (emergency_stop self)
         && bool_decide (Os.clock w - t
                         > default 0 (action_cooldowns self !! a))
    else can_execute_action self w b.
Proof.
  unfold can_execute_action. cbn [emergency_stop set_last_action_time
    last_action_time action_cooldowns].
  destruct (decide (a = b)) as [<-|Hne].
  - rewrite lookup_insert_eq. by destruct (emergency_stop self).
  - by rewrite lookup_insert_ne.
Qed.

(** X10.  After a gated method of the controller (a click, a scroll, a
    window command, a volume key) has succeeded, the same method is
    refused, with no effect at all, in every world whose clock is at most
    the action's cooldown past the time stamp taken at the end of the
    successful call; after that it is open again.  The gates of the other
    action types are untouched.  The cooldowns of a new controller are
    0.1 s for clicks and volume, 0.05 s for scroll and 1 s for the window
    commands. *)
Theorem gated_method_cooldown (m : Method) (a : ActionType)
  (self self' : ActionController) (w w' : Os.World) :
  gate_of m = Some a →
  call_method m self w = (Some true, self', w') →
  let cooldown := default 0 (action_cooldowns self !! a) in
  last_action_time self' !! a = Some (Os.clock w') ∧
  action_cooldowns self' = action_cooldowns self ∧
  (∀ w2, Os.clock w2 - Os.clock w' <= cooldown →
     call_method m self' w2 = (Some false, self', w2)) ∧
  (∀ w2, can_execute_action self' w2 a
         = bool_decide (Os.clock w2 - Os.clock w' > cooldown)) ∧
  (∀ w2 b, b ≠ a →
     can_execute_action self' w2 b = can_execute_action self w2 b) ∧
  (∀ width height,
     default 0 (action_cooldowns (init width height) !! a)
     = match a with
       | LEFT_CLICK | RIGHT_CLICK | VOLUME_UP | VOLUME_DOWN => 1 / 10
       | SCROLL => 5 / 100
       | _ => 1
       end).
Proof.
  intros Hgate Hcall cooldown.
  destruct (call_method_gated m a Hgate) as [calls Hm].
  rewrite Hm in Hcall.
  destruct (gated_action self a calls w) as [[r s] w1] eqn:Hact.
  simpl in Hcall. simplify_eq.
  apply gated_action_success in Hact as [Hcan ->].
  assert (emergency_stop self = false) as Hgo.
  { unfold can_execute_action in Hcan. by destruct (emergency_stop self). }
  split; [cbn [last_action_time set_last_action_time];
          by rewrite lookup_insert_eq|].
  split; [done|].
  assert (∀ w2, can_execute_action
                  (set_last_action_time
                     (<[a := Os.clock w']> (last_action_time self)) self)
                  w2 a
                = bool_decide (Os.clock w2 - Os.clock w' > cooldown)) as Hsame.
  { intros w2. rewrite can_execute_action_after, decide_True by done.
    by rewrite Hgo. }
  split; [|split; [done|split]].
  - intros w2 Hsoon. rewrite Hm.
    rewrite gated_action_blocked; [done|].
    rewrite Hsame. apply bool_decide_eq_false_2. lra.
  - intros w2 b Hb. rewrite can_execute_action_after.
    by rewrite decide_False.
  - intros width height. rewrite init_cooldowns.
    destruct m; cbn [gate_of] in Hgate; simplify_eq; try done.
    by destruct up.
Qed.

Lemma can_execute_action_at_start (a : ActionType) :
  can_execute_action (init 1920 1080) calm_world a = true.
Proof.
  unfold can_execute_action. cbn [emergency_stop init].
  apply bool_decide_eq_true_2.
  pose proof (init_cooldowns 1920 1080 a) as Hc.
  cbn [init action_cooldowns last_action_time] in *.
  rewrite Hc, lookup_empty. cbn [calm_world Os.clock default from_option
    Datatypes.id]. destruct a; lra.
Qed.

Lemma gated_method_cooldown_witness :
  gate_of LeftClick = Some LEFT_CLICK ∧
  ∃ self' w',
    call_method LeftClick (init 1920 1080) calm_world
    = (Some true, self', w') ∧
    last_action_time self' !! LEFT_CLICK = Some (Os.clock w').
Proof.
  split; [reflexivity|].
  destruct (call_method LeftClick (init 1920 1080) calm_world)
    as [[r self'] w'] eqn:Hcall.
  assert (r = Some true) as ->.
  { cbn [call_method] in Hcall. unfold left_click, gated_action in Hcall.
    rewrite can_execute_action_at_start in Hcall.
    cbn in Hcall. by simplify_eq. }
  exists self', w'. split; [reflexivity|].
  apply (gated_method_cooldown LeftClick LEFT_CLICK (init 1920 1080) self'
           calm_world w' eq_refl Hcall).
Defined.
End Cooldowns.

(** ** The controller: which fields a method changes *)

Section MethodFrame.
Import Controller.

Lemma try_except_cases (self : ActionController)
  (body : Os.M ActionController) (w : Os.World) :
  (try_except self body w).1.2 = self ∨
  ∃ w1, body w = (Some (try_except self body w).1.2, w1).
Proof.
  unfold try_except. destruct (body w) as [[s|] w1]; [right|left]; eauto.
Qed.

Lemma gated_action_cases (self : ActionController) (a : ActionType)
  (calls : Os.M unit) (w : Os.World) :
  (gated_action self a calls w).1.2 = self ∨
  ∃ t, (gated_action self a calls w).1.2
       = set_last_action_time (<[a := t]> (last_action_time self)) self.
Proof.
  unfold gated_action. destruct (can_execute_action self w a); [|by left].
  simpl negb. cbv iota. unfold try_except, Os.bind.
  destruct (calls w) as [[[]|] w1]; [|by left].
  right. by eexists.
Qed.

Lemma move_mouse_cases (self : ActionController) (x y : R) (w : Os.World) :
  (move_mouse self x y w).1.2 = self ∨
  (move_mouse self x y w).1.2
  = set_last_mouse_position (Some (emitted self x y)) self.
Proof.
  unfold move_mouse, emitted. destruct (emergency_stop self); [by left|].
  unfold try_except, Os.bind.
  destruct (last_mouse_position self) as [[px py]|];
    match goal with |- context [Os.call ?c w] =>
      destruct (Os.call c w) as [[[]|] w1] end; auto.
Qed.

Lemma start_drag_cases (self : ActionController) (w : Os.World) :
  (start_drag self w).1.2 = self ∨
  (is_dragging self = false ∧
   ∃ p, (start_drag self w).1.2 = set_drag true (Some p) self).
Proof.
  unfold start_drag. destruct (is_dragging self); [by left|].
  unfold try_except, Os.bind.
  destruct (Os.position w) as [[p|] w1]; [|by left].
  destruct (Os.call Os.MouseDown w1) as [[[]|] w2]; [|by left].
  right. split; [done|]. by exists p.
Qed.

Lemma end_drag_cases (self : ActionController) (w : Os.World) :
  (end_drag self w).1.2 = self ∨
  (end_drag self w).1.2 = set_drag false None self.
Proof.
  unfold end_drag. destruct (is_dragging self); [|by left].
  simpl negb. cbv iota. unfold try_except, Os.bind.
  destruct (Os.call Os.MouseUp w) as [[[]|] w1]; [|by left].
  destruct (Os.position w1) as [[p|] w2]; [by right|by left].
Qed.

Lemma reset_cases (self : ActionController) (w : Os.World) :
  ∃ s, (s = self ∨ s = set_drag false None self) ∧
       (reset self w).1
       = set_emergency_stop false
           (set_last_mouse_position None (set_last_action_time ∅ s)).
Proof.
  unfold reset. destruct (is_dragging self).
  - destruct (end_drag_cases self w) as [H|H];
      destruct (end_drag self w) as [[r s] w1]; simpl in H; subst s.
    + exists self. split; [by left|done].
    + exists (set_drag false None self). split; [by right|done].
  - exists self. split; [by left|done].
Qed.

Lemma call_method_frame (m : Method) (self : ActionController)
  (w : Os.World) :
  let self' := (call_method m self w).1.2 in
  screen_width self' = screen_width self ∧
  screen_height self' = screen_height self ∧
  action_cooldowns self' = action_cooldowns self ∧
  (mouse_smoothing self' = mouse_smoothing self ∨
   ∃ s, m = SetMouseSmoothing s ∧
        mouse_smoothing self' = py_max 0 (py_min 1 s)) ∧
  (last_mouse_position self' = last_mouse_position self ∨
   (∃ x y, m = MoveMouse x y ∧
           last_mouse_position self' = Some (emitted self x y)) ∨
   (m = Reset ∧ last_mouse_position self' = None)) ∧
  ((is_dragging self' = is_dragging self ∧
    drag_start_position self' = drag_start_position self) ∨
   (m = StartDrag ∧ is_dragging self = false ∧ is_dragging self' = true ∧
    ∃ p, drag_start_position self' = Some p) ∨
   ((m = EndDrag ∨ m = Reset) ∧ is_dragging self' = false ∧
    drag_start_position self' = None)) ∧
  (emergency_stop self' = emergency_stop self ∨
   (m = EnableEmergencyStop ∧ emergency_stop self' = true) ∨
   ((m = DisableEmergencyStop ∨ m = Reset) ∧ emergency_stop self' = false)) ∧
  (last_action_time self' = last_action_time self ∨
   (∃ a t, gate_of m = Some a ∧
           last_action_time self' = <[a := t]> (last_action_time self)) ∨
   (m = Reset ∧ last_action_time self' = ∅)).
Proof.
  destruct m; cbn [call_method fst snd].
  - destruct (move_mouse_cases self normalized_x normalized_y w) as [->| ->];
      cbn; repeat split; eauto 8.
  - destruct (gated_action_cases self LEFT_CLICK (Os.call Os.Click) w)
      as [H|[t H]]; unfold left_click; rewrite H; cbn;
      repeat split; eauto 8.
  - destruct (gated_action_cases self RIGHT_CLICK (Os.call Os.RightClick) w)
      as [H|[t H]]; unfold right_click; rewrite H; cbn;
      repeat split; eauto 8.
  - destruct (gated_action_cases self SCROLL (Os.call (Os.Scroll amount)) w)
      as [H|[t H]]; unfold scroll; rewrite H; cbn;
      repeat split; eauto 8.
  - destruct (start_drag_cases self w) as [->|[Hidle [p ->]]];
      cbn; repeat split; eauto 8.
  - destruct (end_drag_cases self w) as [->| ->];
      cbn; repeat split; eauto 8.
  - unfold minimize_window.
    match goal with |- context [gated_action self ?a ?c w] =>
      destruct (gated_action_cases self a c w) as [H|[t H]] end;
      rewrite H; cbn; repeat split; eauto 8.
  - unfold maximize_window.
    match goal with |- context [gated_action self ?a ?c w] =>
      destruct (gated_action_cases self a c w) as [H|[t H]] end;
      rewrite H; cbn; repeat split; eauto 8.
  - unfold close_window.
    match goal with |- context [gated_action self ?a ?c w] =>
      destruct (gated_action_cases self a c w) as [H|[t H]] end;
      rewrite H; cbn; repeat split; eauto 8.
  - unfold adjust_volume.
    match goal with |- context [gated_action self ?a ?c w] =>
      destruct (gated_action_cases self a c w) as [H|[t H]] end;
      rewrite H; cbn; repeat split; eauto 8.
  - cbn. repeat split; eauto 8.
  - cbn. repeat split; eauto 8.
  - cbn. repeat split; eauto 8.
  - destruct (reset_cases self w) as (s & [->| ->] & ->);
      cbn; repeat split; eauto 8.
Qed.

(** X11.  A method of the controller changes only the fields that are its
    own: none changes the screen size or the cooldown table; only
    [set_mouse_smoothing] changes the smoothing factor, and it stores its
    argument clamped to [0, 1]; only [move_mouse] and [reset] change the
    last pointer position; only [start_drag], [end_drag] and [reset]
    change the drag state; only the emergency-stop switches and [reset]
    change the emergency-stop flag; and the table of last action times
    gains at most the entry of a gated method or is emptied by [reset]. *)
Theorem method_footprint (m : Method) (self : ActionController)
  (w : Os.World) :
  let self' := (call_method m self w).1.2 in
  screen_width self' = screen_width self ∧
  screen_height self' = screen_height self ∧
  action_cooldowns self' = action_cooldowns self ∧
  (mouse_smoothing self' = mouse_smoothing self ∨
   ∃ s, m = SetMouseSmoothing s ∧
        mouse_smoothing self' = py_max 0 (py_min 1 s)) ∧
  (last_mouse_position self' = last_mouse_position self ∨
   (∃ x y, m = MoveMouse x y ∧
           last_mouse_position self' = Some (emitted self x y)) ∨
   (m = Reset ∧ last_mouse_position self' = None)) ∧
  ((is_dragging self' = is_dragging self ∧
    drag_start_position self' = drag_start_position self) ∨
   (m = StartDrag ∧ is_dragging self = false ∧ is_dragging self' = true ∧
    ∃ p, drag_start_position self' = Some p) ∨
   ((m = EndDrag ∨ m = Reset) ∧ is_dragging self' = false ∧
    drag_start_position self' = None)) ∧
  (emergency_stop self' = emergency_stop self ∨
   (m = EnableEmergencyStop ∧ emergency_stop self' = true) ∨
   ((m = DisableEmergencyStop ∨ m = Reset) ∧ emergency_stop self' = false)) ∧
  (last_action_time self' = last_action_time self ∨
   (∃ a t, gate_of m = Some a ∧
           last_action_time self' = <[a := t]> (last_action_time self)) ∨
   (m = Reset ∧ last_action_time self' = ∅)).
Proof. apply call_method_frame. Qed.
End MethodFrame.

(** ** The controller: invariants *)

Section ControllerInvariants.
Import Controller.

Lemma smooth_between (self : ActionController) (prev target : Z) :
  0 <= mouse_smoothing self <= 1 → (0 ≤ prev)%Z → (0 ≤ target)%Z →
  (prev `min` target ≤ smooth self prev target ≤ prev `max` target)%Z.
Proof.
  intros Ha Hp Ht. unfold smooth, py_int.
  set (v := IZR prev + IZR (target - prev) * (1 - mouse_smoothing self)).
  assert (IZR (prev `min` target) <= v <= IZR (prev `max` target))
    as [Hlo Hhi].
  { unfold v. rewrite minus_IZR.
    destruct (Z_le_gt_dec prev target) as [Hle|Hgt].
    - rewrite Z.min_l, Z.max_r by lia. apply IZR_le in Hle. nra.
    - rewrite Z.min_r, Z.max_l by lia.
      assert (IZR target <= IZR prev) by (apply IZR_le; lia). nra. }
  assert (0 <= v).
  { assert (0 <= IZR (prev `min` target)) by (apply IZR_le; lia). lra. }
  rewrite bool_decide_eq_true_2 by done. split.
  - by apply Zfloor_lub.
  - apply le_IZR. pose proof (Zfloor_bound v). lra.
Qed.

Lemma emitted_on_screen (self : ActionController) (x y : R) :
  on_screen self →
  (0 ≤ (emitted self x y).1 ≤ screen_width self - 1)%Z ∧
  (0 ≤ (emitted self x y).2 ≤ screen_height self - 1)%Z.
Proof.
  intros (Hw & Hh & Ha & Hlast). unfold emitted.
  pose proof (target_pixel_in_bounds (screen_width self) x Hw).
  pose proof (target_pixel_in_bounds (screen_height self) y Hh).
  destruct (last_mouse_position self) as [[px py]|]; [|done].
  destruct Hlast as [Hx Hy]. cbn [fst snd].
  pose proof (smooth_between self px
                (target_pixel (screen_width self) x) Ha).
  pose proof (smooth_between self py
                (target_pixel (screen_height self) y) Ha).
  lia.
Qed.

Lemma call_method_on_screen (m : Method) (self : ActionController)
  (w : Os.World) :
  on_screen self → on_screen (call_method m self w).1.2.
Proof.
  intros Hon. pose proof Hon as (Hw & Hh & Ha & Hlast).
  destruct (call_method_frame m self w)
    as (Ew & Eh & _ & Esm & Epos & _).
  unfold on_screen. rewrite Ew, Eh.
  split; [done|]. split; [done|]. split.
  - destruct Esm as [->|(s & _ & ->)]; [done|]. apply py_clamp_range.
  - destruct Epos as [->|[(x & y & _ & ->)|[_ ->]]]; [done| |done].
    pose proof (emitted_on_screen self x y Hon).
    by destruct (emitted self x y).
Qed.

Lemma call_method_moves_on_screen (m : Method) (self : ActionController)
  (w : Os.World) :
  on_screen self →
  extends (move_on_screen self) w (call_method m self w).2.
Proof.
  intros Hon.
  destruct m;
    try (eapply extends_impl; [|apply call_method_extends];
         cbn [may_call]; intros c Hc;
         try destruct Hc as [Hc|Hc]; by subst c).
  - cbn [call_method snd].
    eapply extends_impl; [|apply move_mouse_extends].
    intros c ->. by apply emitted_on_screen.
  - eapply extends_impl; [|apply call_method_extends]. by intros c [].
  - eapply extends_impl; [|apply call_method_extends]. by intros c [].
  - eapply extends_impl; [|apply call_method_extends]. by intros c [].
Qed.

(** X12.  A controller built for a screen of positive size keeps, through
    every method and whichever calls raise, its smoothing factor in [0, 1]
    and its stored pointer position inside the screen, and every pointer
    movement it performs has its target inside the screen. *)
Theorem pointer_stays_on_screen (m : Method) (self : ActionController)
  (w : Os.World) :
  on_screen self →
  on_screen (call_method m self w).1.2 ∧
  (∃ extra,
     Os.performed (call_method m self w).2 = Os.performed w ++ extra ∧
     Forall (move_on_screen self) extra) ∧
  (∀ width height, (0 < width)%Z → (0 < height)%Z →
     on_screen (init width height)).
Proof.
  intros Hon. split; [by apply call_method_on_screen|]. split.
  - destruct (call_method_moves_on_screen m self w Hon) as (e & H & F & _).
    by exists e.
  - intros width height Hw Hh. unfold on_screen. cbn.
    repeat split; (done || lra).
Qed.

Lemma pointer_stays_on_screen_witness :
  on_screen near_centre ∧
  on_screen (call_method (MoveMouse 2 (-1)) near_centre calm_world).1.2.
Proof.
  assert (on_screen near_centre) as Hon.
  { unfold on_screen. cbn. repeat split; (lia || lra). }
  split; [exact Hon|].
  apply (pointer_stays_on_screen (MoveMouse 2 (-1)) near_centre calm_world
           Hon).
Defined.

(** X13.  Through every method, and whichever calls raise, the controller
    is dragging exactly when a drag start position is recorded; a new
    controller is not dragging and has none. *)
Theorem drag_state_consistent (m : Method) (self : ActionController)
  (w : Os.World) :
  drag_consistent self →
  drag_consistent (call_method m self w).1.2 ∧
  (∀ width height, drag_consistent (init width height)).
Proof.
  intros Hc. split.
  - destruct (call_method_frame m self w)
      as (_ & _ & _ & _ & _ & Edrag & _).
    unfold drag_consistent in *.
    destruct Edrag as [[-> ->]|[(_ & _ & -> & p & ->)|(_ & -> & ->)]];
      [done| |]; split; done.
  - intros width height. unfold drag_consistent. cbn. split; done.
Qed.

Lemma drag_state_consistent_witness :
  drag_consistent (init 1920 1080) ∧
  drag_consistent (call_method StartDrag (init 1920 1080) calm_world).1.2.
Proof.
  assert (drag_consistent (init 1920 1080)) as Hc.
  { unfold drag_consistent. cbn. split; done. }
  split; [exact Hc|].
  apply (drag_state_consistent StartDrag (init 1920 1080) calm_world Hc).
Defined.
End ControllerInvariants.

(** ** The controller: the mouse button *)

Section MouseButton.
Import Controller.

Lemma count_call_app (c : Os.Call) (log extra : list Os.Call) :
  count_call c (log ++ extra)
  = (count_call c log + count_call c extra)%nat.
Proof. unfold count_call. by rewrite filter_app, length_app. Qed.

Lemma count_call_none (c : Os.Call) (extra : list Os.Call) :
  Forall (λ x, x ≠ c) extra → count_call c extra = 0%nat.
Proof.
  unfold count_call. induction 1 as [|x extra Hx _ IH]; [done|].
  by rewrite filter_cons_False.
Qed.

Lemma count_call_same (c : Os.Call) : count_call c [c] = 1%nat.
Proof. unfold count_call. by rewrite filter_cons_True. Qed.

Lemma count_call_other (c x : Os.Call) : x ≠ c → count_call c [x] = 0%nat.
Proof. intros Hx. unfold count_call. by rewrite filter_cons_False. Qed.

Lemma no_button_call (m : Method) (c : Os.Call) :
  m ≠ StartDrag → m ≠ EndDrag → m ≠ Reset → may_call m c →
  c ≠ Os.MouseDown ∧ c ≠ Os.MouseUp.
Proof.
  intros H1 H2 H3. destruct m; cbn [may_call]; try done;
    try (intros ->; done);
    try (by intros (x & y & ->));
    try (by intros [->| ->]).
  all: by destruct up; intros ->.
Qed.

Lemma call_method_buttons (m : Method) (self : ActionController)
  (w : Os.World) :
  never_raises w → button_balance self w →
  button_balance (call_method m self w).1.2 (call_method m self w).2.
Proof.
  intros Hw Hbal. unfold button_balance in *.
  pose proof (never_raises_quiet 2 w Hw) as Hq.
  assert (m = StartDrag ∨ m = EndDrag ∨ m = Reset ∨
          (m ≠ StartDrag ∧ m ≠ EndDrag ∧ m ≠ Reset))
    as [->|[->|[->|(Hs & He & Hr)]]]
    by (destruct m; auto 10).
  { cbn [call_method fst snd]. destruct (is_dragging self) eqn:Hdrag.
    - rewrite start_drag_dragging by done. cbn [fst snd].
      by rewrite Hdrag.
    - destruct (start_drag_quiet 0 self w Hdrag Hq) as (w' & -> & _ & Hl).
      cbn [fst snd is_dragging set_drag].
      rewrite Hl, !count_call_app, Hbal.
      rewrite ?count_call_same, ?count_call_other by done. lia. }
  { cbn [call_method fst snd]. destruct (is_dragging self) eqn:Hdrag.
    - destruct (end_drag_quiet 0 self w Hdrag Hq) as (w' & -> & _ & Hl).
      cbn [fst snd is_dragging set_drag].
      rewrite Hl, !count_call_app, Hbal.
      rewrite ?count_call_same, ?count_call_other by done. lia.
    - rewrite end_drag_idle by done. cbn [fst snd]. by rewrite Hdrag. }
  { cbn [call_method fst snd]. unfold reset.
    destruct (is_dragging self) eqn:Hdrag.
    - destruct (end_drag_quiet 0 self w Hdrag Hq) as (w' & -> & _ & Hl).
      cbn [fst snd is_dragging set_drag set_last_action_time
           set_last_mouse_position set_emergency_stop].
      rewrite Hl, !count_call_app, Hbal.
      rewrite ?count_call_same, ?count_call_other by done. lia.
    - cbn [fst snd is_dragging set_drag set_last_action_time
           set_last_mouse_position set_emergency_stop].
      by rewrite Hdrag. }
  destruct (call_method_frame m self w)
    as (_ & _ & _ & _ & _ & Edrag & _).
  destruct Edrag as [[-> _]|[(? & _)|([?|?] & _)]]; try done.
  destruct (call_method_extends m self w) as (extra & -> & Hextra & _).
  rewrite !count_call_app.
  rewrite (count_call_none Os.MouseDown extra), (count_call_none Os.MouseUp extra).
  - lia.
  - eapply Forall_impl; [exact Hextra|]. intros c Hc.
    by apply (no_button_call m c).
  - eapply Forall_impl; [exact Hextra|]. intros c Hc.
    by apply (no_button_call m c).
Qed.

(** X14.  As long as no pyautogui call raises, the button presses and
    releases that the controller performs pair up through every method:
    the log holds as many presses as releases, plus one exactly while the
    controller is dragging. *)
Theorem buttons_pair_up (m : Method) (self : ActionController)
  (w : Os.World) :
  never_raises w → button_balance self w →
  button_balance (call_method m self w).1.2 (call_method m self w).2 ∧
  never_raises (call_method m self w).2.
Proof.
  intros Hw Hbal. split; [by apply call_method_buttons|].
  destruct (call_method_extends m self w) as (_ & _ & _ & Hn). auto.
Qed.

Lemma buttons_pair_up_witness :
  never_raises calm_world ∧
  button_balance (init 1920 1080) calm_world ∧
  button_balance (call_method StartDrag (init 1920 1080) calm_world).1.2
                 (call_method StartDrag (init 1920 1080) calm_world).2.
Proof.
  assert (never_raises calm_world) as Hw by apply Forall_nil_2.
  assert (button_balance (init 1920 1080) calm_world) as Hbal by reflexivity.
  split; [exact Hw|]. split; [exact Hbal|].
  apply (buttons_pair_up StartDrag (init 1920 1080) calm_world Hw Hbal).
Defined.

(** X15.  If, while dragging, [end_drag] releases the button and the
    query of the pointer position that follows raises, the method returns
    failure and the controller is still dragging although the button is
    up; the next [end_drag] whose calls do not raise releases the button a
    second time. *)
Theorem end_drag_release_then_raise (self : ActionController)
  (w : Os.World) (rest : list bool) :
  is_dragging self = true →
  Os.script w = false :: true :: rest →
  ∃ w',
    end_drag self w = (false, self, w') ∧
    Os.performed w' = Os.performed w ++ [Os.MouseUp] ∧
    Os.script w' = rest ∧
    (quiet 2 w' →
     (end_drag self w').1.1 = true ∧
     Os.performed (end_drag self w').2
     = Os.performed w ++ [Os.MouseUp; Os.MouseUp]).
Proof.
  intros Hdrag Hscript. destruct w as [c p l s]. simpl in Hscript. subst s.
  eexists. split; [|split; [|split]].
  - unfold end_drag. rewrite Hdrag. reflexivity.
  - reflexivity.
  - reflexivity.
  - intros Hq.
    destruct (end_drag_quiet 0 self _ Hdrag Hq) as (w2 & -> & _ & Hl).
    split; [done|]. cbn [fst snd]. rewrite Hl. cbn [Os.performed].
    by rewrite <- app_assoc.
Qed.

Lemma end_drag_release_then_raise_witness :
  is_dragging (set_drag true (Some (10, 20)%Z) (init 1920 1080)) = true ∧
  Os.script raising_world = false :: true :: [] ∧
  ∃ w', end_drag (set_drag true (Some (10, 20)%Z) (init 1920 1080))
          raising_world
        = (false, set_drag true (Some (10, 20)%Z) (init 1920 1080), w').
Proof.
  split; [reflexivity|]. split; [reflexivity|].
  destruct (end_drag_release_then_raise
              (set_drag true (Some (10, 20)%Z) (init 1920 1080))
              raising_world [] eq_refl eq_refl) as (w' & Hend & _).
  by exists w'.
Defined.

(** X16.  [start_drag] and [end_drag] never read the emergency-stop flag:
    with the flag set or cleared they return the same value, perform the
    same calls and leave the same controller up to the flag.  In
    particular an idle controller under emergency stop still presses the
    button. *)
Theorem drag_ignores_emergency_stop (self : ActionController)
  (flag : bool) (w : Os.World) :
  start_drag (set_emergency_stop flag self) w
  = ((start_drag self w).1.1,
     set_emergency_stop flag (start_drag self w).1.2,
     (start_drag self w).2) ∧
  end_drag (set_emergency_stop flag self) w
  = ((end_drag self w).1.1,
     set_emergency_stop flag (end_drag self w).1.2,
     (end_drag self w).2) ∧
  (is_dragging self = false → quiet 2 w →
   (start_drag (enable_emergency_stop self) w).1.1 = true ∧
   Os.performed (start_drag (enable_emergency_stop self) w).2
   = Os.performed w ++ [Os.MouseDown]).
Proof.
  split; [|split].
  - unfold start_drag, try_except, Os.bind.
    cbn [is_dragging set_emergency_stop].
    destruct (is_dragging self); [done|].
    destruct (Os.position w) as [[p|] w1]; [|done].
    by destruct (Os.call Os.MouseDown w1) as [[[]|] w2].
  - unfold end_drag, try_except, Os.bind.
    cbn [is_dragging set_emergency_stop].
    destruct (is_dragging self); [|done]. simpl negb. cbv iota.
    destruct (Os.call Os.MouseUp w) as [[[]|] w1]; [|done].
    by destruct (Os.position w1) as [[p|] w2].
  - intros Hidle Hq.
    destruct (start_drag_quiet 0 (enable_emergency_stop self) w Hidle Hq)
      as (w' & -> & _ & Hl).
    done.
Qed.
End MouseButton.

(** ** The pointer filter: extremes of smoothing and the first target *)

Section SmoothingExtremes.
Import Controller.

Lemma smooth_frozen (self : ActionController) (prev target : Z) :
  mouse_smoothing self = 1 → smooth self prev target = prev.
Proof.
  intros Ha. unfold smooth. rewrite Ha.
  replace (IZR prev + IZR (target - prev) * (1 - 1)) with (IZR prev) by lra.
  apply py_int_IZR.
Qed.

Lemma smooth_direct (self : ActionController) (prev target : Z) :
  mouse_smoothing self = 0 → smooth self prev target = target.
Proof.
  intros Ha. unfold smooth. rewrite Ha, minus_IZR.
  replace (IZR prev + (IZR target - IZR prev) * (1 - 0)) with (IZR target)
    by lra.
  apply py_int_IZR.
Qed.

Lemma set_mouse_smoothing_value (self : ActionController) (s : R) :
  mouse_smoothing (set_mouse_smoothing self s)
  = if bool_decide (s <= 0) then 0
    else if bool_decide (1 <= s) then 1 else s.
Proof.
  cbn [mouse_smoothing set_mouse_smoothing]. unfold py_max, py_min.
  repeat case_bool_decide; lra.
Qed.

(** X17.  [set_mouse_smoothing] stores its argument clamped to [0, 1].
    With the factor at 1 (any argument of 1 or more) a controller that has
    a stored position re-emits that position whatever the target, so the
    pointer no longer follows the hand; with the factor at 0 (any argument
    of 0 or less) it emits the clamped target pixel itself. *)
Theorem smoothing_extremes (self : ActionController) (s x y : R)
  (w : Os.World) :
  emergency_stop self = false → never_raises w →
  let self' := set_mouse_smoothing self s in
  0 <= mouse_smoothing self' <= 1 ∧
  (0 <= s <= 1 → mouse_smoothing self' = s) ∧
  (1 <= s → ∀ p, last_mouse_position self = Some p →
     (move_mouse self' x y w).1.1 = true ∧
     last_mouse_position (move_mouse self' x y w).1.2 = Some p) ∧
  (s <= 0 →
     (move_mouse self' x y w).1.1 = true ∧
     last_mouse_position (move_mouse self' x y w).1.2
     = Some (target_pixel (screen_width self) x,
             target_pixel (screen_height self) y)).
Proof.
  intros Hgo Hw self'.
  pose proof (set_mouse_smoothing_value self s) as Hval. fold self' in Hval.
  assert (emergency_stop self' = false) as Hgo' by done.
  destruct (move_mouse_emits self' x y w Hgo' Hw) as (w' & Hmove & _).
  rewrite Hmove. cbn [fst snd last_mouse_position set_last_mouse_position].
  split; [rewrite Hval; repeat case_bool_decide; lra|].
  split; [intros Hs; rewrite Hval; repeat case_bool_decide; lra|].
  split.
  - intros Hs [px py] Hlast. split; [done|].
    assert (mouse_smoothing self' = 1) as Hone
      by (rewrite Hval; repeat case_bool_decide; lra).
    unfold emitted.
    change (last_mouse_position self') with (last_mouse_position self).
    rewrite Hlast. by rewrite !smooth_frozen.
  - intros Hs. split; [done|].
    assert (mouse_smoothing self' = 0) as Hzero
      by (rewrite Hval; repeat case_bool_decide; lra).
    unfold emitted.
    change (last_mouse_position self') with (last_mouse_position self).
    change (screen_width self') with (screen_width self).
    change (screen_height self') with (screen_height self).
    destruct (last_mouse_position self) as [[px py]|]; [|done].
    by rewrite !smooth_direct.
Qed.

Lemma smoothing_extremes_witness :
  emergency_stop near_centre = false ∧ never_raises calm_world ∧
  last_mouse_position
    (move_mouse (set_mouse_smoothing near_centre 2) 0 0 calm_world).1.2
  = Some (959, 539)%Z.
Proof.
  assert (never_raises calm_world) as Hw by apply Forall_nil_2.
  split; [reflexivity|]. split; [exact Hw|].
  destruct (smoothing_extremes near_centre 2 0 0 calm_world eq_refl Hw)
    as (_ & _ & Hfrozen & _).
  apply (Hfrozen ltac:(lra) (959, 539)%Z eq_refl).
Defined.

Lemma target_pixel_cases (size : Z) (x : R) :
  (0 < size)%Z →
  (x <= 0 → target_pixel size x = 0%Z) ∧
  (1 <= x → target_pixel size x = (size - 1)%Z) ∧
  (0 <= x < 1 →
     IZR (target_pixel size x) <= x * IZR size
     < IZR (target_pixel size x) + 1).
Proof.
  intros Hsize. apply IZR_lt in Hsize as Hpos.
  unfold target_pixel, py_int. set (v := x * IZR size).
  split; [|split].
  - intros Hx. assert (v <= 0) by (unfold v; nra).
    case_bool_decide as Hv.
    + assert (v = 0) as -> by lra. rewrite (Zfloor_eq 0 0) by lra.
      unfold py_maxZ, py_minZ. repeat case_bool_decide; lia.
    + pose proof (Zceil_bound v) as Hc.
      assert (Zceil v ≤ 0)%Z.
      { apply Z.lt_succ_r, lt_IZR. rewrite succ_IZR. lra. }
      unfold py_maxZ, py_minZ. repeat case_bool_decide; lia.
  - intros Hx. assert (IZR size <= v) by (unfold v; nra).
    rewrite bool_decide_eq_true_2 by lra.
    pose proof (Zfloor_lub size v ltac:(done)).
    unfold py_maxZ, py_minZ. repeat case_bool_decide; lia.
  - intros [Hx0 Hx1]. assert (0 <= v < IZR size) as [Hv0 Hv1]
      by (unfold v; nra).
    rewrite bool_decide_eq_true_2 by done.
    pose proof (Zfloor_bound v) as Hb.
    pose proof (Zfloor_lub 0 v ltac:(done)).
    assert (Zfloor v < size)%Z by (apply lt_IZR; lra).
    assert (py_maxZ 0 (py_minZ (Zfloor v) (size - 1)) = Zfloor v) as ->
      by (unfold py_maxZ, py_minZ; repeat case_bool_decide; lia).
    exact Hb.
Qed.

(** X18.  The first [move_mouse] of a controller (no stored position,
    emergency stop off, the call not raising, a screen of positive size)
    succeeds, moves the pointer to one pixel and stores it.  Per
    coordinate the pixel is 0 for a normalized value of 0 or less, the
    last pixel for a value of 1 or more, and otherwise the pixel [p] with
    [p <= value * size < p + 1]. *)
Theorem first_move_pixel (self : ActionController) (x y : R)
  (w : Os.World) :
  last_mouse_position self = None → emergency_stop self = false →
  never_raises w →
  (0 < screen_width self)%Z → (0 < screen_height self)%Z →
  ∃ px py w',
    move_mouse self x y w
    = (true, set_last_mouse_position (Some (px, py)) self, w') ∧
    Os.performed w' = Os.performed w ++ [Os.MoveTo px py] ∧
    (x <= 0 → px = 0%Z) ∧ (1 <= x → px = (screen_width self - 1)%Z) ∧
    (0 <= x < 1 → IZR px <= x * IZR (screen_width self) < IZR px + 1) ∧
    (y <= 0 → py = 0%Z) ∧ (1 <= y → py = (screen_height self - 1)%Z) ∧
    (0 <= y < 1 → IZR py <= y * IZR (screen_height self) < IZR py + 1).
Proof.
  intros Hlast Hgo Hw Hwidth Hheight.
  destruct (move_mouse_emits self x y w Hgo Hw) as (w' & Hmove & _ & Hl).
  unfold emitted in Hmove, Hl. rewrite Hlast in Hmove, Hl.
  exists (target_pixel (screen_width self) x),
         (target_pixel (screen_height self) y), w'.
  destruct (target_pixel_cases (screen_width self) x Hwidth)
    as (Hx0 & Hx1 & Hxm).
  destruct (target_pixel_cases (screen_height self) y Hheight)
    as (Hy0 & Hy1 & Hym).
  cbn [fst snd] in Hl. split; [exact Hmove|]. split; [exact Hl|].
  split; [exact Hx0|]. split; [exact Hx1|]. split; [exact Hxm|].
  split; [exact Hy0|]. split; [exact Hy1|exact Hym].
Qed.

Lemma first_move_pixel_witness :
  last_mouse_position (init 1920 1080) = None ∧
  emergency_stop (init 1920 1080) = false ∧
  never_raises calm_world ∧
  (0 < screen_width (init 1920 1080))%Z ∧
  (0 < screen_height (init 1920 1080))%Z ∧
  ∃ px py w',
    move_mouse (init 1920 1080) 2 (-1) calm_world
    = (true, set_last_mouse_position (Some (px, py)) (init 1920 1080), w') ∧
    px = 1919%Z ∧ py = 0%Z.
Proof.
  assert (never_raises calm_world) as Hw by apply Forall_nil_2.
  split; [reflexivity|]. split; [reflexivity|]. split; [exact Hw|].
  split; [reflexivity|]. split; [reflexivity|].
  destruct (first_move_pixel (init 1920 1080) 2 (-1) calm_world
              eq_refl eq_refl Hw eq_refl eq_refl)
    as (px & py & w' & Hmove & _ & _ & Hx & _ & Hy & _).
  exists px, py, w'. split; [exact Hmove|].
  split; [apply Hx; lra | apply Hy; lra].
Defined.
End SmoothingExtremes.

(** ** The dispatcher *)

Section Dispatcher.
Import Recognizer Controller.

Lemma gated_dispatch_cases (self : App.GestureControlApp)
  (gesture : GestureType)
  (action : ActionController → Os.World → Controller.Outcome)
  (name : string) (w : Os.World) :
  (can_activate_gesture (App.gesture_recognizer self) (Os.clock w) gesture
   = false ∧
   App.gated_dispatch self gesture action name w = (false, self, w))
  ∨
  (can_activate_gesture (App.gesture_recognizer self) (Os.clock w) gesture
   = true ∧
   let c := (action (App.action_controller self) w).1.2 in
   let w1 := (action (App.action_controller self) w).2 in
   App.gated_dispatch self gesture action name w
   = (true,
      App.add_recent_action
        (App.count_gesture
           (App.set_recognizer
              (activate_gesture (App.gesture_recognizer self) (Os.clock w1)
                                gesture)
              (App.set_controller c self)))
        (Os.clock w1) name,
      w1)).
Proof.
  unfold App.gated_dispatch.
  destruct (can_activate_gesture _ _ gesture); [right|left; done].
  split; [done|]. by destruct (action _ w) as [[r c] w1].
Qed.

(** A dispatch leaves controller and world alone or passes them through
    one method of the controller, the one that belongs to the gesture. *)
Lemma dispatch_method (self : App.GestureControlApp)
  (gesture : GestureType) (lm : list Landmark) (last_pos : option (R * R))
  (start : option R) (w : Os.World) :
  let out := App.execute_gesture_action self gesture lm last_pos start w in
  (App.action_controller out.1.2 = App.action_controller self ∧ out.2 = w)
  ∨ ∃ m, method_for gesture m ∧
         (gesture = TWO_FINGER_SCROLL → start ≠ None) ∧
         App.action_controller out.1.2
         = (call_method m (App.action_controller self) w).1.2 ∧
         out.2 = (call_method m (App.action_controller self) w).2.
Proof.
  assert (∀ action name m,
            (∀ c w0, call_method m c w0
                     = (Some (action c w0).1.1, (action c w0).1.2,
                        (action c w0).2)) →
            method_for gesture m → gesture ≠ TWO_FINGER_SCROLL →
            let out := App.gated_dispatch self gesture action name w in
            (App.action_controller out.1.2 = App.action_controller self
             ∧ out.2 = w)
            ∨ ∃ m, method_for gesture m ∧
                   (gesture = TWO_FINGER_SCROLL → start ≠ None) ∧
                   App.action_controller out.1.2
                   = (call_method m (App.action_controller self) w).1.2 ∧
                   out.2 = (call_method m (App.action_controller self) w).2)
    as Hgated.
  { intros action name m Hm Hfor Hns.
    destruct (gated_dispatch_cases self gesture action name w)
      as [[_ ->]|[_ ->]]; [by left|].
    right. exists m. rewrite Hm. by repeat split. }
  destruct gesture; cbn [App.execute_gesture_action];
    try (left; done).
  - destruct (get_cursor_position lm) as [pos|]; [|by left].
    destruct (App.map_to_screen_coordinates self pos.1 pos.2)
      as [[mx my]|]; [|by left].
    right. exists (MoveMouse mx my). cbn [call_method].
    destruct (move_mouse (App.action_controller self) mx my w)
      as [[r c] w1].
    repeat split; first [reflexivity | done | by intros [=]].
  - by apply (Hgated left_click _ LeftClick).
  - by apply (Hgated right_click _ RightClick).
  - destruct (get_cursor_position lm) as [pos|]; [|by left].
    destruct start as [start_y|]; [|by left].
    case_bool_decide; [|by left].
    right. exists (ScrollBy (py_int (- (pos.2 - start_y) * 150))).
    cbn [call_method].
    match goal with |- context [scroll ?c ?n w] =>
      destruct (scroll c n w) as [[r c'] w1] end.
    repeat split; first [reflexivity | done | by intros [=]].
  - by apply (Hgated minimize_window _ MinimizeWindow).
  - by apply (Hgated maximize_window _ MaximizeWindow).
  - destruct (get_cursor_position lm) as [pos|]; [|by left].
    case_bool_decide.
    + right. exists (AdjustVolume true). cbn [call_method].
      destruct (adjust_volume (App.action_controller self) true w)
        as [[r c] w1].
      repeat split; first [reflexivity | done | by intros [=]].
    + case_bool_decide; [|by left].
      right. exists (AdjustVolume false). cbn [call_method].
      destruct (adjust_volume (App.action_controller self) false w)
        as [[r c] w1].
      repeat split; first [reflexivity | done | by intros [=]].
Qed.

Lemma method_for_calls (gesture : GestureType) (m : Method) (c : Os.Call) :
  method_for gesture m → may_call m c → dispatch_call c.
Proof.
  destruct gesture, m; cbn [method_for may_call dispatch_call]; try done.
  - by intros _ (x & y & ->).
  - by intros _ ->.
  - by intros _ ->.
  - by intros _ ->.
  - by intros _ [->| ->]; cbn; auto.
  - by intros _ [->| ->]; cbn; auto.
  - intros _ ->. destruct up; cbn; auto.
Qed.

(** X19.  The dispatch of a gesture passes controller and world through
    at most one method of the controller, and only [move_mouse], the two
    clicks, [scroll], [minimize_window], [maximize_window] or
    [adjust_volume]: it never starts or ends a drag, never closes a
    window, never resets the controller and never touches emergency stop
    or the smoothing factor.  So the calls it performs are pointer
    movements, clicks, scrolls, Alt+Space with N or X, and volume keys,
    and the drag state and the emergency-stop flag are as before. *)
Theorem dispatch_never_drags (self : App.GestureControlApp)
  (gesture : GestureType) (lm : list Landmark) (last_pos : option (R * R))
  (start : option R) (w : Os.World) :
  let out := App.execute_gesture_action self gesture lm last_pos start w in
  let c := App.action_controller self in
  let c' := App.action_controller out.1.2 in
  ((c' = c ∧ out.2 = w) ∨
   ∃ m, method_for gesture m ∧
        c' = (call_method m c w).1.2 ∧ out.2 = (call_method m c w).2) ∧
  (∃ extra, Os.performed out.2 = Os.performed w ++ extra ∧
            Forall dispatch_call extra) ∧
  is_dragging c' = is_dragging c ∧
  drag_start_position c' = drag_start_position c ∧
  emergency_stop c' = emergency_stop c ∧
  mouse_smoothing c' = mouse_smoothing c.
Proof.
  intros out c c'.
  destruct (dispatch_method self gesture lm last_pos start w)
    as [[Hc Hw]|(m & Hfor & _ & Hc & Hw)]; fold out in Hc, Hw;
    fold c c' in Hc.
  - split; [by left|]. rewrite Hc, Hw. split; [|done].
    exists []. by rewrite app_nil_r.
  - split; [right; by exists m|].
    destruct (call_method_extends m c w) as (extra & Hl & Hextra & _).
    split.
    { exists extra. rewrite Hw. split; [done|].
      eapply Forall_impl; [exact Hextra|].
      intros x. by apply (method_for_calls gesture m). }
    destruct (call_method_frame m c w)
      as (_ & _ & _ & Esm & _ & Edrag & Estop & _).
    rewrite Hc.
    destruct Edrag as [[-> ->]|[(-> & _)|([->| ->] & _)]];
      try (by destruct gesture).
    destruct Estop as [->|[(-> & _)|([->| ->] & _)]];
      try (by destruct gesture).
    destruct Esm as [->|(s & -> & _)]; [done|by destruct gesture].
Qed.
End Dispatcher.

Section GatedDispatch.
Import Recognizer Controller.

Lemma dispatch_of_gated_gesture (self : App.GestureControlApp)
  (gesture : GestureType) (lm : list Landmark) (last_pos : option (R * R))
  (start : option R) (w : Os.World) :
  gated_gesture gesture →
  ∃ action,
    App.execute_gesture_action self gesture lm last_pos start w
    = App.gated_dispatch self gesture action (action_name gesture) w.
Proof.
  intros [->|[->|[->| ->]]]; eexists; reflexivity.
Qed.

Lemma add_recent_action_last (self : App.GestureControlApp) (now : R)
  (name : string) :
  last (App.gesture_history (App.add_recent_action self now name))
  = Some (now, name).
Proof.
  cbn [App.add_recent_action App.gesture_history].
  case_bool_decide as Hlen; [|apply last_snoc].
  destruct (App.gesture_history self) as [|e h]; [simpl in Hlen; lia|].
  cbn [app drop]. apply last_snoc.
Qed.

(** X20.  The dispatch of a pinch, a closed fist or an open palm is
    refused, with no effect on application, controller or world, while
    the gate of the recognizer is closed.  When the gate is open it
    returns success, counts exactly one gesture, appends the action's
    name to the log of recent actions and records the activation at the
    time after the controller call, whether or not the controller
    performed the action; every further dispatch of the same gesture is
    then refused until more than [cooldown_time] has passed. *)
Theorem gated_gesture_dispatch (self : App.GestureControlApp)
  (gesture : GestureType) (lm : list Landmark) (last_pos : option (R * R))
  (start : option R) (w : Os.World) :
  gated_gesture gesture →
  let r := App.gesture_recognizer self in
  let out := App.execute_gesture_action self gesture lm last_pos start w in
  (can_activate_gesture r (Os.clock w) gesture = false →
     out = (false, self, w)) ∧
  (can_activate_gesture r (Os.clock w) gesture = true →
     out.1.1 = true ∧
     App.gesture_count out.1.2 = S (App.gesture_count self) ∧
     last (App.gesture_history out.1.2)
     = Some (Os.clock out.2, action_name gesture) ∧
     last_activation_time (App.gesture_recognizer out.1.2) !! gesture
     = Some (Os.clock out.2) ∧
     cooldown_time (App.gesture_recognizer out.1.2) = cooldown_time r ∧
     ∀ lm2 last2 start2 w2,
       Os.clock w2 - Os.clock out.2 <= cooldown_time r →
       App.execute_gesture_action out.1.2 gesture lm2 last2 start2 w2
       = (false, out.1.2, w2)).
Proof.
  intros Hg r out.
  destruct (dispatch_of_gated_gesture self gesture lm last_pos start w Hg)
    as [action Heq].
  destruct (gated_dispatch_cases self gesture action (action_name gesture) w)
    as [[Hgate Hd]|[Hgate Hd]]; fold r in Hgate; cbv zeta in Hd;
    unfold out; rewrite Heq, Hd, Hgate.
  - split; [done|]. intros [=].
  - split; [intros [=]|]. intros _. cbn [fst snd].
    split; [done|]. split; [done|].
    split; [apply add_recent_action_last|].
    split; [cbn; by rewrite lookup_insert_eq|].
    split; [done|].
    intros lm2 last2 start2 w2 Hsoon.
    match goal with |- App.execute_gesture_action ?app _ _ _ _ _ = _ =>
      destruct (dispatch_of_gated_gesture app gesture lm2 last2 start2 w2 Hg)
        as [action2 ->];
      destruct (gated_dispatch_cases app gesture action2
                  (action_name gesture) w2) as [[_ ->]|[Hopen _]]; [done|]
    end.
    exfalso. rewrite can_activate_gesture_spec in Hopen.
    apply bool_decide_eq_true_1 in Hopen as [_ Hlate].
    cbn in Hlate. rewrite lookup_insert_eq in Hlate. cbn in Hlate.
    fold r in Hlate. lra.
Qed.

Lemma gated_gesture_dispatch_witness :
  gated_gesture THUMB_INDEX_PINCH ∧
  App.gesture_count
    (App.execute_gesture_action (App.init 1920 1080) THUMB_INDEX_PINCH []
       None None calm_world).1.2 = 1%nat.
Proof.
  assert (gated_gesture THUMB_INDEX_PINCH) as Hg by (by left).
  split; [exact Hg|].
  destruct (gated_gesture_dispatch (App.init 1920 1080) THUMB_INDEX_PINCH []
              None None calm_world Hg) as [_ Hopen].
  apply Hopen. rewrite can_activate_gesture_spec.
  apply bool_decide_eq_true_2. split; [done|].
  cbn. rewrite lookup_empty. cbn. lra.
Defined.
End GatedDispatch.

(** ** The processing loop *)

Section ProcessingRounds.
Import Recognizer Controller.

Lemma handle_world_free (self : App.GestureControlApp) (es : list Event) :
  let self' := foldl handle self es in
  App.gesture_recognizer self' = App.gesture_recognizer self ∧
  App.gesture_count self' = App.gesture_count self ∧
  App.gesture_history self' = App.gesture_history self.
Proof.
  revert self. induction es as [|e es IH]; intros self; [done|].
  cbn [foldl]. destruct (IH (handle self e)) as (-> & -> & ->).
  by destruct e.
Qed.

Lemma handle_no_toggle (self : App.GestureControlApp) (es : list Event) :
  ToggleControl ∉ es →
  App.control_enabled (foldl handle self es) = App.control_enabled self.
Proof.
  revert self. induction es as [|e es IH]; intros self Hno; [done|].
  cbn [foldl]. rewrite IH by (intros ?; apply Hno; by right).
  destruct e; try done. exfalso. apply Hno. by left.
Qed.

Lemma method_for_scroll (gesture : GestureType) (m : Method) (amount : Z) :
  method_for gesture m → may_call m (Os.Scroll amount) →
  gesture = TWO_FINGER_SCROLL.
Proof.
  destruct gesture, m; cbn [method_for may_call]; try done.
  - by intros _ (x & y & ?).
  - by intros _ [?|?].
  - by intros _ [?|?].
Qed.

(** A dispatch without recorded scroll origin performs calls of the
    dispatcher other than scrolls. *)
Lemma dispatch_without_origin (self : App.GestureControlApp)
  (gesture : GestureType) (lm : list Landmark) (last_pos : option (R * R))
  (w : Os.World) :
  extends (λ c, dispatch_call c ∧ not_scroll c) w
    (App.execute_gesture_action self gesture lm last_pos None w).2.
Proof.
  destruct (dispatch_method self gesture lm last_pos None w)
    as [[_ ->]|(m & Hfor & Hscroll & _ & ->)]; [apply extends_refl|].
  eapply extends_impl; [|apply call_method_extends].
  intros c Hc. split; [by eapply method_for_calls|].
  destruct c; try done.
  apply Hscroll; [|done]. by eapply method_for_scroll.
Qed.

Lemma process_hand_without_origin (self : App.GestureControlApp)
  (vars : App.LoopVars) (lm : list Landmark) (w : Os.World) :
  App.scroll_start_y vars = None →
  extends (λ c, dispatch_call c ∧ not_scroll c) w
    (App.process_hand self vars lm w).2.
Proof.
  intros Hnone. unfold App.process_hand.
  destruct (recognize_gesture _ lm) as [[gesture_type confidence] r].
  destruct (App.control_enabled _ && bool_decide (gesture_type ≠ NONE));
    [|apply extends_refl].
  rewrite Hnone.
  pose proof (dispatch_without_origin (App.set_recognizer r self)
                gesture_type lm (App.last_index_pos vars) w) as Hd.
  destruct (App.execute_gesture_action _ gesture_type lm _ None w)
    as [[executed app] w'].
  by destruct executed.
Qed.

Lemma sleep_extends (P : Os.Call → Prop) (seconds : R) (w : Os.World) :
  extends P w (Os.sleep seconds w).2.
Proof. apply (only_sleep P seconds w). Qed.

Lemma loop_from_without_origin (rounds : list Round)
  (self : App.GestureControlApp) (vars : App.LoopVars) (w : Os.World) :
  App.scroll_start_y vars = None →
  let out := loop_from self vars rounds w in
  extends (λ c, dispatch_call c ∧ not_scroll c) w out.2 ∧
  App.scroll_start_y out.1.2 = None.
Proof.
  revert self vars w.
  induction rounds as [|round rest IH]; intros self vars w Hnone.
  { split; [apply extends_refl|done]. }
  cbn [loop_from]. cbv zeta.
  set (w0 := (Os.sleep (elapsed round) w).2).
  set (self0 := foldl handle self (events round)).
  assert (extends (λ c, dispatch_call c ∧ not_scroll c) w w0) as Hw0
    by apply sleep_extends.
  destruct (hand round) as [lm|].
  - pose proof (process_hand_without_origin self0 vars lm w0 Hnone) as Hstep.
    pose proof (scroll_origin_stays_unrecorded self0 vars lm w0 Hnone)
      as Hvars.
    destruct (App.process_hand self0 vars lm w0) as [[self1 vars1] w1].
    cbn [fst snd] in Hstep, Hvars.
    destruct (IH self1 vars1 w1 Hvars) as [Hrest Hend].
    split; [|exact Hend].
    eapply extends_trans; [exact Hw0|].
    eapply extends_trans; [exact Hstep|exact Hrest].
  - destruct (IH self0 vars w0 Hnone) as [Hrest Hend].
    split; [|exact Hend].
    eapply extends_trans; [exact Hw0|exact Hrest].
Qed.

(** X21.  [processing_loop] never scrolls.  It starts without a scroll
    origin, an origin is recorded only after a scroll gesture whose
    dispatch reported success, and without an origin that dispatch reports
    failure.  So whatever the frames, the elapsed times, the events of the
    window and the exceptions of pyautogui, the calls the loop performs
    are pointer movements, clicks, Alt+Space with N or X, and volume keys:
    no scroll (and no press or release of the mouse button), and the
    origin is still unrecorded at the end. *)
Theorem loop_never_scrolls (self : App.GestureControlApp)
  (rounds : list Round) (w : Os.World) :
  let out := processing_loop self rounds w in
  (∃ extra, Os.performed out.2 = Os.performed w ++ extra ∧
            Forall (λ c, dispatch_call c ∧ not_scroll c) extra) ∧
  App.scroll_start_y out.1.2 = None.
Proof.
  intros out.
  destruct (loop_from_without_origin rounds self
              {| App.last_index_pos := None; App.scroll_start_y := None |}
              w eq_refl) as [(extra & Hl & Hextra & _) Hend].
  split; [|exact Hend]. by exists extra.
Qed.
End ProcessingRounds.

Section MonitoringMode.
Import Recognizer Controller.

Lemma process_hand_disabled (self : App.GestureControlApp)
  (vars : App.LoopVars) (lm : list Landmark) (w : Os.World) :
  App.control_enabled self = false →
  App.process_hand self vars lm w
  = (App.set_recognizer
       (recognize_gesture (App.gesture_recognizer self) lm).2 self,
     {| App.last_index_pos := App.last_index_pos vars;
        App.scroll_start_y := None |}, w).
Proof.
  intros Hoff. unfold App.process_hand.
  destruct (recognize_gesture _ lm) as [[gesture_type confidence] r].
  cbn [App.set_recognizer App.control_enabled snd]. by rewrite Hoff.
Qed.

Lemma loop_from_disabled (rounds : list Round)
  (self : App.GestureControlApp) (vars : App.LoopVars) (w : Os.World) :
  App.control_enabled self = false →
  Forall (λ round, ToggleControl ∉ events round) rounds →
  let out := loop_from self vars rounds w in
  Os.performed out.2 = Os.performed w ∧
  Os.pointer out.2 = Os.pointer w ∧
  Os.script out.2 = Os.script w ∧
  Os.clock out.2 = foldl (λ t round, t + elapsed round) (Os.clock w) rounds ∧
  App.control_enabled out.1.1 = false ∧
  App.gesture_count out.1.1 = App.gesture_count self ∧
  App.gesture_history out.1.1 = App.gesture_history self ∧
  App.gesture_recognizer out.1.1
  = run_frames (App.gesture_recognizer self) (omap hand rounds) ∧
  App.last_index_pos out.1.2 = App.last_index_pos vars.
Proof.
  revert self vars w.
  induction rounds as [|round rest IH]; intros self vars w Hoff Hno.
  { by repeat split. }
  apply Forall_cons in Hno as [Hround Hrest].
  cbn [loop_from omap list_omap foldl]. cbv zeta.
  set (w0 := (Os.sleep (elapsed round) w).2).
  set (self0 := foldl handle self (events round)).
  assert (App.control_enabled self0 = false) as Hoff0
    by (unfold self0; by rewrite handle_no_toggle).
  destruct (handle_world_free self (events round)) as (Hr & Hc & Hh).
  fold self0 in Hr, Hc, Hh.
  destruct (hand round) as [lm|].
  - rewrite (process_hand_disabled self0 vars lm w0 Hoff0).
    set (self1 := App.set_recognizer _ self0).
    destruct (IH self1 {| App.last_index_pos := App.last_index_pos vars;
                          App.scroll_start_y := None |} w0 Hoff0 Hrest)
      as (-> & -> & -> & -> & -> & -> & -> & -> & ->).
    unfold self1. cbn [App.set_recognizer App.gesture_recognizer
      App.gesture_count App.gesture_history App.last_index_pos
      run_frames foldl]. rewrite Hr, Hc, Hh.
    by repeat split.
  - destruct (IH self0 vars w0 Hoff0 Hrest)
      as (-> & -> & -> & -> & -> & -> & -> & -> & ->).
    rewrite Hr, Hc, Hh. by repeat split.
Qed.

(** X22.  While control is disabled and is not toggled, the processing
    loop is passive: it performs no pyautogui call and consumes none of
    the coming results of pyautogui, counts no gesture and logs no action,
    whatever the frames show.  It still feeds every frame with a hand to
    the recognizer, so that the smoothing window at the end is the one
    [recognize_gesture] builds from these frames, and the only thing that
    moves in the world is the clock. *)
Theorem monitoring_is_passive (self : App.GestureControlApp)
  (rounds : list Round) (w : Os.World) :
  App.control_enabled self = false →
  Forall (λ round, ToggleControl ∉ events round) rounds →
  let out := processing_loop self rounds w in
  Os.performed out.2 = Os.performed w ∧
  Os.pointer out.2 = Os.pointer w ∧
  Os.script out.2 = Os.script w ∧
  Os.clock out.2 = foldl (λ t round, t + elapsed round) (Os.clock w) rounds ∧
  App.control_enabled out.1.1 = false ∧
  App.gesture_count out.1.1 = App.gesture_count self ∧
  App.gesture_history out.1.1 = App.gesture_history self ∧
  App.gesture_recognizer out.1.1
  = run_frames (App.gesture_recognizer self) (omap hand rounds).
Proof.
  intros Hoff Hno out.
  destruct (loop_from_disabled rounds self
              {| App.last_index_pos := None; App.scroll_start_y := None |}
              w Hoff Hno) as (H1 & H2 & H3 & H4 & H5 & H6 & H7 & H8 & _).
  by repeat split.
Qed.

Lemma monitoring_is_passive_witness :
  App.control_enabled (App.init 1920 1080) = false ∧
  Forall (λ round, ToggleControl ∉ events round) monitoring_rounds ∧
  Os.performed
    (processing_loop (App.init 1920 1080) monitoring_rounds calm_world).2
  = [].
Proof.
  assert (Forall (λ round, ToggleControl ∉ events round) monitoring_rounds)
    as Hno.
  { unfold monitoring_rounds. repeat constructor; cbn [events];
      intros Hin; repeat (apply elem_of_cons in Hin as [Hin|Hin]; [done|]);
      by apply elem_of_nil in Hin. }
  split; [reflexivity|]. split; [exact Hno|].
  by destruct (monitoring_is_passive (App.init 1920 1080) monitoring_rounds
                 calm_world eq_refl Hno) as [-> _].
Defined.
End MonitoringMode.

Section RecentActions.
Import Recognizer Controller.

Lemma add_recent_action_length (self : App.GestureControlApp) (now : R)
  (name : string) :
  (length (App.gesture_history self) ≤ 10)%nat →
  (length (App.gesture_history (App.add_recent_action self now name))
   ≤ 10)%nat.
Proof.
  intros Hlen. cbn [App.add_recent_action App.gesture_history].
  case_bool_decide as Hfull; rewrite length_app in Hfull;
    rewrite ?length_drop, length_app; cbn [length] in *; lia.
Qed.

(** A dispatch keeps the log within ten entries and counts at most one
    gesture. *)
Lemma dispatch_log_bound (self : App.GestureControlApp)
  (gesture : GestureType) (lm : list Landmark) (last_pos : option (R * R))
  (start : option R) (w : Os.World) :
  (length (App.gesture_history self) ≤ 10)%nat →
  let out := App.execute_gesture_action self gesture lm last_pos start w in
  (length (App.gesture_history out.1.2) ≤ 10)%nat ∧
  (App.gesture_count self ≤ App.gesture_count out.1.2
   ≤ S (App.gesture_count self))%nat.
Proof.
  intros Hlen.
  assert (∀ action name,
            let out := App.gated_dispatch self gesture action name w in
            (length (App.gesture_history out.1.2) ≤ 10)%nat ∧
            (App.gesture_count self ≤ App.gesture_count out.1.2
             ≤ S (App.gesture_count self))%nat) as Hgated.
  { intros action name.
    destruct (gated_dispatch_cases self gesture action name w)
      as [[_ ->]|[_ ->]]; cbn [fst snd]; [lia|].
    split; [by apply add_recent_action_length|].
    cbn [App.add_recent_action App.count_gesture App.set_recognizer
         App.set_controller App.gesture_count]. lia. }
  destruct gesture; cbn [App.execute_gesture_action];
    try apply Hgated; try (cbn [fst snd]; lia).
  - destruct (get_cursor_position lm) as [pos|]; [|cbn [fst snd]; lia].
    destruct (App.map_to_screen_coordinates self pos.1 pos.2)
      as [[mx my]|]; [|cbn [fst snd]; lia].
    destruct (move_mouse (App.action_controller self) mx my w)
      as [[r c] w1].
    cbn [fst snd App.set_controller App.gesture_history App.gesture_count].
    lia.
  - destruct (get_cursor_position lm) as [pos|]; [|cbn [fst snd]; lia].
    destruct start as [start_y|]; [|cbn [fst snd]; lia].
    case_bool_decide; [|cbn [fst snd]; lia].
    match goal with |- context [scroll ?c ?n w] =>
      destruct (scroll c n w) as [[r c'] w1] end.
    cbn [fst snd App.set_controller App.gesture_history App.gesture_count].
    lia.
  - destruct (get_cursor_position lm) as [pos|]; [|cbn [fst snd]; lia].
    repeat case_bool_decide; try (cbn [fst snd]; lia);
      match goal with |- context [adjust_volume ?c ?up w] =>
        destruct (adjust_volume c up w) as [[r c'] w1] end;
      cbn [fst snd]; (split; [by apply add_recent_action_length|]);
      cbn [App.add_recent_action App.set_controller App.gesture_count]; lia.
Qed.

Lemma process_hand_log_bound (self : App.GestureControlApp)
  (vars : App.LoopVars) (lm : list Landmark) (w : Os.World) :
  (length (App.gesture_history self) ≤ 10)%nat →
  let out := App.process_hand self vars lm w in
  (length (App.gesture_history out.1.1) ≤ 10)%nat ∧
  (App.gesture_count self ≤ App.gesture_count out.1.1
   ≤ S (App.gesture_count self))%nat.
Proof.
  intros Hlen. unfold App.process_hand.
  destruct (recognize_gesture _ lm) as [[gesture_type confidence] r].
  destruct (App.control_enabled _ && bool_decide (gesture_type ≠ NONE));
    [|cbn [fst snd App.set_recognizer App.gesture_history
           App.gesture_count]; lia].
  pose proof (dispatch_log_bound (App.set_recognizer r self) gesture_type lm
                (App.last_index_pos vars) (App.scroll_start_y vars) w Hlen)
    as Hd.
  destruct (App.execute_gesture_action _ gesture_type lm _ _ w)
    as [[executed app] w'].
  cbn [fst snd App.set_recognizer App.gesture_count] in Hd.
  by destruct executed.
Qed.

Lemma loop_from_log_bound (rounds : list Round)
  (self : App.GestureControlApp) (vars : App.LoopVars) (w : Os.World) :
  (length (App.gesture_history self) ≤ 10)%nat →
  let out := loop_from self vars rounds w in
  (length (App.gesture_history out.1.1) ≤ 10)%nat ∧
  (App.gesture_count self ≤ App.gesture_count out.1.1
   ≤ App.gesture_count self + length (omap hand rounds))%nat.
Proof.
  revert self vars w.
  induction rounds as [|round rest IH]; intros self vars w Hlen.
  { cbn [loop_from fst snd omap list_omap length]. lia. }
  cbn [loop_from omap list_omap]. cbv zeta.
  set (w0 := (Os.sleep (elapsed round) w).2).
  set (self0 := foldl handle self (events round)).
  destruct (handle_world_free self (events round)) as (_ & Hc & Hh).
  fold self0 in Hc, Hh. rewrite <- Hh in Hlen. rewrite <- Hc.
  destruct (hand round) as [lm|].
  - pose proof (process_hand_log_bound self0 vars lm w0 Hlen) as Hstep.
    destruct (App.process_hand self0 vars lm w0) as [[self1 vars1] w1].
    cbn [fst snd] in Hstep. destruct Hstep as [Hlen1 Hcount1].
    destruct (IH self1 vars1 w1 Hlen1) as [Hend Hcount].
    split; [exact Hend|]. cbn [length]. lia.
  - apply IH, Hlen.
Qed.

(** X23.  The log of recent actions never holds more than ten entries:
    if it held at most ten when the loop started (tracking starts with an
    empty log), it holds at most ten after any rounds.  And the counter of
    gestures never decreases and grows by at most one per frame with a
    hand. *)
Theorem recent_actions_bounded (self : App.GestureControlApp)
  (rounds : list Round) (w : Os.World) :
  (length (App.gesture_history self) ≤ 10)%nat →
  let out := processing_loop self rounds w in
  (length (App.gesture_history out.1.1) ≤ 10)%nat ∧
  (App.gesture_count self ≤ App.gesture_count out.1.1
   ≤ App.gesture_count self + length (omap hand rounds))%nat.
Proof.
  intros Hlen out. by apply loop_from_log_bound.
Qed.

Lemma recent_actions_bounded_witness :
  (length (App.gesture_history (App.init 1920 1080)) ≤ 10)%nat ∧
  (length (App.gesture_history
             (processing_loop (App.init 1920 1080) sample_rounds
                calm_world).1.1) ≤ 10)%nat.
Proof.
  assert (length (App.gesture_history (App.init 1920 1080)) ≤ 10)%nat
    as Hlen by (simpl; lia).
  split; [exact Hlen|].
  apply (recent_actions_bounded (App.init 1920 1080) sample_rounds
           calm_world Hlen).
Defined.
End RecentActions.

Section VolumeAndPointer.
Import Recognizer Controller.



Lemma set_controller_same (self : App.GestureControlApp) :
  App.set_controller (App.action_controller self) self = self.
Proof. by destruct self. Qed.



(** X25.  The dispatch of the pointing gesture for a hand with an index
    tip at [(x, y)].  With a margin of one half the remap divides by zero:
    the dispatch reports failure and nothing happens.  With a margin [m]
    in [0, 1/2) it reports success; under emergency stop nothing else
    happens; otherwise, on the first movement and when pyautogui does not
    raise, the pointer goes to the pixel of the remapped tip, which is on
    the screen, column 0 for a tip at or left of the zone ([x <= m]) and
    the last column for a tip at or right of it ([1 - m <= x]), and
    likewise for the rows. *)
Theorem pointer_dispatch (self : App.GestureControlApp) (lm : list Landmark)
  (last_pos : option (R * R)) (start : option R) (w : Os.World)
  (p : Landmark) :
  lm !! INDEX_TIP = Some p →
  let out :=
    App.execute_gesture_action self INDEX_EXTENDED lm last_pos start w in
  let m := App.control_zone_margin self in
  let c := App.action_controller self in
  let px := target_pixel (screen_width c) (Spec.remap m (lm_x p)) in
  let py := target_pixel (screen_height c) (Spec.remap m (lm_y p)) in
  (m = 1 / 2 → out = (false, self, w)) ∧
  (0 <= m < 1 / 2 →
     out.1.1 = true ∧
     (emergency_stop c = true → out = (true, self, w)) ∧
     (emergency_stop c = false → last_mouse_position c = None →
      never_raises w → (0 < screen_width c)%Z → (0 < screen_height c)%Z →
        Os.performed out.2 = Os.performed w ++ [Os.MoveTo px py] ∧
        App.action_controller out.1.2
        = set_last_mouse_position (Some (px, py)) c ∧
        (0 ≤ px ≤ screen_width c - 1)%Z ∧
        (0 ≤ py ≤ screen_height c - 1)%Z ∧
        (lm_x p <= m → px = 0%Z) ∧
        (1 - m <= lm_x p → px = (screen_width c - 1)%Z) ∧
        (lm_y p <= m → py = 0%Z) ∧
        (1 - m <= lm_y p → py = (screen_height c - 1)%Z))).
Proof.
  intros Hp out m c px py. unfold out.
  cbn [App.execute_gesture_action].
  rewrite (get_cursor_position_found lm p Hp). cbn [fst snd].
  unfold App.map_to_screen_coordinates. fold m. split.
  - intros Hm. unfold App.map_coordinate.
    destruct (decide (1 - 2 * m = 0)); [reflexivity|lra].
  - intros Hm. rewrite !map_coordinate_remap by done.
    cbn [mbind option_bind]. fold c.
    split; [by destruct (move_mouse c _ _ w) as [[r c'] w1]|].
    split.
    + intros Hstop. unfold move_mouse. rewrite Hstop.
      unfold c. by rewrite set_controller_same.
    + intros Hgo Hlast Hw Hwidth Hheight.
      destruct (move_mouse_emits c (Spec.remap m (lm_x p))
                  (Spec.remap m (lm_y p)) w Hgo Hw) as (w' & -> & _ & Hl).
      unfold emitted in *. rewrite Hlast in *. fold px py in Hl |- *.
      cbn [fst snd App.set_controller App.action_controller] in *.
      destruct (target_pixel_cases (screen_width c)
                  (Spec.remap m (lm_x p)) Hwidth) as (Hx0 & Hx1 & _).
      destruct (target_pixel_cases (screen_height c)
                  (Spec.remap m (lm_y p)) Hheight) as (Hy0 & Hy1 & _).
      split; [exact Hl|]. split; [done|].
      split; [by apply target_pixel_in_bounds|].
      split; [by apply target_pixel_in_bounds|].
      split; [intros Hx; apply Hx0; rewrite remap_low by done; lra|].
      split; [intros Hx; apply Hx1; rewrite remap_high by done; lra|].
      split; [intros Hy; apply Hy0; rewrite remap_low by done; lra|].
      intros Hy; apply Hy1; rewrite remap_high by done; lra.
Qed.

Lemma pointer_dispatch_witness :
  scroll_hand !! INDEX_TIP = Some (1 / 2, 475 / 1000, 0) ∧
  (App.execute_gesture_action (App.init 1920 1080) INDEX_EXTENDED
     scroll_hand None None calm_world).1.1 = true.
Proof.
  split; [reflexivity|].
  destruct (pointer_dispatch (App.init 1920 1080) scroll_hand None None
              calm_world (1 / 2, 475 / 1000, 0) eq_refl) as [_ Hzone].
  apply Hzone. cbn [App.init App.control_zone_margin]. lra.
Defined.
End VolumeAndPointer.
